(** * titanic-mlflow: preprocessing transforms, pipeline composer and ingest

    A shallow embedding of [src/transforms.py], [src/pipeline.py] and
    [src/ingest_split.py].

    - Python scalars are the type [pyobj]; Python floats are IEEE binary64
      values ([PrimFloat.float]); Python ints are unbounded ([Z]); a numpy
      64-bit integer scalar ([ONp64]) wraps around on overflow.
    - A pandas [DataFrame] is an index plus an ordered list of named
      columns; a column stores its cells together with the dtype pandas
      keeps for it: int64, float64 or object. The other dtypes of pandas
      (bool, unsigned, datetime, categorical) and duplicate column labels
      are not modelled.
    - DataFrames are mutable objects: they live in a heap and the
      transform functions receive and return references, so that
      [df.copy()] and [df_out[col] = ...] can be told apart.
    - Exceptions are explicit ([outcome]); the loguru sink and the mlflow
      parameter store are the [log] component of the state.
    - pandas, numpy, sklearn and [re] are libraries the repository uses;
      they are modelled on the meaning of the operations the code calls
      (pandas 2, numpy 2). [DataFrame.apply(f, axis=1)] hands [f] every row
      in order, as a Series of the common dtype of the frame's columns, and
      stops at the first exception; on a frame without rows or without
      columns it probes [f] once and returns an empty Series or a copy of
      the frame ([apply_empty_result]). [Series.sum()] is numpy's sum for
      the dtype of the Series. A column built from the results takes the
      dtype pandas infers for them, and the cells are stored in that dtype.
    - A keyword-argument bundle of the parameter file is one of the five
      records of keyword names the transforms accept ([kwargs]). *)

From Stdlib Require Import ZArith Ascii String.
From Stdlib Require PrimFloat SpecFloat FloatOps FloatAxioms FloatLemmas.
From stdpp Require Import base option list gmap strings.

Open Scope string_scope.
Open Scope list_scope.
Open Scope Z_scope.

(** ** Python scalars *)

Inductive pyobj : Type :=
| OInt (z : Z)
| OFloat (f : PrimFloat.float)
| OStr (s : string)
| ONone
| ONp64 (z : Z).

(** Exceptions the modelled code can raise; every one of them is a
    subclass of Python's [Exception]. *)
Inductive exn : Type :=
| KeyError (key : string)
| TypeError
| ValueError
| OverflowError
| AttributeError
| UnboundLocalError (var : string)
| SystemError.

Inductive outcome (A : Type) : Type :=
| Ret (a : A)
| Raise (e : exn).
Arguments Ret {A} a.
Arguments Raise {A} e.

#[global] Instance outcome_ret : MRet outcome := λ A a, Ret a.
#[global] Instance outcome_bind : MBind outcome := λ A B f m,
  match m with
  | Ret a => f a
  | Raise e => Raise e
  end.

(** [for x in l: acc = f(acc, x)], stopping at the first exception. *)
Fixpoint foldM {A B : Type} (f : B → A → outcome B) (acc : B) (l : list A)
  : outcome B :=
  match l with
  | [] => Ret acc
  | x :: l' => acc' ← f acc x; foldM f acc' l'
  end.

(** [[f(x) for x in l]], stopping at the first exception. *)
Fixpoint mapM_outcome {A B : Type} (f : A → outcome B) (l : list A)
  : outcome (list B) :=
  match l with
  | [] => Ret []
  | x :: l' => y ← f x; ys ← mapM_outcome f l'; Ret (y :: ys)
  end.

(** *** Floats *)

Definition float_of_Z (z : Z) : PrimFloat.float :=
  FloatOps.SF2Prim
    (SpecFloat.binary_normalize FloatOps.prec FloatOps.emax z 0 false).

(** Truncation toward zero of a finite float; [None] on NaN and infinities. *)
Definition float_trunc (f : PrimFloat.float) : option Z :=
  match FloatOps.Prim2SF f with
  | SpecFloat.S754_zero _ => Some 0
  | SpecFloat.S754_finite s m e =>
      let mag := match e with
                 | Z0 => Zpos m
                 | Zpos p => Zpos m * 2 ^ Zpos p
                 | Zneg p => Zpos m / 2 ^ Zpos p
                 end in
      Some (if s then - mag else mag)
  | SpecFloat.S754_infinity _ => None
  | SpecFloat.S754_nan => None
  end.

(** The least magnitude that rounds (to nearest, ties to even) beyond the
    largest finite binary64 value. *)
Definition float_overflow_bound : Z := 2 ^ 1024 - 2 ^ 970.

(** [float(z)] for a Python int: OverflowError when [z] is too large. *)
Definition py_float_of_int (z : Z) : outcome PrimFloat.float :=
  if Z.abs z <? float_overflow_bound then Ret (float_of_Z z)
  else Raise OverflowError.

(** *** 64-bit integers of numpy *)

Definition int64_min : Z := - 2 ^ 63.
Definition int64_max : Z := 2 ^ 63 - 1.

Definition in_int64 (z : Z) : bool := (int64_min <=? z) && (z <=? int64_max).

(** The value a 64-bit two's complement register holds after an
    operation whose exact result is [z]. *)
Definition wrap64 (z : Z) : Z := (z + 2 ^ 63) mod 2 ^ 64 - 2 ^ 63.

(** *** [int(s)] for a string: optional blanks, optional sign, decimal
    digits with single underscores between them. *)

Definition is_blank (c : ascii) : bool :=
  let n := nat_of_ascii c in
  (Nat.eqb n 32 || (Nat.leb 9 n && Nat.leb n 13)
   || (Nat.leb 28 n && Nat.leb n 31))%bool.

Definition digit_of (c : ascii) : option Z :=
  let n := nat_of_ascii c in
  if (Nat.leb 48 n && Nat.leb n 57)%bool then Some (Z.of_nat n - 48) else None.

Fixpoint lstrip (s : string) : string :=
  match s with
  | String c s' => if is_blank c then lstrip s' else s
  | EmptyString => s
  end.

(** Digits after at least one digit has been read; [us] tells that the
    previous character was an underscore. *)
Fixpoint int_digits (acc : Z) (us : bool) (s : string) : option Z :=
  match s with
  | EmptyString => if us then None else Some acc
  | String c s' =>
      match digit_of c with
      | Some d => int_digits (10 * acc + d) false s'
      | None =>
          if Ascii.eqb c "_" then (if us then None else int_digits acc true s')
          else if us then None
          else if String.eqb (lstrip s) EmptyString then Some acc else None
      end
  end.

Definition int_unsigned (s : string) : option Z :=
  match s with
  | String c s' =>
      match digit_of c with
      | Some d => int_digits d false s'
      | None => None
      end
  | EmptyString => None
  end.

Definition int_of_string (s : string) : option Z :=
  match lstrip s with
  | String "-" s' => Z.opp <$> int_unsigned s'
  | String "+" s' => int_unsigned s'
  | s' => int_unsigned s'
  end.

(** Python's [int(x)]. *)
Definition py_int (x : pyobj) : outcome Z :=
  match x with
  | OInt z => Ret z
  | ONp64 z => Ret z
  | OFloat f =>
      if PrimFloat.is_nan f then Raise ValueError
      else match float_trunc f with
           | Some z => Ret z
           | None => Raise OverflowError
           end
  | OStr s =>
      match int_of_string s with
      | Some z => Ret z
      | None => Raise ValueError
      end
  | ONone => Raise TypeError
  end.

(** Python's [a + b]. With a numpy integer on one side the other side is
    taken to 64 bits or to a float and the sum is numpy's: it wraps
    around. *)
Definition py_add (a b : pyobj) : outcome pyobj :=
  match a, b with
  | OInt x, OInt y => Ret (OInt (x + y))
  | OInt x, OFloat g => f ← py_float_of_int x; Ret (OFloat (PrimFloat.add f g))
  | OFloat f, OInt y => g ← py_float_of_int y; Ret (OFloat (PrimFloat.add f g))
  | OFloat f, OFloat g => Ret (OFloat (PrimFloat.add f g))
  | OStr s, OStr t => Ret (OStr (s ++ t)%string)
  | ONp64 x, ONp64 y => Ret (ONp64 (wrap64 (x + y)))
  | ONp64 x, OInt y =>
      if in_int64 y then Ret (ONp64 (wrap64 (x + y))) else Raise OverflowError
  | OInt x, ONp64 y =>
      if in_int64 x then Ret (ONp64 (wrap64 (x + y))) else Raise OverflowError
  | ONp64 x, OFloat g => Ret (OFloat (PrimFloat.add (float_of_Z x) g))
  | OFloat f, ONp64 y => Ret (OFloat (PrimFloat.add f (float_of_Z y)))
  | _, _ => Raise TypeError
  end.

(** [x == key] for a string [key]. *)
Definition py_eq_str (x : pyobj) (key : string) : bool :=
  match x with
  | OStr s => bool_decide (s = key)
  | _ => false
  end.

(** [pd.isnull(x)] on a scalar. *)
Definition pd_isnull (x : pyobj) : bool :=
  match x with
  | ONone => true
  | OFloat f => PrimFloat.is_nan f
  | _ => false
  end.

(** *** numpy's sum of a float64 array

    [np.add.reduce] on a contiguous array of doubles is the pairwise
    summation of numpy's [loops_utils.h]: fewer than eight elements are
    added in order; up to 128 elements are added on eight accumulators
    that are combined at the end, the elements beyond the last whole
    group of eight being added in order; a longer array is split in two
    halves, the first of a length that is a multiple of eight. *)

Fixpoint sum_from (res : PrimFloat.float) (l : list PrimFloat.float)
  : PrimFloat.float :=
  match l with
  | [] => res
  | x :: l' => sum_from (PrimFloat.add res x) l'
  end.

Fixpoint sum_lanes (r0 r1 r2 r3 r4 r5 r6 r7 : PrimFloat.float)
    (l : list PrimFloat.float) : PrimFloat.float :=
  match l with
  | a0 :: a1 :: a2 :: a3 :: a4 :: a5 :: a6 :: a7 :: l' =>
      sum_lanes (PrimFloat.add r0 a0) (PrimFloat.add r1 a1)
        (PrimFloat.add r2 a2) (PrimFloat.add r3 a3)
        (PrimFloat.add r4 a4) (PrimFloat.add r5 a5)
        (PrimFloat.add r6 a6) (PrimFloat.add r7 a7) l'
  | _ =>
      sum_from
        (PrimFloat.add
           (PrimFloat.add (PrimFloat.add r0 r1) (PrimFloat.add r2 r3))
           (PrimFloat.add (PrimFloat.add r4 r5) (PrimFloat.add r6 r7)))
        l
  end.

(** At most 128 elements. The running total starts from [-0.0], which
    leaves every first element as it is. *)
Definition sum_block (l : list PrimFloat.float) : PrimFloat.float :=
  match l with
  | a0 :: a1 :: a2 :: a3 :: a4 :: a5 :: a6 :: a7 :: l' =>
      sum_lanes a0 a1 a2 a3 a4 a5 a6 a7 l'
  | _ => sum_from PrimFloat.neg_zero l
  end.

(** [fuel] bounds the depth of the splitting; the length of the list is
    enough. *)
Fixpoint pairwise_sum (fuel : nat) (l : list PrimFloat.float) : PrimFloat.float :=
  match fuel with
  | O => sum_block l
  | S fuel' =>
      let n := length l in
      if (n <=? 128)%nat then sum_block l
      else
        let n2 := (n / 2 - (n / 2) mod 8)%nat in
        PrimFloat.add (pairwise_sum fuel' (take n2 l))
                      (pairwise_sum fuel' (drop n2 l))
  end.

(** The sum of no element is [0.0]. *)
Definition np_sum (l : list PrimFloat.float) : PrimFloat.float :=
  match l with
  | [] => PrimFloat.zero
  | _ => pairwise_sum (length l) l
  end.

(** ** Tables *)

Inductive dtype : Type := Int64 | Float64 | Object.

Record Series : Type := mkSeries {
  s_dtype : dtype;
  s_values : list pyobj
}.

Record DataFrame : Type := mkDataFrame {
  index_name : option string;
  index : list pyobj;
  columns : list (string * Series)
}.

Definition is_int (x : pyobj) : bool :=
  match x with OInt _ | ONp64 _ => true | _ => false end.

Definition is_float (x : pyobj) : bool :=
  match x with OFloat _ => true | _ => false end.

Definition is_number (x : pyobj) : bool := is_int x || is_float x.

Definition is_none (x : pyobj) : bool :=
  match x with ONone => true | _ => false end.

(** An integer that fits a 64-bit signed cell. *)
Definition is_int64 (x : pyobj) : bool :=
  match x with OInt z | ONp64 z => in_int64 z | _ => false end.

(** An integer that pandas turns into a float next to floats or [None]:
    one that fits 64 bits, signed or unsigned. *)
Definition is_machine_int (x : pyobj) : bool :=
  match x with
  | OInt z | ONp64 z => (int64_min <=? z) && (z <? 2 ^ 64)
  | _ => false
  end.

(** The dtype pandas gives to a column built from a list of Python
    objects: int64 for integers that fit; float64 for numbers among which
    there is a float or [None]; object otherwise. *)
Definition infer_dtype (vals : list pyobj) : dtype :=
  if (forallb is_int64 vals && existsb is_int64 vals)%bool then Int64
  else if (forallb (λ x, is_machine_int x || is_float x || is_none x) vals
           && existsb is_number vals
           && existsb (λ x, is_float x || is_none x) vals)%bool then Float64
  else Object.

(** The cell a column of dtype [dt] stores for a Python object. *)
Definition astype_cell (dt : dtype) (x : pyobj) : pyobj :=
  match dt, x with
  | Int64, ONp64 z => OInt z
  | Float64, (OInt z | ONp64 z) => OFloat (float_of_Z z)
  | Float64, ONone => OFloat PrimFloat.nan
  | _, _ => x
  end.

Definition Series_of (vals : list pyobj) : Series :=
  let dt := infer_dtype vals in mkSeries dt (astype_cell dt <$> vals).

Definition column_names (df : DataFrame) : list string := (columns df).*1.

Fixpoint lookup_col (cols : list (string * Series)) (name : string)
  : option Series :=
  match cols with
  | [] => None
  | (n, s) :: cols' => if decide (n = name) then Some s else lookup_col cols' name
  end.

(** [cols[name] = s]: overwrite in place, or append a new last column. *)
Fixpoint cols_set (cols : list (string * Series)) (name : string) (s : Series)
  : list (string * Series) :=
  match cols with
  | [] => [(name, s)]
  | (n, s0) :: cols' =>
      if decide (n = name) then (n, s) :: cols'
      else (n, s0) :: cols_set cols' name s
  end.

Definition tbl_setitem (df : DataFrame) (name : string) (s : Series) : DataFrame :=
  mkDataFrame (index_name df) (index df) (cols_set (columns df) name s).

(** [df.set_index(col, drop=True)]. *)
Definition tbl_set_index (df : DataFrame) (col : string) : outcome DataFrame :=
  match lookup_col (columns df) col with
  | Some s =>
      Ret (mkDataFrame (Some col) (s_values s)
             (filter (λ c, c.1 ≠ col) (columns df)))
  | None => Raise (KeyError col)
  end.

(** [df.drop(labels=labels, axis=1)]. *)
Definition tbl_drop (df : DataFrame) (labels : list string) : outcome DataFrame :=
  match filter (λ l, l ∉ column_names df) labels with
  | [] =>
      Ret (mkDataFrame (index_name df) (index df)
             (filter (λ c, c.1 ∉ labels) (columns df)))
  | l :: _ => Raise (KeyError l)
  end.

(** *** Rows *)

(** The dtype of [df.values], which every row of [apply(axis=1)] has:
    object as soon as one column is object, int64 when every column is,
    float64 otherwise (and for a frame without columns). *)
Definition is_object (dt : dtype) : bool :=
  match dt with Object => true | _ => false end.

Definition is_int64_dtype (dt : dtype) : bool :=
  match dt with Int64 => true | _ => false end.

Definition frame_dtype (df : DataFrame) : dtype :=
  let dts := (λ c, s_dtype c.2) <$> columns df in
  if existsb is_object dts then Object
  else match dts with
       | [] => Float64
       | _ => if forallb is_int64_dtype dts then Int64 else Float64
       end.

(** The scalar a row of dtype [dt] holds for a stored cell: a numpy
    integer in an int64 row, a float in a float64 row, the Python object
    itself in an object row. *)
Definition as_row_cell (dt : dtype) (x : pyobj) : pyobj :=
  match dt, x with
  | Int64, OInt z => ONp64 z
  | Float64, (OInt z | ONp64 z) => OFloat (float_of_Z z)
  | Float64, ONone => OFloat PrimFloat.nan
  | _, _ => x
  end.

(** A row as [apply(axis=1)] hands it to the function: a Series with a
    dtype whose cells are labelled by the column names. *)
Record Row : Type := mkRow {
  row_dtype : dtype;
  row_cells : list (string * pyobj)
}.

Definition row_at (df : DataFrame) (i : nat) : Row :=
  mkRow (frame_dtype df)
    (omap (λ c, (λ v, (c.1, as_row_cell (frame_dtype df) v)) <$> (s_values c.2 !! i))
       (columns df)).

Definition iterrows (df : DataFrame) : list Row :=
  imap (λ i _, row_at df i) (index df).

Fixpoint cells_getitem (cells : list (string * pyobj)) (label : string)
  : outcome pyobj :=
  match cells with
  | [] => Raise (KeyError label)
  | (n, v) :: cells' =>
      if decide (n = label) then Ret v else cells_getitem cells' label
  end.

(** [row[label]]. *)
Definition row_getitem (row : Row) (label : string) : outcome pyobj :=
  cells_getitem (row_cells row) label.

(** [row[labels]] for a list of labels: a Series of the same dtype. *)
Definition row_getitem_list (row : Row) (labels : list string) : outcome Row :=
  cells ← mapM_outcome (λ c, v ← row_getitem row c; Ret (c, v)) labels;
  Ret (mkRow (row_dtype row) cells).

(** The element numpy reads from an int64 array, and from a float64
    array. *)
Definition as_int64 (x : pyobj) : outcome Z :=
  match x with
  | ONp64 z | OInt z => Ret z
  | _ => Raise TypeError
  end.

Definition as_float64 (x : pyobj) : outcome PrimFloat.float :=
  match x with
  | OFloat f => Ret f
  | OInt z | ONp64 z => Ret (float_of_Z z)
  | ONone => Ret PrimFloat.nan
  | OStr _ => Raise TypeError
  end.

Definition nan_to_zero (f : PrimFloat.float) : PrimFloat.float :=
  if PrimFloat.is_nan f then PrimFloat.zero else f.

Definition null_to_zero (x : pyobj) : pyobj :=
  if pd_isnull x then OInt 0 else x.

(** [Series.sum()], with [skipna=True]: nulls count as zero, and the
    values are added by numpy in the dtype of the Series. An int64 sum
    wraps around, a float64 sum is [np_sum], and an object sum adds the
    Python objects from left to right. *)
Definition Series_sum (s : Row) : outcome pyobj :=
  let vals := (row_cells s).*2 in
  match row_dtype s with
  | Int64 =>
      zs ← mapM_outcome as_int64 vals;
      Ret (ONp64 (fold_left (λ acc z, wrap64 (acc + z)) zs 0))
  | Float64 =>
      fs ← mapM_outcome as_float64 vals;
      Ret (OFloat (np_sum (nan_to_zero <$> fs)))
  | Object =>
      match null_to_zero <$> vals with
      | [] => Ret (OInt 0)
      | a :: rest => foldM py_add a rest
      end
  end.

(** [Series.replace(codes)] for a dict from strings to strings: every
    value that is a key of [codes] is replaced, all at once; other values
    stay, and so does the dtype. *)
Definition replace_value (codes : gmap string string) (v : pyobj) : pyobj :=
  match v with
  | OStr s => match codes !! s with Some c => OStr c | None => v end
  | _ => v
  end.

Definition Series_replace (s : Series) (codes : gmap string string) : Series :=
  mkSeries (s_dtype s) (replace_value codes <$> s_values s).

(** [DataFrame.replace(codes)]: the same in every column. *)
Definition tbl_replace (df : DataFrame) (codes : gmap string string) : DataFrame :=
  mkDataFrame (index_name df) (index df)
    ((λ c, (c.1, Series_replace c.2 codes)) <$> columns df).

(** *** [apply(f, axis=1)] *)

(** What [apply] returns: a Series, or a DataFrame. *)
Inductive apply_result : Type :=
| ASeries (s : Series)
| AFrame (df : DataFrame).

(** [apply] on a frame of which one axis is empty. pandas calls [f] once
    on a float64 Series of NaN labelled by the columns, to see whether
    [f] reduces a row to a scalar. If that call raises, the exception is
    dropped and the result is a copy of the frame. If it returns, the
    result is a Series over the index: empty when there is no row, and
    otherwise filled with what [f] returns on an empty Series. *)
Definition apply_empty_result (df : DataFrame) (f : Row → outcome pyobj)
  : outcome apply_result :=
  match f (mkRow Float64 ((λ c, (c, OFloat PrimFloat.nan)) <$> column_names df)) with
  | Raise _ => Ret (AFrame df)
  | Ret _ =>
      match index df with
      | [] => Ret (ASeries (mkSeries Float64 []))
      | _ :: _ =>
          r ← f (mkRow Float64 []);
          Ret (ASeries (Series_of (replicate (length (index df)) r)))
      end
  end.

(** [df.apply(f, axis=1)] for a function that returns scalars. *)
Definition apply_rows (df : DataFrame) (f : Row → outcome pyobj)
  : outcome apply_result :=
  match index df, columns df with
  | _ :: _, _ :: _ =>
      vals ← mapM_outcome f (iterrows df); Ret (ASeries (Series_of vals))
  | _, _ => apply_empty_result df f
  end.

Definition apply_result_replace (r : apply_result) (codes : gmap string string)
  : apply_result :=
  match r with
  | ASeries s => ASeries (Series_replace s codes)
  | AFrame df => AFrame (tbl_replace df codes)
  end.

(** The column [df[name] = value] assigns. A DataFrame on the right-hand
    side must have exactly one column, which is then assigned; any other
    number of columns is a ValueError. *)
Definition setitem_column (value : apply_result) : outcome Series :=
  match value with
  | ASeries s => Ret s
  | AFrame df =>
      match columns df with
      | [(_, s)] => Ret s
      | _ => Raise ValueError
      end
  end.

(** ** State: the object heap and the log *)

Inductive log_entry : Type :=
| LogInfo (msg : string)
| LogException (msg : string) (e : exn)
| LogParam (name : string) (value : pyobj).

Record state : Type := mkState {
  heap : list DataFrame;
  log : list log_entry
}.

Definition M (A : Type) : Type := state → outcome A * state.

#[global] Instance M_ret : MRet M := λ A a σ, (Ret a, σ).
#[global] Instance M_bind : MBind M := λ A B f m σ,
  match m σ with
  | (Ret a, σ') => f a σ'
  | (Raise e, σ') => (Raise e, σ')
  end.

Definition lift {A : Type} (o : outcome A) : M A := λ σ, (o, σ).

Definition raise {A : Type} (e : exn) : M A := λ σ, (Raise e, σ).

(** [try: body / except Exception: handler]. *)
Definition try_except {A : Type} (body : M A) (handler : exn → M A) : M A :=
  λ σ, match body σ with
       | (Ret a, σ') => (Ret a, σ')
       | (Raise e, σ') => handler e σ'
       end.

Definition logger_info (msg : string) : M unit :=
  λ σ, (Ret (), mkState (heap σ) (log σ ++ [LogInfo msg])).

(** [logger.exception(msg)] inside a handler: the message and the
    exception being handled. *)
Definition logger_exception (msg : string) (e : exn) : M unit :=
  λ σ, (Ret (), mkState (heap σ) (log σ ++ [LogException msg e])).

Definition mlflow_log_param (name : string) (value : pyobj) : M unit :=
  λ σ, (Ret (), mkState (heap σ) (log σ ++ [LogParam name value])).

(** What a variable of the transform code holds: a DataFrame object or
    [None]. *)
Inductive pyval : Type :=
| VRef (l : nat)
| VNone.

(** The object behind a value on which a DataFrame method is called. A
    Python reference always denotes an object; the model gives a
    reference outside the heap an outcome of its own (SystemError). *)
Definition deref (v : pyval) : M DataFrame :=
  λ σ, match v with
       | VNone => (Raise AttributeError, σ)
       | VRef l =>
           match heap σ !! l with
           | Some df => (Ret df, σ)
           | None => (Raise SystemError, σ)
           end
       end.

Definition new_DataFrame (df : DataFrame) : M pyval :=
  λ σ, (Ret (VRef (length (heap σ))), mkState (heap σ ++ [df]) (log σ)).

Definition DataFrame_copy (v : pyval) : M pyval :=
  df ← deref v; new_DataFrame df.

Definition DataFrame_set_index (v : pyval) (col : string) : M pyval :=
  df ← deref v; df' ← lift (tbl_set_index df col); new_DataFrame df'.

Definition DataFrame_drop (v : pyval) (labels : list string) : M pyval :=
  df ← deref v; df' ← lift (tbl_drop df labels); new_DataFrame df'.

(** [df.apply(f, axis=1)]. The DataFrame it may return is a fresh copy
    that the code only reads, so it is a value here and no object of the
    heap. *)
Definition DataFrame_apply_rows (v : pyval) (f : Row → outcome pyobj)
  : M apply_result :=
  df ← deref v; lift (apply_rows df f).

(** [df[name] = s] for a Series, in place. *)
Definition DataFrame_setitem (v : pyval) (name : string) (s : Series) : M unit :=
  λ σ, match v with
       | VNone => (Raise TypeError, σ)
       | VRef l =>
           match heap σ !! l with
           | Some df =>
               (Ret (), mkState (<[l := tbl_setitem df name s]> (heap σ)) (log σ))
           | None => (Raise SystemError, σ)
           end
       end.

(** [df[name] = value] for what [apply] returned. *)
Definition DataFrame_setitem_value (v : pyval) (name : string)
    (value : apply_result) : M unit :=
  s ← lift (setitem_column value); DataFrame_setitem v name s.

(** [df[name]]. *)
Definition DataFrame_getitem (v : pyval) (name : string) : M Series :=
  df ← deref v;
  match lookup_col (columns df) name with
  | Some s => mret s
  | None => raise (KeyError name)
  end.

(** ** Regular expressions: the fragment [re.search] is used with *)

Module Re.

(** A pattern is a sequence of items: a literal character, or a
    capturing group around a greedy one-or-more repetition of a
    character class. *)
Inductive item : Type :=
| Lit (c : ascii)
| GroupPlus (cls : ascii → bool).

Definition groups : Type := list (list ascii).

(** [cls+] followed by the continuation [k], on input [s]; [acc] holds
    the characters the repetition has taken so far. The longest
    repetition is tried first, then the engine backtracks. *)
Fixpoint plus_match (cls : ascii → bool) (k : list ascii → option groups)
    (acc s : list ascii) : option groups :=
  match s with
  | a :: s' =>
      if cls a then
        match plus_match cls k (acc ++ [a]) s' with
        | Some r => Some r
        | None => (λ gs, (acc ++ [a]) :: gs) <$> k s'
        end
      else None
  | [] => None
  end.

(** Match the pattern at the start of [s]; the result lists the
    captured groups in order. *)
Fixpoint match_here (p : list item) (s : list ascii) : option groups :=
  match p with
  | [] => Some []
  | Lit c :: p' =>
      match s with
      | a :: s' => if Ascii.eqb a c then match_here p' s' else None
      | [] => None
      end
  | GroupPlus cls :: p' => plus_match cls (match_here p') [] s
  end.

(** [re.search]: the match at the leftmost position that has one. *)
Fixpoint search (p : list item) (s : list ascii) : option groups :=
  match match_here p s with
  | Some g => Some g
  | None =>
      match s with
      | [] => None
      | _ :: s' => search p s'
      end
  end.

(** [m.group(n)] for [n >= 1]. *)
Definition group (n : nat) (m : groups) : string :=
  string_of_list_ascii (default [] (m !! pred n)).

(** [[A-Za-z]] *)
Definition is_ascii_letter (c : ascii) : bool :=
  let n := nat_of_ascii c in
  ((Nat.leb 65 n && Nat.leb n 90) || (Nat.leb 97 n && Nat.leb n 122))%bool.

End Re.

(** [r' ([A-Za-z]+)\.'] *)
Definition title_pattern : list Re.item :=
  [Re.Lit " "; Re.GroupPlus Re.is_ascii_letter; Re.Lit "."].

(** [re.search(pattern, x)]: a non-string argument is a TypeError. *)
Definition re_search (p : list Re.item) (x : pyobj) : outcome (option Re.groups) :=
  match x with
  | OStr s => Ret (Re.search p (list_ascii_of_string s))
  | _ => Raise TypeError
  end.


(** ** src/transforms.py *)

Definition set_df_index (df : pyval) (df_index_col : string) : M pyval :=
  logger_info "Running set_df_index()";;
  (* the local [df_out] is bound only when the [try] body completes *)
  df_out ← try_except
    (r ← DataFrame_set_index df df_index_col; mret (Some r))
    (λ e, logger_exception "Error in set_df_index()" e;; mret None);
  match df_out with
  | Some r => mret r
  | None => raise (UnboundLocalError "df_out")
  end.

Definition drop_columns (df : pyval) (drop_column_names : list string) : M pyval :=
  logger_info "Running drop_columns()";;
  try_except
    (df_out ← DataFrame_drop df drop_column_names;
     mret df_out)
    (λ e, logger_exception "Error in drop_columns()" e;; mret VNone).

Definition extract_title (row : Row) (source_column : string) : outcome pyobj :=
  text ← row_getitem row source_column;
  title_search ← re_search title_pattern text;
  match title_search with
  | Some m => Ret (OStr (Re.group 1 m))
  | None => Ret (OStr "")
  end.

Definition create_title_cat (df : pyval) (source_column dest_column : string)
    (title_codes : gmap string string) : M pyval :=
  logger_info "Running create_title_cat()";;
  try_except
    (df_out ← DataFrame_copy df;
     titles ← DataFrame_apply_rows df_out (λ row, extract_title row source_column);
     DataFrame_setitem_value df_out dest_column
       (apply_result_replace titles title_codes);;
     mret df_out)
    (λ e, logger_exception "Error in create_title_cat()" e;; mret VNone).

(** One pass of [for key, value in age_codes.items()] in [infer_age];
    [age] is the local variable, [None] while it is unbound. *)
Definition infer_age_step (row : Row) (title_column : string)
    (age : option pyobj) (item : string * pyobj) : outcome (option pyobj) :=
  title ← row_getitem row title_column;
  if py_eq_str title item.1 then Ret (Some item.2) else Ret age.

Definition infer_age (row : Row) (source_column title_column : string)
    (age_codes : gmap string pyobj) : outcome pyobj :=
  src ← row_getitem row source_column;
  age ← (if pd_isnull src then
           foldM (infer_age_step row title_column) None (map_to_list age_codes)
         else
           src' ← row_getitem row source_column;
           z ← py_int src';
           Ret (Some (OInt z)));
  match age with
  | Some a => Ret a
  | None => Raise (UnboundLocalError "age")
  end.

Definition impute_age (df : pyval) (source_column title_column : string)
    (age_codes : gmap string pyobj) : M pyval :=
  logger_info "Running impute_age()";;
  try_except
    (df_out ← DataFrame_copy df;
     ages ← DataFrame_apply_rows df_out
              (λ row, infer_age row source_column title_column age_codes);
     DataFrame_setitem_value df_out source_column ages;;
     mret df_out)
    (λ e, logger_exception "Error in impute_age()" e;; mret VNone).

Definition family_size_of_row (row : Row) (source_columns : list string)
  : outcome pyobj :=
  selected ← row_getitem_list row source_columns;
  total ← Series_sum selected;
  py_add total (OInt 1).

Definition create_family_size (df : pyval) (source_columns : list string)
    (dest_column : string) : M pyval :=
  logger_info "Running create_family_size()";;
  try_except
    (df_out ← DataFrame_copy df;
     sizes ← DataFrame_apply_rows df_out
               (λ row, family_size_of_row row source_columns);
     DataFrame_setitem_value df_out dest_column sizes;;
     mret df_out)
    (λ e, logger_exception "Error in create_family_size()" e;; mret VNone).

(** ** src/pipeline.py *)

(** A keyword-argument bundle as the parameter file gives it: the
    keyword names decide which transform accepts it. *)
Inductive kwargs : Type :=
| kw_set_df_index (df_index_col : string)
| kw_create_title_cat (source_column dest_column : string)
    (title_codes : gmap string string)
| kw_impute_age (source_column title_column : string)
    (age_codes : gmap string pyobj)
| kw_drop_columns (drop_column_names : list string)
| kw_create_family_size (source_columns : list string) (dest_column : string).

Inductive transform : Type :=
| fn_set_df_index
| fn_create_title_cat
| fn_impute_age
| fn_drop_columns
| fn_create_family_size.

(** [func(X, **kw_args)]: keywords that are not the function's
    parameters are a TypeError raised by the call itself. *)
Definition call_kw (f : transform) (X : pyval) (kw : kwargs) : M pyval :=
  match f, kw with
  | fn_set_df_index, kw_set_df_index c => set_df_index X c
  | fn_create_title_cat, kw_create_title_cat s d codes => create_title_cat X s d codes
  | fn_impute_age, kw_impute_age s t codes => impute_age X s t codes
  | fn_drop_columns, kw_drop_columns names => drop_columns X names
  | fn_create_family_size, kw_create_family_size cols d => create_family_size X cols d
  | _, _ => raise TypeError
  end.

(** sklearn's [FunctionTransformer(func=..., kw_args=...)]. *)
Record FunctionTransformer : Type := mkFunctionTransformer {
  func : transform;
  kw_args : kwargs
}.

(** [fit] keeps nothing for a FunctionTransformer, and [transform]
    calls the function once. *)
Definition FunctionTransformer_fit_transform (t : FunctionTransformer)
    (X : pyval) : M pyval :=
  call_kw (func t) X (kw_args t).

(** sklearn's [Pipeline(steps)]: named steps, in a list. *)
Definition Pipeline : Type := list (string * FunctionTransformer).

(** [Pipeline.fit_transform]: every step but the last is fitted and
    applied in turn, then the last one is. *)
Fixpoint Pipeline_fit (steps : Pipeline) (X : pyval) : M pyval :=
  match steps with
  | [] => mret X
  | step :: rest =>
      Xt ← FunctionTransformer_fit_transform step.2 X;
      Pipeline_fit rest Xt
  end.

Definition Pipeline_fit_transform (pipeline : Pipeline) (X : pyval) : M pyval :=
  match last pipeline with
  | Some final =>
      Xt ← Pipeline_fit (removelast pipeline) X;
      FunctionTransformer_fit_transform final.2 Xt
  | None => raise ValueError
  end.

(** [d[k]] on a dict. *)
Definition dict_getitem {V : Type} (d : gmap string V) (k : string) : outcome V :=
  match d !! k with
  | Some v => Ret v
  | None => Raise (KeyError k)
  end.

Definition create_pipeline (pipeline_parameters : gmap string kwargs)
  : outcome Pipeline :=
  set_df_index_kw_args ← dict_getitem pipeline_parameters "set_df_index_kw_args";
  create_title_cat_kw_args ← dict_getitem pipeline_parameters "create_title_cat_kw_args";
  drop_columns_kw_args ← dict_getitem pipeline_parameters "drop_columns_kw_args";
  impute_age_kw_args ← dict_getitem pipeline_parameters "impute_age_kw_args";
  let pipeline := [
    ("Set dataframe index",
       mkFunctionTransformer fn_set_df_index set_df_index_kw_args);
    ("Create title_cat column",
       mkFunctionTransformer fn_create_title_cat create_title_cat_kw_args);
    ("Impute missing Age values",
       mkFunctionTransformer fn_impute_age impute_age_kw_args);
    ("Drop columns",
       mkFunctionTransformer fn_drop_columns drop_columns_kw_args)
  ] in
  Ret pipeline.

(** ** src/ingest_split.py *)

(** Run-time values whose class [isinstance] looks at. *)
Inductive pyvalue : Type :=
| PySeries (s : Series)
| PyDataFrame (v : pyval)
| PyScalar (x : pyobj)
| PyNpInt64 (z : Z).

Inductive pyclass : Type :=
| class_Series
| class_DataFrame
| class_int
| class_float
| class_str
| class_NoneType
| class_np_int64.

#[global] Instance pyclass_eq_dec : EqDecision pyclass.
Proof. solve_decision. Defined.

Definition type_of (x : pyvalue) : pyclass :=
  match x with
  | PySeries _ => class_Series
  | PyDataFrame (VRef _) => class_DataFrame
  | PyDataFrame VNone => class_NoneType
  | PyScalar (OInt _) => class_int
  | PyScalar (OFloat _) => class_float
  | PyScalar (OStr _) => class_str
  | PyScalar ONone => class_NoneType
  | PyScalar (ONp64 _) => class_np_int64
  | PyNpInt64 _ => class_np_int64
  end.

(** None of these classes derives from another one of them. *)
Definition isinstance (x : pyvalue) (c : pyclass) : bool :=
  bool_decide (type_of x = c).

Fixpoint for_each {A : Type} (l : list A) (body : A → M unit) : M unit :=
  match l with
  | [] => mret ()
  | x :: l' => body x;; for_each l' body
  end.

Section Ingest.

(** The file system and the CSV reader behind [pd.read_csv]. *)
Variable read_csv : string → outcome DataFrame.
(** Python's [float(s)] parser for text. *)
Variable float_of_string : string → option PrimFloat.float.
(** sklearn's [train_test_split(X, y, train_size, test_size, random_state)]. *)
Variable train_test_split :
  pyval → pyval → pyobj → pyobj → pyobj → M (pyval * pyval * pyval * pyval).

Definition pd_read_csv (path : string) : M pyval :=
  df ← lift (read_csv path); new_DataFrame df.

Definition to_float (x : pyobj) : outcome pyobj :=
  match x with
  | OInt z => f ← py_float_of_int z; Ret (OFloat f)
  | ONp64 z => Ret (OFloat (float_of_Z z))
  | OFloat f => Ret (OFloat f)
  | OStr s =>
      match float_of_string s with
      | Some f => Ret (OFloat f)
      | None => Raise ValueError
      end
  | ONone => Raise TypeError
  end.

(** [s.astype(float)]. *)
Definition Series_astype_float (s : Series) : outcome Series :=
  vals ← mapM_outcome to_float (s_values s);
  Ret (mkSeries Float64 vals).

(** The body both loops of the block share: the test and the
    assignment are on [df_train]. *)
Definition convert_column (df_train : pyval) (column : string) : M unit :=
  s ← DataFrame_getitem df_train column;
  if isinstance (PySeries s) class_np_int64 then
    s' ← DataFrame_getitem df_train column;
    s'' ← lift (Series_astype_float s');
    DataFrame_setitem df_train column s''
  else mret ().

(** The block under [# Convert ints to floats]. *)
Definition convert_ints_to_floats (df_train df_holdout : pyval) : M unit :=
  train ← deref df_train;
  for_each (column_names train) (convert_column df_train);;
  holdout ← deref df_holdout;
  for_each (column_names holdout) (convert_column df_train).

(** [df[[name]]]: a new one-column frame. *)
Definition DataFrame_getitem_frame (v : pyval) (name : string) : M pyval :=
  df ← deref v;
  match lookup_col (columns df) name with
  | Some s => new_DataFrame (mkDataFrame (index_name df) (index df) [(name, s)])
  | None => raise (KeyError name)
  end.

Definition ingest_split (train_test_raw_path holdout_raw_path target : string)
    (ingest_split_parameters : gmap string pyobj)
  : M (pyval * pyval * pyval * pyval * pyval) :=
  logger_info "Running ingest_split()";;
  train_size ← lift (dict_getitem ingest_split_parameters "train_size");
  test_size ← lift (dict_getitem ingest_split_parameters "test_size");
  random_state ← lift (dict_getitem ingest_split_parameters "random_state");
  mlflow_log_param "train_size" train_size;;
  mlflow_log_param "test_size" test_size;;
  mlflow_log_param "random_state" random_state;;
  df_train ← pd_read_csv train_test_raw_path;
  df_holdout ← pd_read_csv holdout_raw_path;
  convert_ints_to_floats df_train df_holdout;;
  X ← DataFrame_drop df_train [target];
  y ← DataFrame_getitem_frame df_train target;
  let X_holdout := df_holdout in
  '(X_train, X_test, y_train, y_test) ←
    train_test_split X y train_size test_size random_state;
  mret (X_train, X_test, y_train, y_test, X_holdout).

End Ingest.

(** ** Specification-side notions and sample data *)

(** Folding a table through a list of step functions, left to right. *)
Definition fold_steps (steps : list (pyval → M pyval)) (X : pyval) : M pyval :=
  fold_left (λ acc step, acc ≫= step) steps (mret X).

(** The four option bundles [create_pipeline] reads. *)
Definition bundle_keys : list string :=
  ["set_df_index_kw_args"; "create_title_cat_kw_args";
   "drop_columns_kw_args"; "impute_age_kw_args"].

Definition ex_passengers : DataFrame :=
  mkDataFrame None [OInt 0; OInt 1; OInt 2]
    [("PassengerId", mkSeries Int64 [OInt 1; OInt 2; OInt 3]);
     ("Name", mkSeries Object
        [OStr "Braund, Mr. Owen Harris"; OStr "Heikkinen, Miss. Laina";
         OStr "Moran, Mr. James"]);
     ("Age", mkSeries Float64
        [OFloat (float_of_Z 22); OFloat (float_of_Z 26); OFloat PrimFloat.nan]);
     ("SibSp", mkSeries Int64 [OInt 1; OInt 0; OInt 0]);
     ("Parch", mkSeries Int64 [OInt 0; OInt 2; OInt 0])].

Definition ex_title_codes : gmap string string :=
  {[ "Mr" := "gen_male"; "Miss" := "young_female" ]}.

Definition ex_age_codes : gmap string pyobj :=
  {[ "gen_male" := OInt 30; "young_female" := OInt 21 ]}.

Definition ex_pipeline_parameters : gmap string kwargs :=
  {[ "set_df_index_kw_args" := kw_set_df_index "PassengerId";
     "create_title_cat_kw_args" :=
       kw_create_title_cat "Name" "TitleCategory" ex_title_codes;
     "drop_columns_kw_args" := kw_drop_columns ["Name"];
     "impute_age_kw_args" := kw_impute_age "Age" "TitleCategory" ex_age_codes ]}.

(** A loaded train table and a loaded holdout table with integer-typed
    columns. *)
Definition ex_train : DataFrame :=
  mkDataFrame None [OInt 0; OInt 1]
    [("Survived", mkSeries Int64 [OInt 0; OInt 1]);
     ("Pclass", mkSeries Int64 [OInt 3; OInt 1]);
     ("Age", mkSeries Float64 [OFloat (float_of_Z 22); OFloat PrimFloat.nan])].

Definition ex_holdout : DataFrame :=
  mkDataFrame None [OInt 0]
    [("Pclass", mkSeries Int64 [OInt 2]);
     ("Age", mkSeries Float64 [OFloat (float_of_Z 35)])].

(** The cell that column [c] stores for line [i]. *)
Definition cell (df : DataFrame) (c : string) (i : nat) : option pyobj :=
  s ← lookup_col (columns df) c; s_values s !! i.

(** The cells of line [i] as the columns store them, labelled by the
    column names. *)
Definition stored_row (df : DataFrame) (i : nat) : list (string * pyobj) :=
  omap (λ c, (λ v, (c.1, v)) <$> (s_values c.2 !! i)) (columns df).

(** The line numbers of a table. *)
Definition lines (df : DataFrame) : list nat := seq 0 (length (index df)).

(** The table each of the three assigning transforms builds from its
    input table, or the exception that keeps it from building one. *)
Definition assign_value (df : DataFrame) (name : string) (value : apply_result)
  : outcome DataFrame :=
  s ← setitem_column value; Ret (tbl_setitem df name s).

Definition title_table (df : DataFrame) (src dst : string)
    (codes : gmap string string) : outcome DataFrame :=
  r ← apply_rows df (λ row, extract_title row src);
  assign_value df dst (apply_result_replace r codes).

Definition age_table (df : DataFrame) (src title : string)
    (codes : gmap string pyobj) : outcome DataFrame :=
  r ← apply_rows df (λ row, infer_age row src title codes);
  assign_value df src r.

Definition size_table (df : DataFrame) (cols : list string) (dst : string)
  : outcome DataFrame :=
  r ← apply_rows df (λ row, family_size_of_row row cols);
  assign_value df dst r.

(** The category of a row is a key of the fill-value mapping. *)
Definition category_listed (codes : gmap string pyobj) (t : pyobj) : bool :=
  match t with
  | OStr k => bool_decide (is_Some (codes !! k))
  | _ => false
  end.

(** C4 as the specification words it, in its weakest reading: a row with
    a missing source value and a category that the mapping lacks does not
    keep [impute_age] from returning a table. *)
Definition unmapped_category_still_returns_table : Prop :=
  ∀ σ l df src title (codes : gmap string pyobj) i row x t,
    heap σ !! l = Some df →
    iterrows df !! i = Some row →
    row_getitem row src = Ret x → pd_isnull x = true →
    row_getitem row title = Ret t → category_listed codes t = false →
    ∃ l' σ', impute_age (VRef l) src title codes σ = (Ret (VRef l'), σ').

(** Passengers with a title category; the last one has no age and a
    category that [ex_age_codes] does not list. *)
Definition ex_titled : DataFrame :=
  mkDataFrame None [OInt 0; OInt 1; OInt 2]
    [("Age", mkSeries Float64
        [OFloat (float_of_Z 22); OFloat PrimFloat.nan; OFloat PrimFloat.nan]);
     ("TitleCategory", mkSeries Object
        [OStr "gen_male"; OStr "young_female"; OStr "Dr"])].

(** The same passengers, every category listed. *)
Definition ex_titled_ok : DataFrame :=
  mkDataFrame None [OInt 0; OInt 1; OInt 2]
    [("Age", mkSeries Float64
        [OFloat (float_of_Z 22); OFloat PrimFloat.nan; OFloat PrimFloat.nan]);
     ("TitleCategory", mkSeries Object
        [OStr "gen_male"; OStr "young_female"; OStr "gen_male"])].









(** The sum of a list of integers. *)
Definition Z_sum (zs : list Z) : Z := foldr Z.add 0 zs.



(** The dtypes of the columns of a table. *)
Definition column_dtypes (df : DataFrame) : list dtype :=
  (λ c, s_dtype c.2) <$> columns df.




(** A table of integer columns only, with a count at the upper end of
    the 64-bit range. *)
Definition ex_wide_counts : DataFrame :=
  mkDataFrame None [OInt 0]
    [("SibSp", mkSeries Int64 [OInt 9223372036854775807]);
     ("Parch", mkSeries Int64 [OInt 1])].

(** The same counts next to a float column. *)
Definition ex_fare_counts : DataFrame :=
  mkDataFrame None [OInt 0; OInt 1]
    [("Fare", mkSeries Float64 [OFloat (float_of_Z 7); OFloat (float_of_Z 71)]);
     ("SibSp", mkSeries Int64 [OInt 1; OInt 0]);
     ("Parch", mkSeries Int64 [OInt 0; OInt 2])].

(** C8 as the specification words it: after a second run with the same
    columns and code table, a row whose destination value was a value of
    the code table still has that value. *)
Definition title_cat_rerun_keeps_mapped_rows : Prop :=
  ∀ σ l df src dst (codes : gmap string string) l1 σ1 df1 i k v,
    heap σ !! l = Some df →
    create_title_cat (VRef l) src dst codes σ = (Ret (VRef l1), σ1) →
    heap σ1 !! l1 = Some df1 →
    row_getitem (row_at df1 i) dst = Ret (OStr v) →
    codes !! k = Some v →
    ∃ l2 σ2 df2,
      create_title_cat (VRef l1) src dst codes σ1 = (Ret (VRef l2), σ2)
      ∧ heap σ2 !! l2 = Some df2
      ∧ row_getitem (row_at df2 i) dst = Ret (OStr v).

Definition ex_names : DataFrame :=
  mkDataFrame None [OInt 0]
    [("Name", mkSeries Object [OStr "Braund, Mr. Owen Harris"])].

(** A title in a text, in the specification's words: a word (one or more
    letters) that stands right after a space and right before a period.
    [pre] is what comes before the space, [post] what follows the
    period. *)
Definition title_at (s pre t post : list ascii) : Prop :=
  s = pre ++ " "%char :: t ++ "."%char :: post
  ∧ t ≠ []
  ∧ Forall (λ c, Re.is_ascii_letter c = true) t.

(** The token the specification extracts from a text: the first title in
    it, or the empty string when there is none. *)
Definition title_token_spec (text token : string) : Prop :=
  let s := list_ascii_of_string text in
  (∃ pre t post,
      token = string_of_list_ascii t
      ∧ title_at s pre t post
      ∧ ∀ pre' t' post', title_at s pre' t' post' → (length pre ≤ length pre')%nat)
  ∨ (token = "" ∧ ∀ pre t post, ¬ title_at s pre t post).

(** Mapping a token through the code table; a token that is no key of
    the table stays as it is. *)
Definition code_or_raw (codes : gmap string string) (token : string) : string :=
  default token (codes !! token).

(** What [extract_title] computes on a text. *)
Definition title_of (text : string) : string :=
  match Re.search title_pattern (list_ascii_of_string text) with
  | Some m => Re.group 1 m
  | None => ""
  end.

(** The source column holds a text in this row. *)
Definition title_row_ok (src : string) (row : Row) : bool :=
  match row_getitem row src with
  | Ret (OStr _) => true
  | _ => false
  end.

(** The condition of C6 on line [i]: the source column stores a text
    there. *)
Definition text_cell_ok (df : DataFrame) (src : string) (i : nat) : bool :=
  match cell df src i with
  | Some (OStr _) => true
  | _ => false
  end.

(** C6 as the specification words it: in every table, every line whose
    source value is a text gets the mapped token of that text in the
    destination column of the returned table. *)
Definition every_text_row_gets_its_title : Prop :=
  ∀ σ l df src dst (codes : gmap string string) i text,
    heap σ !! l = Some df →
    (i < length (index df))%nat →
    cell df src i = Some (OStr text) →
    ∃ l' σ' df' token,
      create_title_cat (VRef l) src dst codes σ = (Ret (VRef l'), σ')
      ∧ heap σ' !! l' = Some df'
      ∧ title_token_spec text token
      ∧ cell df' dst i = Some (OStr (code_or_raw codes token)).

(** Two passengers, the second without a name. *)
Definition ex_names_gap : DataFrame :=
  mkDataFrame None [OInt 0; OInt 1]
    [("Name", mkSeries Object
        [OStr "Braund, Mr. Owen Harris"; OFloat PrimFloat.nan])].

(** A file system with the two sample files. *)
Definition ex_read_csv (path : string) : outcome DataFrame :=
  if decide (path = "train.csv") then Ret ex_train
  else if decide (path = "holdout.csv") then Ret ex_holdout
  else Raise ValueError.

Definition ex_split_parameters : gmap string pyobj :=
  {[ "train_size" := OFloat (PrimFloat.div (float_of_Z 4) (float_of_Z 5));
     "test_size" := OFloat (PrimFloat.div (float_of_Z 1) (float_of_Z 5));
     "random_state" := OInt 42 ]}.

(** The pipeline [create_pipeline] builds from [ex_pipeline_parameters]. *)
Definition ex_pipeline : Pipeline :=
  [("Set dataframe index",
    mkFunctionTransformer fn_set_df_index (kw_set_df_index "PassengerId"));
   ("Create title_cat column",
    mkFunctionTransformer fn_create_title_cat
      (kw_create_title_cat "Name" "TitleCategory" ex_title_codes));
   ("Impute missing Age values",
    mkFunctionTransformer fn_impute_age
      (kw_impute_age "Age" "TitleCategory" ex_age_codes));
   ("Drop columns",
    mkFunctionTransformer fn_drop_columns (kw_drop_columns ["Name"]))].

(** A stand-in for the split, for sample runs: both parts are the whole. *)
Definition ex_split (X y : pyval) (train_size test_size random_state : pyobj)
  : M (pyval * pyval * pyval * pyval) :=
  mret (X, X, y, y).

Definition split_parameter_keys : list string :=
  ["train_size"; "test_size"; "random_state"].

(** The column a transform assigns with [df_out[...] = ...], when it
    assigns one. *)
Definition assigned_column (kw : kwargs) : option string :=
  match kw with
  | kw_create_title_cat _ dst _ => Some dst
  | kw_impute_age src _ _ => Some src
  | kw_create_family_size _ dst => Some dst
  | _ => None
  end.

(** The counts the listed columns store for line [i]: an integer, or
    nothing where the cell is missing; [None] when a listed column is
    absent or holds something else. *)
Fixpoint count_cells (df : DataFrame) (cols : list string) (i : nat)
  : option (list (option Z)) :=
  match cols with
  | [] => Some []
  | c :: cols' =>
      match cell df c i with
      | Some (OInt z) => zs ← count_cells df cols' i; Some (Some z :: zs)
      | Some v =>
          if pd_isnull v then zs ← count_cells df cols' i; Some (None :: zs)
          else None
      | None => None
      end
  end.

(** A Python int. *)
Definition is_py_int (x : pyobj) : bool :=
  match x with OInt _ => true | _ => false end.

(** The counts that are there. *)
Definition known_counts (counts : list (option Z)) : list Z := omap id counts.

(** Passengers of whom some counts are not known. *)
Definition ex_counts : DataFrame :=
  mkDataFrame None [OInt 0; OInt 1; OInt 2]
    [("Name", mkSeries Object [OStr "a"; OStr "b"; OStr "c"]);
     ("SibSp", mkSeries Object [OInt 1; OFloat PrimFloat.nan; ONone]);
     ("Parch", mkSeries Object [OInt 2; OInt 2; OFloat PrimFloat.nan])].

(** A passenger without age whose title is in neither table. *)
Definition ex_doctor : DataFrame :=
  mkDataFrame None [OInt 0; OInt 1]
    [("Name", mkSeries Object
        [OStr "Braund, Mr. Owen Harris"; OStr "Minahan, Dr. William Edward"]);
     ("Age", mkSeries Float64 [OFloat (float_of_Z 22); OFloat PrimFloat.nan])].

(** A table with rows and without columns, as [set_df_index] leaves it
    when the index column was the only column. *)
Definition ex_no_columns : DataFrame :=
  mkDataFrame (Some "PassengerId") [OInt 1; OInt 2] [].

(** A table without rows. *)
Definition ex_no_rows : DataFrame :=
  mkDataFrame None []
    [("Name", mkSeries Object []);
     ("Age", mkSeries Float64 [])].

(** * Properties *)

(** ** Sequencing over lists *)

Lemma mapM_outcome_length {A B : Type} (f : A → outcome B) (l : list A) ys :
  mapM_outcome f l = Ret ys → length ys = length l.
Proof.
  revert ys. induction l as [|x l IH]; intros ys; simpl.
  - intros [= <-]. done.
  - destruct (f x) as [y|e]; simpl; [|done].
    destruct (mapM_outcome f l) as [ys'|e]; simpl; [|done].
    intros [= <-]. simpl. f_equal. by apply IH.
Qed.

Lemma mapM_outcome_lookup {A B : Type} (f : A → outcome B) (l : list A) ys i x :
  mapM_outcome f l = Ret ys → l !! i = Some x →
  ∃ y, ys !! i = Some y ∧ f x = Ret y.
Proof.
  revert ys i. induction l as [|a l IH]; intros ys i; simpl; [done|].
  destruct (f a) as [y|e] eqn:Ha; simpl; [|done].
  destruct (mapM_outcome f l) as [ys'|e]; simpl; [|done].
  intros [= <-]. destruct i as [|i]; simpl.
  - intros [= <-]. eauto.
  - intros Hx. by apply IH.
Qed.

Lemma mapM_outcome_total {A B : Type} (f : A → outcome B) (l : list A) :
  (∀ i x, l !! i = Some x → ∃ y, f x = Ret y) →
  ∃ ys, mapM_outcome f l = Ret ys.
Proof.
  induction l as [|a l IH]; intros Hall; simpl; [eauto|].
  destruct (Hall 0%nat a eq_refl) as [y ->]. simpl.
  destruct IH as [ys ->]; [|simpl; eauto].
  intros i x Hx. apply (Hall (S i)). done.
Qed.

Lemma mapM_outcome_raise {A B : Type} (f : A → outcome B) (l : list A) i x e :
  l !! i = Some x → f x = Raise e → ∃ e', mapM_outcome f l = Raise e'.
Proof.
  revert i. induction l as [|a l IH]; intros i; simpl; [done|].
  destruct i as [|i]; simpl.
  - intros [= ->] ->. simpl. eauto.
  - intros Hx He. destruct (f a) as [y|e0]; simpl; [|eauto].
    destruct (IH i Hx He) as [e' ->]. simpl. eauto.
Qed.

Lemma mapM_outcome_ext {A A' B : Type} (f : A → outcome B) (g : A' → outcome B)
    (l : list A) (l' : list A') :
  length l = length l' →
  (∀ i x x', l !! i = Some x → l' !! i = Some x' → f x = g x') →
  mapM_outcome f l = mapM_outcome g l'.
Proof.
  revert l'. induction l as [|a l IH]; intros [|a' l']; simpl; try done.
  intros [= Hlen] Hext.
  rewrite (Hext 0%nat a a' eq_refl eq_refl).
  rewrite (IH l' Hlen); [done|].
  intros i x x'. apply (Hext (S i)).
Qed.

Lemma mapM_outcome_fmap {A B : Type} (f : A → outcome B) (g : A → B) (l : list A) :
  (∀ x, x ∈ l → f x = Ret (g x)) → mapM_outcome f l = Ret (g <$> l).
Proof.
  induction l as [|a l IH]; intros Hfg; simpl; [done|].
  rewrite (Hfg a); [|apply list_elem_of_here]. simpl.
  rewrite IH; [done|]. intros x Hx. apply Hfg. by apply list_elem_of_further.
Qed.

Lemma mapM_outcome_of_lookup {A B : Type} (f : A → outcome B) (l : list A) ys :
  length ys = length l →
  (∀ i x y, l !! i = Some x → ys !! i = Some y → f x = Ret y) →
  mapM_outcome f l = Ret ys.
Proof.
  revert ys. induction l as [|a l IH]; intros [|y ys]; simpl; try done.
  intros [= Hlen] Hall. rewrite (Hall 0%nat a y eq_refl eq_refl). simpl.
  rewrite (IH ys Hlen); [done|]. intros i x y'. apply (Hall (S i)).
Qed.

Lemma mapM_outcome_raise_first {A B : Type} (f : A → outcome B) x l e :
  f x = Raise e → mapM_outcome f (x :: l) = Raise e.
Proof. intros Hx. simpl. by rewrite Hx. Qed.

(** ** Floats and 64-bit integers *)

Section NotNan.
Import SpecFloat.
Variables prec emax : Z.

Lemma shr_1_nonneg mrs : 0 ≤ shr_m mrs → 0 ≤ shr_m (shr_1 mrs).
Proof.
  destruct mrs as [m r s]. destruct m as [|p|p]; simpl; try lia.
  destruct p; simpl; lia.
Qed.

Lemma iter_pos_shr_1_nonneg p :
  ∀ mrs, 0 ≤ shr_m mrs → 0 ≤ shr_m (iter_pos shr_1 p mrs).
Proof.
  induction p as [p IH|p IH|]; intros mrs H; simpl.
  - apply IH, IH. by apply shr_1_nonneg.
  - by apply IH, IH.
  - by apply shr_1_nonneg.
Qed.

Lemma shr_fexp_nonneg m e l :
  0 ≤ m → 0 ≤ shr_m (shr_fexp prec emax m e l).1.
Proof.
  intros H. unfold shr_fexp, shr.
  assert (0 ≤ shr_m (shr_record_of_loc m l)) as H'.
  { destruct l as [|[]]; simpl; lia. }
  destruct (fexp prec emax (Zdigits2 m + e) - e); simpl; try done.
  by apply iter_pos_shr_1_nonneg.
Qed.

Lemma round_nearest_even_nonneg m l : 0 ≤ m → 0 ≤ round_nearest_even m l.
Proof.
  intros H. destruct l as [|[]]; simpl; try lia. destruct (Z.even m); lia.
Qed.

Lemma binary_round_aux_not_nan sx mx ex lx :
  0 ≤ mx → binary_round_aux prec emax sx mx ex lx ≠ S754_nan.
Proof.
  intros H. unfold binary_round_aux.
  pose proof (shr_fexp_nonneg mx ex lx H) as H1.
  destruct (shr_fexp prec emax mx ex lx) as [mrs' e']. simpl in H1.
  pose proof (shr_fexp_nonneg _ e' loc_Exact
                (round_nearest_even_nonneg _ (loc_of_shr_record mrs') H1)) as H2.
  destruct (shr_fexp prec emax _ e' loc_Exact) as [mrs'' e'']. simpl in H2.
  destruct (shr_m mrs''); try discriminate; try lia.
  destruct (Z.leb _ _); discriminate.
Qed.

Lemma binary_round_not_nan sx mx ex : binary_round prec emax sx mx ex ≠ S754_nan.
Proof.
  unfold binary_round. destruct (shl_align _ _ _) as [mz ez].
  apply binary_round_aux_not_nan. lia.
Qed.

Lemma binary_normalize_not_nan m e sz :
  binary_normalize prec emax m e sz ≠ S754_nan.
Proof. destruct m; simpl; try discriminate; apply binary_round_not_nan. Qed.

Lemma SFeqb_refl x : x ≠ S754_nan → SFeqb x x = true.
Proof.
  intros H. destruct x as [s|s| |s m e]; try (by destruct s); try congruence.
  unfold SFeqb, SFcompare. destruct s; rewrite Z.compare_refl;
    rewrite Pos.compare_cont_refl; reflexivity.
Qed.

End NotNan.

(** The float of an integer is a number. *)
Lemma float_of_Z_not_nan z : PrimFloat.is_nan (float_of_Z z) = false.
Proof.
  unfold float_of_Z.
  pose proof (binary_normalize_not_nan FloatOps.prec FloatOps.emax z 0 false) as Hn.
  destruct (SpecFloat.binary_normalize FloatOps.prec FloatOps.emax z 0 false)
    as [s|s| |s m e]; try (by destruct s); try congruence.
  unfold FloatOps.SF2Prim.
  set (f := FloatOps.Z.ldexp _ e).
  assert (FloatOps.Prim2SF f ≠ SpecFloat.S754_nan) as Hf.
  { unfold f. rewrite FloatLemmas.Z_ldexp_spec, FloatAxioms.of_uint63_spec.
    pose proof (binary_normalize_not_nan FloatOps.prec FloatOps.emax
                  (Uint63Axioms.to_Z (Uint63Axioms.of_Z (Z.pos m))) 0 false) as H0.
    destruct (SpecFloat.binary_normalize _ _ _ _ _); simpl; try congruence.
    apply binary_round_not_nan. }
  unfold PrimFloat.is_nan. rewrite FloatAxioms.eqb_spec.
  destruct s.
  - rewrite FloatAxioms.opp_spec. rewrite SFeqb_refl; [reflexivity|].
    destruct (FloatOps.Prim2SF f); simpl; congruence.
  - rewrite SFeqb_refl; [reflexivity|assumption].
Qed.




Lemma wrap64_small z : in_int64 z = true → wrap64 z = z.
Proof.
  unfold in_int64, wrap64, int64_min, int64_max.
  intros [H1%Z.leb_le H2%Z.leb_le]%andb_true_iff.
  rewrite Z.mod_small; lia.
Qed.



(** ** Rows *)

Lemma iterrows_length df : length (iterrows df) = length (index df).
Proof. unfold iterrows. by rewrite length_imap. Qed.

Lemma iterrows_lookup df i row :
  iterrows df !! i = Some row ↔ (i < length (index df))%nat ∧ row = row_at df i.
Proof.
  unfold iterrows. rewrite list_lookup_imap. split.
  - destruct (index df !! i) as [x|] eqn:Hi; simpl; [|done].
    intros [= <-]. split; [|done]. by eapply lookup_lt_Some.
  - intros [Hlt ->]. destruct (lookup_lt_is_Some_2 _ _ Hlt) as [x ->]. done.
Qed.

Lemma iterrows_first df x xs :
  index df = x :: xs → ∃ rows, iterrows df = row_at df 0 :: rows.
Proof. intros Hi. unfold iterrows. rewrite Hi. simpl. eauto. Qed.

Lemma lines_lookup df i : (i < length (index df))%nat → i ∈ lines df.
Proof. intros Hi. unfold lines. apply elem_of_seq. lia. Qed.

(** A condition that holds on every line number holds on every line. *)
Lemma forallb_lines (P : nat → bool) df i :
  forallb P (lines df) = true → (i < length (index df))%nat → P i = true.
Proof.
  intros Hall Hi. rewrite forallb_forall in Hall. apply Hall.
  apply list_elem_of_In. by apply lines_lookup.
Qed.

(** A row holds the stored cells of its line, each taken to the dtype of
    the row. *)
Lemma row_at_cells df i :
  row_cells (row_at df i)
  = (λ nv, (nv.1, as_row_cell (frame_dtype df) nv.2)) <$> stored_row df i.
Proof.
  unfold row_at, stored_row. simpl. generalize (frame_dtype df). intros dt.
  induction (columns df) as [|[n s] cols IH]; [done|].
  cbn [omap list_omap]. rewrite IH. cbn [fst snd].
  by destruct (s_values s !! i).
Qed.

Lemma cells_getitem_fmap (g : pyobj → pyobj) cells name :
  cells_getitem ((λ nv, (nv.1, g nv.2)) <$> cells) name
  = match cells_getitem cells name with
    | Ret v => Ret (g v)
    | Raise e => Raise e
    end.
Proof.
  induction cells as [|[n v] cells IH]; [done|]. simpl.
  by destruct (decide (n = name)).
Qed.

Lemma row_getitem_stored df i name :
  row_getitem (row_at df i) name
  = match cells_getitem (stored_row df i) name with
    | Ret v => Ret (as_row_cell (frame_dtype df) v)
    | Raise e => Raise e
    end.
Proof. unfold row_getitem. by rewrite row_at_cells, cells_getitem_fmap. Qed.

(** Reading a label of a line reads the first column of that name, where
    that column is long enough. *)
Lemma stored_row_cell df c i v :
  cell df c i = Some v → cells_getitem (stored_row df i) c = Ret v.
Proof.
  unfold cell, stored_row. induction (columns df) as [|[n s0] cols IH]; simpl; [done|].
  destruct (decide (n = c)) as [->|Hne]; simpl.
  - intros ->. simpl. by rewrite decide_True.
  - intros Hv. destruct (s_values s0 !! i); simpl; [|by apply IH].
    rewrite decide_False; [|done]. by apply IH.
Qed.

Lemma row_getitem_cell df c i v :
  cell df c i = Some v →
  row_getitem (row_at df i) c = Ret (as_row_cell (frame_dtype df) v).
Proof. intros Hv. by rewrite row_getitem_stored, (stored_row_cell _ _ _ v). Qed.

Lemma cells_getitem_raises cells c e :
  cells_getitem cells c = Raise e → e = KeyError c.
Proof.
  induction cells as [|[n v] cells IH]; simpl; [by intros [= <-]|].
  destruct (decide (n = c)); [done|apply IH].
Qed.

Lemma row_getitem_raises row c e : row_getitem row c = Raise e → e = KeyError c.
Proof. apply cells_getitem_raises. Qed.

Lemma stored_row_absent df i c :
  c ∉ column_names df → cells_getitem (stored_row df i) c = Raise (KeyError c).
Proof.
  unfold column_names, stored_row.
  induction (columns df) as [|[n s] cols IH]; [done|].
  rewrite fmap_cons, not_elem_of_cons. intros [Hne Hc]. simpl.
  destruct (s_values s !! i); simpl; [|by apply IH].
  rewrite decide_False; [by apply IH|done].
Qed.

Lemma row_getitem_absent df i c :
  c ∉ column_names df → row_getitem (row_at df i) c = Raise (KeyError c).
Proof. intros Hc. by rewrite row_getitem_stored, stored_row_absent. Qed.

(** Setting column [dst] does not change what a line holds under another
    label. *)
Lemma stored_row_setitem_ne df dst s name i :
  name ≠ dst →
  cells_getitem (stored_row (tbl_setitem df dst s) i) name
  = cells_getitem (stored_row df i) name.
Proof.
  intros Hne. unfold stored_row, tbl_setitem. simpl.
  induction (columns df) as [|[n s0] cols IH]; simpl.
  - destruct (s_values s !! i); simpl; [|done]. by rewrite decide_False.
  - destruct (decide (n = dst)) as [->|Hn]; simpl.
    + destruct (s_values s !! i), (s_values s0 !! i); simpl;
        rewrite ?decide_False; done.
    + destruct (s_values s0 !! i); simpl; [|done].
      destruct (decide (n = name)); done.
Qed.

Lemma lookup_col_cols_set_ne cols name s c :
  c ≠ name → lookup_col (cols_set cols name s) c = lookup_col cols c.
Proof.
  intros Hne. induction cols as [|[n s0] cols IH]; simpl.
  - by rewrite decide_False.
  - destruct (decide (n = name)) as [->|Hn]; simpl.
    + by rewrite !decide_False.
    + by rewrite IH.
Qed.

Lemma lookup_col_cols_set_eq cols name s :
  lookup_col (cols_set cols name s) name = Some s.
Proof.
  induction cols as [|[n s0] cols IH]; simpl.
  - by rewrite decide_True.
  - destruct (decide (n = name)) as [->|Hn]; simpl.
    + by rewrite decide_True.
    + by rewrite decide_False.
Qed.

(** After [df[dst] = s] the table stores [s] under [dst] and what it
    stored before under every other label. *)
Lemma cell_setitem_eq df dst s i :
  cell (tbl_setitem df dst s) dst i = s_values s !! i.
Proof. unfold cell, tbl_setitem. simpl. by rewrite lookup_col_cols_set_eq. Qed.


Lemma cols_set_idemp cols dst s s' :
  cols_set (cols_set cols dst s) dst s' = cols_set cols dst s'.
Proof.
  induction cols as [|[n s0] cols IH]; simpl.
  - by rewrite decide_True.
  - destruct (decide (n = dst)) as [->|Hn]; simpl.
    + by rewrite decide_True.
    + rewrite decide_False; [|done]. by rewrite IH.
Qed.

Lemma cols_set_nonempty cols name s : cols_set cols name s ≠ [].
Proof.
  destruct cols as [|[n s0] cols]; simpl; [done|]. by destruct (decide (n = name)).
Qed.

Lemma cell_columns df c i v : cell df c i = Some v → columns df ≠ [].
Proof. unfold cell. by destruct (columns df). Qed.

(** Taking a cell to the dtype of a row keeps texts and missing values
    apart from everything else. *)
Lemma as_row_cell_isnull dt v : pd_isnull (as_row_cell dt v) = pd_isnull v.
Proof.
  destruct dt, v; simpl; try done; apply float_of_Z_not_nan.
Qed.

Lemma as_row_cell_str dt v t : as_row_cell dt v = OStr t ↔ v = OStr t.
Proof. destruct dt, v; simpl; split; congruence. Qed.

Lemma as_row_cell_Object v : as_row_cell Object v = v.
Proof. by destruct v. Qed.

(** A table with an object column has object rows. *)
Lemma frame_dtype_Object df c s :
  lookup_col (columns df) c = Some s → s_dtype s = Object →
  frame_dtype df = Object.
Proof.
  intros Hc Hs. unfold frame_dtype.
  assert (existsb is_object ((λ c, s_dtype c.2) <$> columns df) = true) as ->;
    [|done].
  induction (columns df) as [|[n s0] cols IH]; [done|].
  rewrite fmap_cons. cbn [existsb snd]. simpl in Hc.
  destruct (decide (n = c)) as [->|Hne].
  - injection Hc as ->. by rewrite Hs.
  - rewrite IH; [|done]. by rewrite orb_true_r.
Qed.

(** ** Columns built from results *)

Lemma Series_of_length vals : length (s_values (Series_of vals)) = length vals.
Proof. unfold Series_of. simpl. by rewrite length_fmap. Qed.


(** Python ints stay as they are: the column is int64 or object. *)
Lemma infer_dtype_ints zs : infer_dtype (OInt <$> zs) ≠ Float64.
Proof.
  unfold infer_dtype.
  destruct (forallb is_int64 (OInt <$> zs) && existsb is_int64 (OInt <$> zs));
    [done|].
  assert (existsb (λ x, is_float x || is_none x) (OInt <$> zs) = false) as ->.
  { induction zs as [|z zs IH]; [done|]. simpl. done. }
  by rewrite andb_false_r.
Qed.

Lemma Series_of_ints zs : s_values (Series_of (OInt <$> zs)) = OInt <$> zs.
Proof.
  unfold Series_of. simpl. pose proof (infer_dtype_ints zs) as Hdt.
  destruct (infer_dtype (OInt <$> zs)); [|done|].
  - rewrite <- list_fmap_compose. by apply list_fmap_ext.
  - rewrite <- list_fmap_compose. by apply list_fmap_ext.
Qed.

(** Texts make an object column. *)
Lemma Series_of_strs (ts : list string) :
  ts ≠ [] → Series_of (OStr <$> ts) = mkSeries Object (OStr <$> ts).
Proof.
  intros Hne. destruct ts as [|t ts]; [done|].
  unfold Series_of, infer_dtype. simpl.
  f_equal. f_equal. rewrite <- list_fmap_compose. by apply list_fmap_ext.
Qed.



(** ** The heap *)

Lemma heap_lookup_fresh (h : list DataFrame) df : (h ++ [df]) !! length h = Some df.
Proof. rewrite lookup_app_r; [|done]. by rewrite Nat.sub_diag. Qed.

Lemma heap_insert_fresh (h : list DataFrame) df df' :
  <[length h := df']> (h ++ [df]) = h ++ [df'].
Proof. rewrite insert_app_r_alt; [|done]. by rewrite Nat.sub_diag. Qed.

Ltac in_list :=
  repeat first [apply list_elem_of_here | apply list_elem_of_further].

Ltac run_M :=
  unfold try_except, DataFrame_copy, DataFrame_apply_rows,
    DataFrame_setitem_value, DataFrame_setitem,
    DataFrame_set_index, DataFrame_drop, DataFrame_getitem, new_DataFrame,
    deref, lift, raise, logger_info, logger_exception, mbind, M_bind, mret,
    M_ret; simpl.

(** What the three "copy, apply row-wise, assign" transforms do on a frame
    that is in the heap. *)
Lemma create_title_cat_run σ l df src dst codes :
  heap σ !! l = Some df →
  create_title_cat (VRef l) src dst codes σ =
  match title_table df src dst codes with
  | Ret df' =>
      (Ret (VRef (length (heap σ))),
       mkState (heap σ ++ [df'])
         (log σ ++ [LogInfo "Running create_title_cat()"]))
  | Raise e =>
      (Ret VNone,
       mkState (heap σ ++ [df])
         ((log σ ++ [LogInfo "Running create_title_cat()"])
            ++ [LogException "Error in create_title_cat()" e]))
  end.
Proof.
  intros Hl. unfold create_title_cat, title_table, assign_value. run_M.
  rewrite Hl. simpl. rewrite heap_lookup_fresh. simpl.
  destruct (apply_rows df _) as [r|e]; simpl; [|done].
  destruct (setitem_column _) as [s|e]; simpl; [|done].
  rewrite heap_lookup_fresh. by rewrite heap_insert_fresh.
Qed.

Lemma impute_age_run σ l df src title codes :
  heap σ !! l = Some df →
  impute_age (VRef l) src title codes σ =
  match age_table df src title codes with
  | Ret df' =>
      (Ret (VRef (length (heap σ))),
       mkState (heap σ ++ [df']) (log σ ++ [LogInfo "Running impute_age()"]))
  | Raise e =>
      (Ret VNone,
       mkState (heap σ ++ [df])
         ((log σ ++ [LogInfo "Running impute_age()"])
            ++ [LogException "Error in impute_age()" e]))
  end.
Proof.
  intros Hl. unfold impute_age, age_table, assign_value. run_M.
  rewrite Hl. simpl. rewrite heap_lookup_fresh. simpl.
  destruct (apply_rows df _) as [r|e]; simpl; [|done].
  destruct (setitem_column _) as [s|e]; simpl; [|done].
  rewrite heap_lookup_fresh. by rewrite heap_insert_fresh.
Qed.

Lemma create_family_size_run σ l df cols dst :
  heap σ !! l = Some df →
  create_family_size (VRef l) cols dst σ =
  match size_table df cols dst with
  | Ret df' =>
      (Ret (VRef (length (heap σ))),
       mkState (heap σ ++ [df'])
         (log σ ++ [LogInfo "Running create_family_size()"]))
  | Raise e =>
      (Ret VNone,
       mkState (heap σ ++ [df])
         ((log σ ++ [LogInfo "Running create_family_size()"])
            ++ [LogException "Error in create_family_size()" e]))
  end.
Proof.
  intros Hl. unfold create_family_size, size_table, assign_value. run_M.
  rewrite Hl. simpl. rewrite heap_lookup_fresh. simpl.
  destruct (apply_rows df _) as [r|e]; simpl; [|done].
  destruct (setitem_column _) as [s|e]; simpl; [|done].
  rewrite heap_lookup_fresh. by rewrite heap_insert_fresh.
Qed.

(** On a table with rows and columns [apply] calls the function on every
    row in turn. *)
Lemma apply_rows_standard df f :
  index df ≠ [] → columns df ≠ [] →
  apply_rows df f
  = (vals ← mapM_outcome f (iterrows df); Ret (ASeries (Series_of vals))).
Proof.
  intros Hi Hc. unfold apply_rows. by destruct (index df), (columns df).
Qed.

(** A table that one of the three transforms builds is the input with one
    column assigned. *)
Lemma assign_value_Ret df name value df' :
  assign_value df name value = Ret df' → ∃ s, df' = tbl_setitem df name s.
Proof.
  unfold assign_value. destruct (setitem_column value) as [s|e]; [|done].
  intros [= <-]. by exists s.
Qed.

Lemma title_table_Ret df src dst codes df' :
  title_table df src dst codes = Ret df' → ∃ s, df' = tbl_setitem df dst s.
Proof.
  unfold title_table. destruct (apply_rows df _) as [r|e]; [|done].
  apply assign_value_Ret.
Qed.

Lemma age_table_Ret df src title codes df' :
  age_table df src title codes = Ret df' → ∃ s, df' = tbl_setitem df src s.
Proof.
  unfold age_table. destruct (apply_rows df _) as [r|e]; [|done].
  apply assign_value_Ret.
Qed.

Lemma size_table_Ret df cols dst df' :
  size_table df cols dst = Ret df' → ∃ s, df' = tbl_setitem df dst s.
Proof.
  unfold size_table. destruct (apply_rows df _) as [r|e]; [|done].
  apply assign_value_Ret.
Qed.

Lemma title_table_standard df src dst codes :
  index df ≠ [] → columns df ≠ [] →
  title_table df src dst codes
  = (vals ← mapM_outcome (λ row, extract_title row src) (iterrows df);
     Ret (tbl_setitem df dst (Series_replace (Series_of vals) codes))).
Proof.
  intros Hi Hc. unfold title_table. rewrite apply_rows_standard; [|done..].
  by destruct (mapM_outcome _ _).
Qed.

Lemma age_table_standard df src title codes :
  index df ≠ [] → columns df ≠ [] →
  age_table df src title codes
  = (vals ← mapM_outcome (λ row, infer_age row src title codes) (iterrows df);
     Ret (tbl_setitem df src (Series_of vals))).
Proof.
  intros Hi Hc. unfold age_table. rewrite apply_rows_standard; [|done..].
  by destruct (mapM_outcome _ _).
Qed.

Lemma size_table_standard df cols dst :
  index df ≠ [] → columns df ≠ [] →
  size_table df cols dst
  = (vals ← mapM_outcome (λ row, family_size_of_row row cols) (iterrows df);
     Ret (tbl_setitem df dst (Series_of vals))).
Proof.
  intros Hi Hc. unfold size_table. rewrite apply_rows_standard; [|done..].
  by destruct (mapM_outcome _ _).
Qed.

(** A table that has a line has rows. *)
Lemma index_nonempty df i : (i < length (index df))%nat → index df ≠ [].
Proof. destruct (index df); simpl; [lia|done]. Qed.

(** ** Failures inside a transform *)

(** The shape four of the five transforms share: log, run the body under
    [try], and on any exception log it and fall off the end. *)
Lemma caught_returns_None (body : M pyval) (msg msg' : string) σ e σ' :
  body (mkState (heap σ) (log σ ++ [LogInfo msg])) = (Raise e, σ') →
  (logger_info msg;;
   try_except body (λ e, logger_exception msg' e;; mret VNone)) σ
  = (Ret VNone, mkState (heap σ') (log σ' ++ [LogException msg' e])).
Proof. intros Hbody. run_M. by rewrite Hbody. Qed.

Lemma drop_columns_catches df names σ e σ' :
  DataFrame_drop df names
    (mkState (heap σ) (log σ ++ [LogInfo "Running drop_columns()"]))
  = (Raise e, σ') →
  drop_columns df names σ
  = (Ret VNone,
     mkState (heap σ') (log σ' ++ [LogException "Error in drop_columns()" e])).
Proof.
  intros Hop. unfold drop_columns. apply caught_returns_None.
  unfold mbind, M_bind. by rewrite Hop.
Qed.

Lemma create_title_cat_catches df src dst codes σ :
  ∀ e σ',
  (df_out ← DataFrame_copy df;
   titles ← DataFrame_apply_rows df_out (λ row, extract_title row src);
   DataFrame_setitem_value df_out dst (apply_result_replace titles codes);;
   mret df_out)
    (mkState (heap σ) (log σ ++ [LogInfo "Running create_title_cat()"]))
  = (Raise e, σ') →
  create_title_cat df src dst codes σ
  = (Ret VNone,
     mkState (heap σ') (log σ' ++ [LogException "Error in create_title_cat()" e])).
Proof. intros e σ' Hop. unfold create_title_cat. by apply caught_returns_None. Qed.

Lemma impute_age_catches df src title codes σ :
  ∀ e σ',
  (df_out ← DataFrame_copy df;
   ages ← DataFrame_apply_rows df_out (λ row, infer_age row src title codes);
   DataFrame_setitem_value df_out src ages;;
   mret df_out)
    (mkState (heap σ) (log σ ++ [LogInfo "Running impute_age()"]))
  = (Raise e, σ') →
  impute_age df src title codes σ
  = (Ret VNone,
     mkState (heap σ') (log σ' ++ [LogException "Error in impute_age()" e])).
Proof. intros e σ' Hop. unfold impute_age. by apply caught_returns_None. Qed.

Lemma create_family_size_catches df cols dst σ :
  ∀ e σ',
  (df_out ← DataFrame_copy df;
   sizes ← DataFrame_apply_rows df_out (λ row, family_size_of_row row cols);
   DataFrame_setitem_value df_out dst sizes;;
   mret df_out)
    (mkState (heap σ) (log σ ++ [LogInfo "Running create_family_size()"]))
  = (Raise e, σ') →
  create_family_size df cols dst σ
  = (Ret VNone,
     mkState (heap σ') (log σ' ++ [LogException "Error in create_family_size()" e])).
Proof. intros e σ' Hop. unfold create_family_size. by apply caught_returns_None. Qed.

(** [set_df_index] differs: its [return df_out] stands after the
    [try]/[except], where [df_out] is unbound once the body has failed. *)
Lemma set_df_index_failure_raises df col σ e σ' :
  DataFrame_set_index df col
    (mkState (heap σ) (log σ ++ [LogInfo "Running set_df_index()"]))
  = (Raise e, σ') →
  set_df_index df col σ
  = (Raise (UnboundLocalError "df_out"),
     mkState (heap σ') (log σ' ++ [LogException "Error in set_df_index()" e])).
Proof.
  intros Hop. unfold set_df_index, try_except, logger_info, logger_exception,
    mbind, M_bind, mret, M_ret, raise. simpl. by rewrite Hop.
Qed.

Lemma DataFrame_set_index_missing l df col σ :
  heap σ !! l = Some df → col ∉ column_names df →
  DataFrame_set_index (VRef l) col σ = (Raise (KeyError col), σ).
Proof.
  intros Hl Hcol. run_M. rewrite Hl. simpl. unfold tbl_set_index.
  assert (lookup_col (columns df) col = None) as ->; [|done].
  unfold column_names in Hcol. induction (columns df) as [|[n s] cols IH]; [done|].
  simpl in *. apply not_elem_of_cons in Hcol as [Hne Hcol].
  rewrite decide_False; [|done]. by apply IH.
Qed.

(** ** C3: failures at the boundary of [set_df_index] *)

(** C3 (the code departs from the claim): on a frame that lacks the
    index column, [set_df_index] logs the KeyError and then raises
    UnboundLocalError to its caller; it does not return an empty result
    as [drop_columns], [create_title_cat], [impute_age] and
    [create_family_size] do. *)
Theorem set_df_index_missing_column_raises σ l df col :
  heap σ !! l = Some df → col ∉ column_names df →
  set_df_index (VRef l) col σ
  = (Raise (UnboundLocalError "df_out"),
     mkState (heap σ)
       (log σ ++ [LogInfo "Running set_df_index()";
                  LogException "Error in set_df_index()" (KeyError col)])).
Proof.
  intros Hl Hcol.
  rewrite (set_df_index_failure_raises _ _ _ (KeyError col)
             (mkState (heap σ) (log σ ++ [LogInfo "Running set_df_index()"]))).
  - simpl. by rewrite <- app_assoc.
  - by apply (DataFrame_set_index_missing l df).
Qed.

Lemma set_df_index_missing_column_raises_witness :
  set_df_index (VRef 0) "Ticket" (mkState [ex_passengers] [])
  = (Raise (UnboundLocalError "df_out"),
     mkState [ex_passengers]
       ([] ++ [LogInfo "Running set_df_index()";
               LogException "Error in set_df_index()" (KeyError "Ticket")])).
Proof.
  apply (set_df_index_missing_column_raises (mkState [ex_passengers] []) 0
           ex_passengers "Ticket").
  - reflexivity.
  - apply (bool_decide_unpack _). vm_compute. exact I.
Defined.

(** The sibling behaviour on the same input: [drop_columns] returns
    [None]. *)
Example drop_columns_missing_column_returns_None :
  drop_columns (VRef 0) ["Ticket"] (mkState [ex_passengers] [])
  = (Ret VNone,
     mkState [ex_passengers]
       [LogInfo "Running drop_columns()";
        LogException "Error in drop_columns()" (KeyError "Ticket")]).
Proof. reflexivity. Qed.

(** ** C10: [create_family_size] does not touch its input *)

(** C10: whatever [create_family_size] is given and whatever it returns,
    every DataFrame object that existed before the call, the caller's
    input among them, holds the same table after the call. *)
Theorem create_family_size_keeps_input df cols dst σ l t :
  heap σ !! l = Some t →
  heap (create_family_size df cols dst σ).2 !! l = Some t.
Proof.
  intros Hl. destruct df as [l0|].
  - destruct (heap σ !! l0) as [t0|] eqn:Hl0.
    + rewrite (create_family_size_run _ _ _ _ _ Hl0).
      destruct (size_table _ _ _); simpl; by apply lookup_app_l_Some.
    + unfold create_family_size. run_M. by rewrite Hl0.
  - unfold create_family_size. run_M. done.
Qed.

Lemma create_family_size_keeps_input_witness :
  heap (create_family_size (VRef 0) ["SibSp"; "Parch"] "FamilySize"
          (mkState [ex_passengers] [])).2 !! 0%nat = Some ex_passengers.
Proof. apply create_family_size_keeps_input. reflexivity. Defined.

(** ** C9: a missing option bundle *)

(** C9: when one of the four option bundles is missing from the
    parameters, [create_pipeline] raises KeyError for a missing bundle
    and returns no pipeline. It takes no table, so nothing has been
    applied. *)
Theorem create_pipeline_missing_bundle (params : gmap string kwargs) k :
  k ∈ bundle_keys → params !! k = None →
  ∃ k', k' ∈ bundle_keys ∧ params !! k' = None
        ∧ create_pipeline params = Raise (KeyError k').
Proof.
  intros Hk Hnone. unfold create_pipeline, dict_getitem, bundle_keys in *.
  destruct (params !! "set_df_index_kw_args") as [k1|] eqn:H1; simpl;
    [|exists "set_df_index_kw_args"; split; [in_list|done]].
  destruct (params !! "create_title_cat_kw_args") as [k2|] eqn:H2; simpl;
    [|exists "create_title_cat_kw_args"; split; [in_list|done]].
  destruct (params !! "drop_columns_kw_args") as [k3|] eqn:H3; simpl;
    [|exists "drop_columns_kw_args"; split; [in_list|done]].
  destruct (params !! "impute_age_kw_args") as [k4|] eqn:H4; simpl;
    [|exists "impute_age_kw_args"; split; [in_list|done]].
  exfalso. repeat (apply elem_of_cons in Hk as [->|Hk]; [congruence|]).
  by apply elem_of_nil in Hk.
Qed.

Lemma create_pipeline_missing_bundle_witness :
  ∃ k', k' ∈ bundle_keys
        ∧ delete "impute_age_kw_args" ex_pipeline_parameters !! k' = None
        ∧ create_pipeline (delete "impute_age_kw_args" ex_pipeline_parameters)
          = Raise (KeyError k').
Proof.
  apply (create_pipeline_missing_bundle _ "impute_age_kw_args").
  - unfold bundle_keys. in_list.
  - vm_compute. reflexivity.
Defined.

(** ** C2: the pipeline applies its steps in construction order *)

(** A four-step pipeline is the left-to-right composition of its steps. *)
Lemma Pipeline_fit_transform_four n1 t1 n2 t2 n3 t3 n4 t4 X σ :
  Pipeline_fit_transform [(n1, t1); (n2, t2); (n3, t3); (n4, t4)] X σ
  = fold_steps [FunctionTransformer_fit_transform t1;
                FunctionTransformer_fit_transform t2;
                FunctionTransformer_fit_transform t3;
                FunctionTransformer_fit_transform t4] X σ.
Proof.
  unfold Pipeline_fit_transform, fold_steps.
  remember (FunctionTransformer_fit_transform t1) as f1.
  remember (FunctionTransformer_fit_transform t2) as f2.
  remember (FunctionTransformer_fit_transform t3) as f3.
  remember (FunctionTransformer_fit_transform t4) as f4.
  simpl. rewrite <- Heqf1, <- Heqf2, <- Heqf3, <- Heqf4.
  unfold mbind, M_bind, mret, M_ret.
  destruct (f1 X σ) as [[X1|e1] σ1]; [|done].
  destruct (f2 X1 σ1) as [[X2|e2] σ2]; [|done].
  destruct (f3 X2 σ2) as [[X3|e3] σ3]; done.
Qed.

(** Whatever the bundles hold, the constructed pipeline is the
    composition of the four calls, in construction order. *)
Lemma create_pipeline_fit_transform (params : gmap string kwargs) k1 k2 k3 k4 :
  params !! "set_df_index_kw_args" = Some k1 →
  params !! "create_title_cat_kw_args" = Some k2 →
  params !! "impute_age_kw_args" = Some k3 →
  params !! "drop_columns_kw_args" = Some k4 →
  ∃ pipeline, create_pipeline params = Ret pipeline ∧
    ∀ X σ, Pipeline_fit_transform pipeline X σ
           = fold_steps [λ X, call_kw fn_set_df_index X k1;
                         λ X, call_kw fn_create_title_cat X k2;
                         λ X, call_kw fn_impute_age X k3;
                         λ X, call_kw fn_drop_columns X k4] X σ.
Proof.
  intros H1 H2 H3 H4. unfold create_pipeline, dict_getitem.
  rewrite H1, H2, H3, H4. simpl. eexists. split; [done|].
  intros X σ. by rewrite Pipeline_fit_transform_four.
Qed.

(** C2: for a configuration that binds the four steps, fit-and-apply of
    the constructed pipeline on a table is the fold of that table
    through [set_df_index], [create_title_cat], [impute_age] and
    [drop_columns], in this order. *)
Theorem pipeline_applies_steps_in_order (params : gmap string kwargs)
    index_col src dst title_codes age_src age_title age_codes names :
  params !! "set_df_index_kw_args" = Some (kw_set_df_index index_col) →
  params !! "create_title_cat_kw_args"
    = Some (kw_create_title_cat src dst title_codes) →
  params !! "impute_age_kw_args"
    = Some (kw_impute_age age_src age_title age_codes) →
  params !! "drop_columns_kw_args" = Some (kw_drop_columns names) →
  ∃ pipeline, create_pipeline params = Ret pipeline ∧
    ∀ X σ, Pipeline_fit_transform pipeline X σ
           = fold_steps [λ X, set_df_index X index_col;
                         λ X, create_title_cat X src dst title_codes;
                         λ X, impute_age X age_src age_title age_codes;
                         λ X, drop_columns X names] X σ.
Proof.
  intros H1 H2 H3 H4.
  destruct (create_pipeline_fit_transform params _ _ _ _ H1 H2 H3 H4)
    as (pipeline & Hp & Hrun).
  exists pipeline. split; [done|]. intros X σ. by rewrite Hrun.
Qed.

Lemma pipeline_applies_steps_in_order_witness :
  ∃ pipeline, create_pipeline ex_pipeline_parameters = Ret pipeline ∧
    ∀ X σ, Pipeline_fit_transform pipeline X σ
           = fold_steps [λ X, set_df_index X "PassengerId";
                         λ X, create_title_cat X "Name" "TitleCategory" ex_title_codes;
                         λ X, impute_age X "Age" "TitleCategory" ex_age_codes;
                         λ X, drop_columns X ["Name"]] X σ.
Proof.
  apply (pipeline_applies_steps_in_order ex_pipeline_parameters);
    vm_compute; reflexivity.
Defined.

(** ** C1: the block that should turn integer columns into floats *)

(** A Series is never an instance of [np.int64], so the test in the
    loop body never holds and the body only reads. *)
Lemma convert_column_reads_only parse df_train column σ :
  (convert_column parse df_train column σ).2 = σ.
Proof.
  unfold convert_column. run_M. destruct df_train as [l|]; [|done].
  destruct (heap σ !! l) as [df|]; [|done]. simpl.
  destruct (lookup_col (columns df) column); done.
Qed.

Lemma for_each_convert_column_reads_only parse df_train cols σ :
  (for_each cols (convert_column parse df_train) σ).2 = σ.
Proof.
  revert σ. induction cols as [|c cols IH]; intros σ; simpl; [done|].
  unfold mbind, M_bind.
  pose proof (convert_column_reads_only parse df_train c σ) as Hc.
  destruct (convert_column parse df_train c σ) as [[[]|e] σ']; simpl in *; subst;
    [apply IH|done].
Qed.

(** For every pair of tables the block leaves every object as it was:
    no column of either table is converted. *)
Lemma convert_ints_to_floats_changes_nothing parse df_train df_holdout σ :
  (convert_ints_to_floats parse df_train df_holdout σ).2 = σ.
Proof.
  unfold convert_ints_to_floats. unfold mbind at 1 2 3. unfold M_bind.
  destruct (deref df_train σ) as [[train|e] σ1] eqn:Ht.
  - assert (σ1 = σ) as ->.
    { unfold deref in Ht. destruct df_train as [l|]; [|by inversion Ht].
      destruct (heap σ !! l); by inversion Ht. }
    pose proof (for_each_convert_column_reads_only parse df_train
                  (column_names train) σ) as H1.
    destruct (for_each _ _ σ) as [[[]|e] σ2]; simpl in *; subst; [|done].
    destruct (deref df_holdout σ) as [[holdout|e] σ3] eqn:Hh.
    + assert (σ3 = σ) as ->.
      { unfold deref in Hh. destruct df_holdout as [l|]; [|by inversion Hh].
        destruct (heap σ !! l); by inversion Hh. }
      apply for_each_convert_column_reads_only.
    + unfold deref in Hh. destruct df_holdout as [l|]; [|by inversion Hh].
      destruct (heap σ !! l); by inversion Hh.
  - unfold deref in Ht. destruct df_train as [l|]; [|by inversion Ht].
    destruct (heap σ !! l); by inversion Ht.
Qed.

(** C1 (the code departs from the claim): [ingest_split] on a train
    file and a holdout file that both have integer-typed columns. When
    the split is called, the two loaded tables are in the heap exactly as
    read, their integer-typed columns still integer-typed, and the
    holdout result is the loaded holdout object: no column of either
    table has been converted to float. *)
Theorem ingest_leaves_integer_columns
    (parse : string → option PrimFloat.float)
    (split : pyval → pyval → pyobj → pyobj → pyobj
             → M (pyval * pyval * pyval * pyval)) :
  ingest_split ex_read_csv parse split "train.csv" "holdout.csv" "Survived"
    ex_split_parameters (mkState [] [])
  = ('(X_train, X_test, y_train, y_test) ←
       split (VRef 2) (VRef 3)
         (OFloat (PrimFloat.div (float_of_Z 4) (float_of_Z 5)))
         (OFloat (PrimFloat.div (float_of_Z 1) (float_of_Z 5)))
         (OInt 42);
     mret (X_train, X_test, y_train, y_test, VRef 1))
      (mkState
         [ex_train; ex_holdout;
          mkDataFrame None [OInt 0; OInt 1]
            [("Pclass", mkSeries Int64 [OInt 3; OInt 1]);
             ("Age", mkSeries Float64
                [OFloat (float_of_Z 22); OFloat PrimFloat.nan])];
          mkDataFrame None [OInt 0; OInt 1]
            [("Survived", mkSeries Int64 [OInt 0; OInt 1])]]
         [LogInfo "Running ingest_split()";
          LogParam "train_size"
            (OFloat (PrimFloat.div (float_of_Z 4) (float_of_Z 5)));
          LogParam "test_size"
            (OFloat (PrimFloat.div (float_of_Z 1) (float_of_Z 5)));
          LogParam "random_state" (OInt 42)])
  ∧ s_dtype <$> lookup_col (columns ex_train) "Pclass" = Some Int64
  ∧ s_dtype <$> lookup_col (columns ex_train) "Survived" = Some Int64
  ∧ s_dtype <$> lookup_col (columns ex_holdout) "Pclass" = Some Int64.
Proof. repeat split. Qed.

(** The block alone, on the same two tables. *)
Example convert_ints_to_floats_on_sample (parse : string → option PrimFloat.float) :
  convert_ints_to_floats parse (VRef 0) (VRef 1)
    (mkState [ex_train; ex_holdout] [])
  = (Ret (), mkState [ex_train; ex_holdout] []).
Proof. reflexivity. Qed.

(** ** C4 and C5: [impute_age] *)

Lemma infer_age_step_eq row title t age k v :
  row_getitem row title = Ret t →
  infer_age_step row title age (k, v)
  = Ret (if py_eq_str t k then Some v else age).
Proof.
  intros Ht. unfold infer_age_step. rewrite Ht. simpl.
  by destruct (py_eq_str t k).
Qed.

Lemma infer_age_step_raises row title e age item :
  row_getitem row title = Raise e →
  infer_age_step row title age item = Raise e.
Proof. intros Ht. unfold infer_age_step. by rewrite Ht. Qed.

Lemma infer_age_loop_skip row title t (items : list (string * pyobj)) age :
  row_getitem row title = Ret t →
  (∀ k v, (k, v) ∈ items → py_eq_str t k = false) →
  foldM (infer_age_step row title) age items = Ret age.
Proof.
  intros Ht. induction items as [|[k v] items IH]; intros Hno; [done|].
  cbn [foldM]. rewrite (infer_age_step_eq row title t); [|done].
  rewrite (Hno k v); [|apply list_elem_of_here]. cbn [mbind outcome_bind].
  apply IH. intros k' v' Hin. apply (Hno k' v'). by apply list_elem_of_further.
Qed.


(** The loop of [infer_age] binds [age] to a value of the mapping, if it
    binds it. *)
Lemma infer_age_loop_result row title (items : list (string * pyobj)) age a :
  foldM (infer_age_step row title) age items = Ret (Some a) →
  age = Some a ∨ ∃ k, (k, a) ∈ items.
Proof.
  revert age. induction items as [|[k v] items IH]; intros age.
  - simpl. intros [= ->]. by left.
  - cbn [foldM]. destruct (row_getitem row title) as [t|e] eqn:Ht.
    + rewrite (infer_age_step_eq row title t); [|done]. cbn [mbind outcome_bind].
      destruct (py_eq_str t k); intros Hrest.
      * destruct (IH _ Hrest) as [[= ->]|[k' Hin]].
        -- right. exists k. apply list_elem_of_here.
        -- right. exists k'. by apply list_elem_of_further.
      * destruct (IH _ Hrest) as [->|[k' Hin]]; [by left|].
        right. exists k'. by apply list_elem_of_further.
    + by rewrite (infer_age_step_raises row title e).
Qed.


(** A missing age whose category the mapping lacks: [age] stays unbound. *)
Lemma infer_age_unmapped row src title (codes : gmap string pyobj) x t :
  row_getitem row src = Ret x → pd_isnull x = true →
  row_getitem row title = Ret t → category_listed codes t = false →
  infer_age row src title codes = Raise (UnboundLocalError "age").
Proof.
  intros Hx Hnull Ht Hno. unfold infer_age. rewrite Hx. simpl. rewrite Hnull.
  rewrite (infer_age_loop_skip row title t); [done|done|].
  intros k v Hin%elem_of_map_to_list. destruct t as [| |s| |]; simpl; try done.
  apply bool_decide_eq_false_2. intros ->. simpl in Hno.
  apply bool_decide_eq_false_1 in Hno. apply Hno. by exists v.
Qed.



Lemma row_getitem_columns df i c x :
  row_getitem (row_at df i) c = Ret x → columns df ≠ [].
Proof. intros Hx Hc. unfold row_getitem, row_at in Hx. by rewrite Hc in Hx. Qed.

(** C4, as amended: when some row has a missing source value and a
    category that the fill-value mapping lacks, [infer_age] assigns no
    value for that row and fails there; [impute_age] catches the failure,
    logs it and returns [None] instead of a table. The input table is
    left as it was. *)
Theorem impute_age_unmapped_category_returns_None
    σ l df src title (codes : gmap string pyobj) i row x t :
  heap σ !! l = Some df →
  iterrows df !! i = Some row →
  row_getitem row src = Ret x → pd_isnull x = true →
  row_getitem row title = Ret t → category_listed codes t = false →
  infer_age row src title codes = Raise (UnboundLocalError "age")
  ∧ ∃ e, impute_age (VRef l) src title codes σ
         = (Ret VNone,
            mkState (heap σ ++ [df])
              (log σ ++ [LogInfo "Running impute_age()";
                         LogException "Error in impute_age()" e])).
Proof.
  intros Hl Hrow Hx Hnull Ht Hno.
  pose proof (infer_age_unmapped row src title codes x t Hx Hnull Ht Hno) as Hr.
  split; [done|].
  destruct (mapM_outcome_raise (λ row, infer_age row src title codes)
              (iterrows df) i row _ Hrow Hr) as [e He].
  exists e. rewrite (impute_age_run _ _ _ _ _ _ Hl).
  pose proof Hrow as [Hlt ->]%iterrows_lookup.
  rewrite age_table_standard;
    [|by eapply index_nonempty|by eapply row_getitem_columns].
  rewrite He. simpl. by rewrite <- app_assoc.
Qed.

Lemma impute_age_unmapped_category_returns_None_witness :
  infer_age (row_at ex_titled 2) "Age" "TitleCategory" ex_age_codes
  = Raise (UnboundLocalError "age")
  ∧ ∃ e, impute_age (VRef 0) "Age" "TitleCategory" ex_age_codes
           (mkState [ex_titled] [])
         = (Ret VNone,
            mkState ([ex_titled] ++ [ex_titled])
              ([] ++ [LogInfo "Running impute_age()";
                      LogException "Error in impute_age()" e])).
Proof.
  apply (impute_age_unmapped_category_returns_None
           (mkState [ex_titled] []) 0 ex_titled "Age" "TitleCategory"
           ex_age_codes 2 (row_at ex_titled 2) (OFloat PrimFloat.nan) (OStr "Dr"));
    vm_compute; reflexivity.
Defined.

(** C4 as stated fails: on [ex_titled], whose last passenger has no age
    and the unlisted category "Dr", [impute_age] returns no table. *)
Lemma unmapped_category_returns_no_table :
  ¬ unmapped_category_still_returns_table.
Proof.
  intros Hclaim.
  destruct (Hclaim (mkState [ex_titled] []) 0%nat ex_titled "Age" "TitleCategory"
              ex_age_codes 2%nat (row_at ex_titled 2) (OFloat PrimFloat.nan)
              (OStr "Dr")) as (l' & σ' & Hrun); try (vm_compute; reflexivity).
  vm_compute in Hrun. discriminate Hrun.
Qed.








(** The results on [ex_titled_ok] are integers, and so are the stored
    ages. *)
Example impute_age_on_sample :
  (λ t, lookup_col (columns t) "Age")
    <$> heap (impute_age (VRef 0) "Age" "TitleCategory" ex_age_codes
                (mkState [ex_titled_ok] [])).2 !! 1%nat
  = Some (Some (mkSeries Int64 [OInt 22; OInt 21; OInt 30])).
Proof. vm_compute. reflexivity. Qed.

(** With a fill value that is a float the ages are stored as floats: 22
    becomes 22.0 in the table. *)
Example impute_age_stores_floats :
  let codes : gmap string pyobj :=
    {[ "gen_male" := OFloat (PrimFloat.div (float_of_Z 59) (float_of_Z 2));
       "young_female" := OInt 21 ]} in
  (λ t, lookup_col (columns t) "Age")
    <$> heap (impute_age (VRef 0) "Age" "TitleCategory" codes
                (mkState [ex_titled_ok] [])).2 !! 1%nat
  = Some (Some (mkSeries Float64
                  [OFloat (float_of_Z 22); OFloat (float_of_Z 21);
                   OFloat (PrimFloat.div (float_of_Z 59) (float_of_Z 2))])).
Proof. vm_compute. reflexivity. Qed.

(** On a table without rows [apply] returns a copy of the table, which
    cannot be assigned to one column: [impute_age] returns [None]. *)
Example impute_age_without_rows :
  impute_age (VRef 0) "Age" "TitleCategory" ex_age_codes (mkState [ex_no_rows] [])
  = (Ret VNone,
     mkState [ex_no_rows; ex_no_rows]
       [LogInfo "Running impute_age()";
        LogException "Error in impute_age()" ValueError]).
Proof. vm_compute. reflexivity. Qed.

(** ** C7: [create_family_size] *)

Lemma py_float_of_int_one : py_float_of_int 1 = Ret (float_of_Z 1).
Proof. vm_compute. reflexivity. Qed.


Lemma foldM_py_add_ints (zs : list Z) acc :
  foldM py_add (OInt acc) (OInt <$> zs) = Ret (OInt (acc + Z_sum zs)).
Proof.
  revert acc. induction zs as [|z zs IH]; intros acc; csimpl.
  - by rewrite Z.add_0_r.
  - rewrite IH. do 2 f_equal. lia.
Qed.



Lemma mapM_outcome_as_float64 (fs : list PrimFloat.float) : mapM_outcome as_float64 (OFloat <$> fs) = Ret fs.
Proof. induction fs as [|f fs IH]; csimpl; [done|]. by rewrite IH. Qed.




(** Results that all have one form make a list of that form. *)
Lemma list_all_of_form {A : Type} (C : A → pyobj) (P : A → Prop) (vals : list pyobj) :
  (∀ v, v ∈ vals → ∃ w, v = C w ∧ P w) →
  ∃ ws, vals = C <$> ws ∧ Forall P ws.
Proof.
  induction vals as [|v vals IH]; intros Hall.
  - by exists [].
  - destruct (Hall v) as (w & -> & Hw); [apply list_elem_of_here|].
    destruct IH as (ws & -> & Hws).
    { intros v' Hv'. apply Hall. by apply list_elem_of_further. }
    exists (w :: ws). split; [done|]. by constructor.
Qed.

(** The probe that [apply] runs on a frame with an empty axis: on a row
    of NaN that has every listed column, the row function returns. *)
Lemma nan_row_getitem (names : list string) c :
  c ∈ names →
  cells_getitem ((λ c, (c, OFloat PrimFloat.nan)) <$> names) c
  = Ret (OFloat PrimFloat.nan).
Proof.
  induction names as [|n names IH]; intros Hc; [by apply elem_of_nil in Hc|].
  simpl. destruct (decide (n = c)) as [|Hne]; [done|].
  apply IH. by apply elem_of_cons in Hc as [->|Hc].
Qed.

Lemma family_size_of_nan_row (names cols : list string) :
  (∀ c, c ∈ cols → c ∈ names) →
  ∃ r, family_size_of_row
         (mkRow Float64 ((λ c, (c, OFloat PrimFloat.nan)) <$> names)) cols
       = Ret r.
Proof.
  intros Hsub. unfold family_size_of_row, row_getitem_list, row_getitem.
  cbn [row_cells row_dtype].
  assert (∃ cells,
            mapM_outcome
              (λ c, v ← cells_getitem ((λ c, (c, OFloat PrimFloat.nan)) <$> names) c;
                    Ret (c, v)) cols
            = Ret cells
            ∧ ∃ fs, cells.*2 = OFloat <$> fs) as (cells & -> & fs & Hfs).
  { induction cols as [|c cols IH]; simpl.
    - exists []. split; [done|]. by exists [].
    - rewrite nan_row_getitem; [|apply Hsub, list_elem_of_here]. simpl.
      destruct IH as (cells & -> & fs & Hfs).
      { intros c' Hc'. apply Hsub. by apply list_elem_of_further. }
      simpl. eexists. split; [done|]. exists (PrimFloat.nan :: fs).
      rewrite !fmap_cons. cbn [snd]. f_equal. exact Hfs. }
  cbn [mbind outcome_bind]. unfold Series_sum. cbn [row_dtype row_cells].
  rewrite Hfs, mapM_outcome_as_float64. cbn [mbind outcome_bind py_add].
  rewrite py_float_of_int_one. simpl. eauto.
Qed.


(** The dtype of the rows, from the dtypes of the columns. *)
Lemma frame_dtype_object df : Object ∈ column_dtypes df → frame_dtype df = Object.
Proof.
  unfold frame_dtype, column_dtypes. intros Hin.
  assert (existsb is_object ((λ c, s_dtype c.2) <$> columns df) = true) as ->; [|done].
  apply existsb_exists. exists Object. split; [by apply list_elem_of_In|done].
Qed.











(** The three kinds of rows on sample tables: Python ints next to a text
    column, floats next to a float column, and 64-bit integers that wrap
    around when every column is int64. *)
Example create_family_size_on_passengers :
  (λ t, lookup_col (columns t) "FamilySize")
    <$> heap (create_family_size (VRef 0) ["SibSp"; "Parch"] "FamilySize"
                (mkState [ex_passengers] [])).2 !! 1%nat
  = Some (Some (mkSeries Int64 [OInt 2; OInt 3; OInt 1])).
Proof. vm_compute. reflexivity. Qed.

Example create_family_size_on_numeric_table :
  (λ t, lookup_col (columns t) "FamilySize")
    <$> heap (create_family_size (VRef 0) ["SibSp"; "Parch"] "FamilySize"
                (mkState [ex_fare_counts] [])).2 !! 1%nat
  = Some (Some (mkSeries Float64 [OFloat (float_of_Z 2); OFloat (float_of_Z 3)])).
Proof. vm_compute. reflexivity. Qed.

Example create_family_size_on_wide_counts :
  (λ t, lookup_col (columns t) "FamilySize")
    <$> heap (create_family_size (VRef 0) ["SibSp"; "Parch"] "FamilySize"
                (mkState [ex_wide_counts] [])).2 !! 1%nat
  = Some (Some (mkSeries Int64 [OInt (-9223372036854775807)])).
Proof. vm_compute. reflexivity. Qed.

(** Without rows the destination column is an empty float64 column. *)
Example create_family_size_without_rows :
  create_family_size (VRef 0) ["Age"] "FamilySize" (mkState [ex_no_rows] [])
  = (Ret (VRef 1),
     mkState [ex_no_rows; tbl_setitem ex_no_rows "FamilySize" (mkSeries Float64 [])]
       [LogInfo "Running create_family_size()"]).
Proof. vm_compute. reflexivity. Qed.

(** ** C8: running [create_title_cat] twice *)

(** What [extract_title] returns on the row of a line, from what the
    table stores there. *)
Lemma extract_title_stored df i src :
  extract_title (row_at df i) src
  = match cells_getitem (stored_row df i) src with
    | Ret (OStr text) =>
        Ret (OStr match Re.search title_pattern (list_ascii_of_string text) with
                  | Some m => Re.group 1 m
                  | None => ""
                  end)
    | Ret _ => Raise TypeError
    | Raise e => Raise e
    end.
Proof.
  unfold extract_title. rewrite row_getitem_stored.
  destruct (cells_getitem (stored_row df i) src) as [v|e]; [|done].
  destruct v, (frame_dtype df); simpl; try done;
    by destruct (Re.search title_pattern _).
Qed.

Lemma extract_title_setitem_ne df src dst s i :
  src ≠ dst →
  extract_title (row_at (tbl_setitem df dst s) i) src
  = extract_title (row_at df i) src.
Proof.
  intros Hne. by rewrite !extract_title_stored, stored_row_setitem_ne.
Qed.

(** On a table without columns [apply] returns a copy of the table, and
    the assignment of a table without columns fails. *)
Lemma title_table_no_columns df src dst codes :
  columns df = [] → title_table df src dst codes = Raise ValueError.
Proof.
  intros Hc. unfold title_table, apply_rows, apply_empty_result, column_names.
  rewrite Hc. destruct (index df); simpl; unfold assign_value; simpl;
    by rewrite Hc.
Qed.

(** C8, as amended: on a table that has at least one row, when the
    destination column is not the source column, applying
    [create_title_cat] to its own output with the same columns and code
    table returns a table equal to that output: no row changes. *)
Theorem create_title_cat_twice σ l df src dst (codes : gmap string string) l1 σ1 :
  src ≠ dst →
  index df ≠ [] →
  heap σ !! l = Some df →
  create_title_cat (VRef l) src dst codes σ = (Ret (VRef l1), σ1) →
  ∃ df1, heap σ1 !! l1 = Some df1
    ∧ ∃ l2 σ2,
        create_title_cat (VRef l1) src dst codes σ1 = (Ret (VRef l2), σ2)
        ∧ heap σ2 !! l2 = Some df1.
Proof.
  intros Hne Hrows Hl. rewrite (create_title_cat_run _ _ _ _ _ _ Hl).
  destruct (decide (columns df = [])) as [Hc|Hc].
  { by rewrite title_table_no_columns. }
  rewrite title_table_standard; [|done..].
  destruct (mapM_outcome _ (iterrows df)) as [vals|e] eqn:Hvals; [|done].
  cbn [mbind outcome_bind]. intros [= <- <-].
  set (df1 := tbl_setitem df dst (Series_replace (Series_of vals) codes)).
  exists df1. split; [apply heap_lookup_fresh|].
  assert (mapM_outcome (λ row, extract_title row src) (iterrows df1) = Ret vals)
    as Hvals1.
  { rewrite <- Hvals. apply mapM_outcome_ext.
    - by rewrite !iterrows_length.
    - intros i x x' [_ ->]%iterrows_lookup [_ ->]%iterrows_lookup.
      by apply extract_title_setitem_ne. }
  eexists _, _. split.
  - rewrite (create_title_cat_run _ _ df1); [|apply heap_lookup_fresh].
    rewrite title_table_standard; [|done|].
    + by rewrite Hvals1.
    + apply cols_set_nonempty.
  - simpl. rewrite heap_lookup_fresh. f_equal.
    unfold df1, tbl_setitem. simpl. by rewrite cols_set_idemp.
Qed.

Lemma create_title_cat_twice_witness :
  ∃ df1,
    heap (create_title_cat (VRef 0) "Name" "TitleCategory" ex_title_codes
            (mkState [ex_passengers] [])).2 !! 1%nat = Some df1
    ∧ ∃ l2 σ2,
        create_title_cat (VRef 1) "Name" "TitleCategory" ex_title_codes
          (create_title_cat (VRef 0) "Name" "TitleCategory" ex_title_codes
             (mkState [ex_passengers] [])).2
        = (Ret (VRef l2), σ2)
        ∧ heap σ2 !! l2 = Some df1.
Proof.
  apply (create_title_cat_twice (mkState [ex_passengers] []) 0 ex_passengers).
  - discriminate.
  - discriminate.
  - reflexivity.
  - vm_compute. reflexivity.
Defined.

(** C8 as stated fails when the destination column is the source column:
    the first run turns "Braund, Mr. Owen Harris" into "gen_male", a value
    of the code table, and the second run turns "gen_male" into the empty
    string. *)
Lemma title_cat_rerun_changes_mapped_row :
  ¬ title_cat_rerun_keeps_mapped_rows.
Proof.
  intros Hclaim.
  destruct (Hclaim (mkState [ex_names] []) 0%nat ex_names "Name" "Name"
              ex_title_codes 1%nat
              (create_title_cat (VRef 0) "Name" "Name" ex_title_codes
                 (mkState [ex_names] [])).2
              (mkDataFrame None [OInt 0]
                 [("Name", mkSeries Object [OStr "gen_male"])])
              0%nat "Mr" "gen_male")
    as (l2 & σ2 & df2 & Hrun & Hdf2 & Hrow); try (vm_compute; reflexivity).
  vm_compute in Hrun. injection Hrun as <- <-.
  vm_compute in Hdf2. injection Hdf2 as <-.
  vm_compute in Hrow. discriminate Hrow.
Qed.

(** Without rows a second run can fail where the first one succeeded: a
    table that has the source column only gets the destination column
    from the first run, and the second run, on two columns, returns
    [None]. *)
Example create_title_cat_twice_without_rows :
  let df := mkDataFrame None [] [("Name", mkSeries Object [])] in
  let r1 := create_title_cat (VRef 0) "Name" "TitleCategory" ex_title_codes
              (mkState [df] []) in
  let r2 := create_title_cat (VRef 1) "Name" "TitleCategory" ex_title_codes r1.2 in
  r1.1 = Ret (VRef 1)
  ∧ r2.1 = Ret VNone
  ∧ log r2.2 = [LogInfo "Running create_title_cat()";
                LogInfo "Running create_title_cat()";
                LogException "Error in create_title_cat()" ValueError].
Proof. vm_compute. repeat split; reflexivity. Qed.

(** ** C6: the title pattern and [create_title_cat] *)

Lemma plus_match_sound cls k acc s g :
  Re.plus_match cls k acc s = Some g →
  ∃ t rest gs, s = t ++ rest ∧ t ≠ [] ∧ Forall (λ c, cls c = true) t
               ∧ k rest = Some gs ∧ g = (acc ++ t) :: gs.
Proof.
  revert acc g. induction s as [|a s IH]; intros acc g; simpl; [done|].
  destruct (cls a) eqn:Ha; [|done].
  destruct (Re.plus_match cls k (acc ++ [a]) s) as [r|] eqn:Hr.
  - intros [= <-].
    destruct (IH _ _ Hr) as (t & rest & gs & -> & Hne & Hall & Hk & ->).
    exists (a :: t), rest, gs. split; [done|]. split; [done|].
    split; [by constructor|]. split; [done|]. by rewrite <- app_assoc.
  - destruct (k s) as [gs|] eqn:Hk; simpl; [|done]. intros [= <-].
    exists [a], s, gs. split; [done|]. split; [done|].
    split; [by repeat constructor|]. done.
Qed.

Lemma plus_match_complete cls k acc t rest gs :
  t ≠ [] → Forall (λ c, cls c = true) t → k rest = Some gs →
  is_Some (Re.plus_match cls k acc (t ++ rest)).
Proof.
  revert acc. induction t as [|a t IH]; intros acc Hne Hall Hk; [done|].
  apply Forall_cons in Hall as [Ha Hall]. simpl. rewrite Ha.
  destruct t as [|b t].
  - simpl. destruct (Re.plus_match cls k (acc ++ [a]) rest); [done|].
    rewrite Hk. done.
  - destruct (IH (acc ++ [a])) as [r Hr]; [done|done|done|].
    rewrite Hr. done.
Qed.

Lemma period_not_letter : Re.is_ascii_letter "."%char = false.
Proof. reflexivity. Qed.

(** A run of letters that ends at a period is determined by the text. *)
Lemma letters_before_period_unique t t' post post' :
  Forall (λ c, Re.is_ascii_letter c = true) t →
  Forall (λ c, Re.is_ascii_letter c = true) t' →
  t ++ "."%char :: post = t' ++ "."%char :: post' → t = t'.
Proof.
  intros Ht. revert t'. induction Ht as [|a t Ha Ht IH]; intros t' Ht' Heq.
  - destruct t' as [|a' t']; [done|]. simpl in Heq. injection Heq as <- _.
    apply Forall_cons in Ht' as [Ha' _]. by rewrite period_not_letter in Ha'.
  - destruct t' as [|a' t']; simpl in Heq.
    + injection Heq as -> _. by rewrite period_not_letter in Ha.
    + injection Heq as <- Heq. apply Forall_cons in Ht' as [_ Ht'].
      f_equal. by apply IH.
Qed.

(** The pattern matches at the start of a text exactly when the text
    starts with a space, a word and a period; the group is the word. *)
Lemma match_here_title s g :
  Re.match_here title_pattern s = Some g ↔
  ∃ t post, s = " "%char :: t ++ "."%char :: post ∧ t ≠ []
            ∧ Forall (λ c, Re.is_ascii_letter c = true) t ∧ g = [t].
Proof.
  assert (∀ s g, Re.match_here title_pattern s = Some g →
            ∃ t post, s = " "%char :: t ++ "."%char :: post ∧ t ≠ []
                      ∧ Forall (λ c, Re.is_ascii_letter c = true) t ∧ g = [t])
    as Hsound.
  { clear s g. intros s g. unfold title_pattern. cbn [Re.match_here].
    destruct s as [|a s]; [done|].
    destruct (Ascii.eqb a " ") eqn:Hsp; [|done].
    apply Ascii.eqb_eq in Hsp as ->. intros Hm.
    apply plus_match_sound in Hm as (t & rest & gs & -> & Hne & Hall & Hk & ->).
    destruct rest as [|b rest]; [done|].
    destruct (Ascii.eqb b ".") eqn:Hdot; [|done].
    apply Ascii.eqb_eq in Hdot as ->. injection Hk as <-.
    by exists t, rest. }
  split; [apply Hsound|].
  intros (t & post & -> & Hne & Hall & ->).
  destruct (Re.match_here title_pattern (" "%char :: t ++ "."%char :: post))
    as [g|] eqn:Hm.
  - destruct (Hsound _ _ Hm) as (t' & post' & Heq & _ & Hall' & ->).
    injection Heq as Heq.
    by rewrite (letters_before_period_unique t t' post post').
  - exfalso. unfold title_pattern in Hm. cbn [Re.match_here] in Hm.
    rewrite Ascii.eqb_refl in Hm.
    destruct (plus_match_complete Re.is_ascii_letter
                (λ s, match s with
                      | [] => None
                      | a :: s' => if Ascii.eqb a "." then Some [] else None
                      end) [] t ("."%char :: post) []) as [r Hr]; [done|done|done|].
    rewrite Hr in Hm. done.
Qed.

Lemma search_Some p s g :
  Re.search p s = Some g →
  ∃ pre rest, s = pre ++ rest ∧ Re.match_here p rest = Some g
    ∧ ∀ pre' rest', s = pre' ++ rest' → (length pre' < length pre)%nat →
                    Re.match_here p rest' = None.
Proof.
  induction s as [|a s IH]; simpl.
  - destruct (Re.match_here p []) as [g0|] eqn:Hm; [|done]. intros [= <-].
    exists [], []. split; [done|]. split; [done|]. simpl. lia.
  - destruct (Re.match_here p (a :: s)) as [g0|] eqn:Hm.
    + intros [= <-]. exists [], (a :: s). split; [done|]. split; [done|].
      simpl. lia.
    + intros Hs. destruct (IH Hs) as (pre & rest & -> & Hrest & Hleft).
      exists (a :: pre), rest. split; [done|]. split; [done|].
      intros pre' rest' Heq Hlt. destruct pre' as [|a' pre'].
      * simpl in Heq. by subst.
      * simpl in Heq, Hlt. injection Heq as <- Heq.
        apply (Hleft pre' rest' Heq). lia.
Qed.

Lemma search_None p s :
  Re.search p s = None →
  ∀ pre rest, s = pre ++ rest → Re.match_here p rest = None.
Proof.
  induction s as [|a s IH]; simpl.
  - destruct (Re.match_here p []) eqn:Hm; [done|]. intros _ pre rest Heq.
    symmetry in Heq. apply app_eq_nil in Heq as [_ ->]. done.
  - destruct (Re.match_here p (a :: s)) eqn:Hm; [done|].
    intros Hs pre rest Heq. destruct pre as [|a' pre].
    + simpl in Heq. by subst.
    + simpl in Heq. injection Heq as <- Heq. by apply (IH Hs pre).
Qed.

(** The extraction meets the specification's description. *)
Lemma title_of_spec text : title_token_spec text (title_of text).
Proof.
  unfold title_token_spec, title_of. cbn zeta.
  destruct (Re.search title_pattern (list_ascii_of_string text)) as [g|] eqn:Hs.
  - left. apply search_Some in Hs as (pre & rest & Hpre & Hm & Hleft).
    apply match_here_title in Hm as (t & post & -> & Hne & Hall & ->).
    exists pre, t, post. split; [done|]. split; [done|].
    intros pre' t' post' (Heq & Hne' & Hall').
    destruct (decide (length pre' < length pre)%nat) as [Hlt|]; [|lia].
    exfalso. pose proof (Hleft pre' _ Heq Hlt) as Hnone.
    assert (Re.match_here title_pattern (" "%char :: t' ++ "."%char :: post')
            = Some [t']) as Hsome.
    { apply match_here_title. by exists t', post'. }
    by rewrite Hsome in Hnone.
  - right. split; [done|]. intros pre t post (Heq & Hne & Hall).
    pose proof (search_None _ _ Hs pre _ Heq) as Hnone.
    assert (Re.match_here title_pattern (" "%char :: t ++ "."%char :: post)
            = Some [t]) as Hsome.
    { apply match_here_title. by exists t, post. }
    by rewrite Hsome in Hnone.
Qed.

Lemma extract_title_text row src text :
  row_getitem row src = Ret (OStr text) →
  extract_title row src = Ret (OStr (title_of text)).
Proof.
  intros Hx. unfold extract_title, title_of. rewrite Hx. simpl.
  by destruct (Re.search title_pattern (list_ascii_of_string text)).
Qed.

Lemma replace_value_str (codes : gmap string string) token :
  replace_value codes (OStr token) = OStr (code_or_raw codes token).
Proof. unfold replace_value, code_or_raw. by destruct (codes !! token). Qed.

Lemma text_cell_ok_text df src i :
  text_cell_ok df src i = true → ∃ text, cell df src i = Some (OStr text).
Proof.
  unfold text_cell_ok. destruct (cell df src i) as [[| |text| |]|]; try done.
  by exists text.
Qed.

Lemma row_getitem_text df c i text :
  cell df c i = Some (OStr text) → row_getitem (row_at df i) c = Ret (OStr text).
Proof.
  intros Hc. rewrite (row_getitem_cell df c i (OStr text) Hc).
  f_equal. by apply as_row_cell_str.
Qed.

(** On a table whose source column holds a text in every line, the rows
    yield the titles of these texts. *)
Lemma extract_titles_of_text_cells df src :
  forallb (text_cell_ok df src) (lines df) = true →
  ∃ tokens,
    mapM_outcome (λ row, extract_title row src) (iterrows df)
    = Ret (OStr <$> tokens)
    ∧ length tokens = length (index df)
    ∧ ∀ i text, (i < length (index df))%nat → cell df src i = Some (OStr text) →
        tokens !! i = Some (title_of text).
Proof.
  intros Hok.
  set (token_of := λ i, match cell df src i with
                        | Some (OStr text) => title_of text
                        | _ => ""
                        end).
  exists (token_of <$> lines df).
  assert (length (token_of <$> lines df) = length (index df)) as Hlen.
  { unfold lines. by rewrite length_fmap, length_seq. }
  assert (∀ i text, (i < length (index df))%nat →
            cell df src i = Some (OStr text) →
            (token_of <$> lines df) !! i = Some (title_of text)) as Htok.
  { intros i text Hi Hc. unfold lines.
    rewrite list_lookup_fmap, lookup_seq_lt; [|done]. simpl.
    unfold token_of. by rewrite Hc. }
  split; [|done].
  apply mapM_outcome_of_lookup.
  - by rewrite length_fmap, Hlen, iterrows_length.
  - intros i row y [Hi ->]%iterrows_lookup Hy.
    destruct (text_cell_ok_text df src i) as [text Hc];
      [by apply (forallb_lines _ df)|].
    rewrite list_lookup_fmap, (Htok i text Hi Hc) in Hy. injection Hy as <-.
    apply extract_title_text. by apply row_getitem_text.
Qed.

(** C6, as amended: on a table that has at least one row and whose source
    column holds a text in every row, [create_title_cat] returns a new
    table, the input with the destination column set, row by row, to the
    code-table image of the token extracted from the row's text; the
    token is the first word of the text that stands between a space and a
    period, or the empty string when there is none, and a token that is
    no key of the code table is kept as it is. The destination column is
    an object column. *)
Theorem create_title_cat_extracts_and_maps
    σ l df src dst (codes : gmap string string) :
  heap σ !! l = Some df →
  index df ≠ [] →
  forallb (text_cell_ok df src) (lines df) = true →
  ∃ tokens,
    create_title_cat (VRef l) src dst codes σ
    = (Ret (VRef (length (heap σ))),
       mkState
         (heap σ ++ [tbl_setitem df dst
                       (mkSeries Object
                          ((λ t, OStr (code_or_raw codes t)) <$> tokens))])
         (log σ ++ [LogInfo "Running create_title_cat()"]))
    ∧ length tokens = length (index df)
    ∧ ∀ i text, (i < length (index df))%nat →
        cell df src i = Some (OStr text) →
        ∃ token, tokens !! i = Some token
          ∧ title_token_spec text token
          ∧ cell (tbl_setitem df dst
                    (mkSeries Object
                       ((λ t, OStr (code_or_raw codes t)) <$> tokens))) dst i
            = Some (OStr (code_or_raw codes token)).
Proof.
  intros Hl Hrows Hok.
  destruct (extract_titles_of_text_cells df src Hok) as (tokens & Hvals & Hlen & Htok).
  assert (columns df ≠ []) as Hcols.
  { destruct (index df) as [|x xs] eqn:Hi; [done|].
    destruct (text_cell_ok_text df src 0) as [text Hc].
    { apply (forallb_lines _ df); [done|]. rewrite Hi. simpl. lia. }
    by eapply cell_columns. }
  exists tokens. rewrite (create_title_cat_run _ _ _ _ _ _ Hl).
  rewrite title_table_standard; [|done..]. rewrite Hvals.
  cbn [mbind outcome_bind].
  assert (Series_replace (Series_of (OStr <$> tokens)) codes
          = mkSeries Object ((λ t, OStr (code_or_raw codes t)) <$> tokens)) as ->.
  { rewrite Series_of_strs.
    - unfold Series_replace. simpl. f_equal. rewrite <- list_fmap_compose.
      apply list_fmap_ext. intros i t _. simpl. apply replace_value_str.
    - intros ->. simpl in Hlen. by destruct (index df). }
  split; [done|]. split; [done|].
  intros i text Hi Hc. exists (title_of text).
  split; [by apply Htok|]. split; [apply title_of_spec|].
  rewrite cell_setitem_eq. simpl.
  by rewrite list_lookup_fmap, (Htok i text Hi Hc).
Qed.

Lemma create_title_cat_extracts_and_maps_witness :
  ∃ tokens,
    create_title_cat (VRef 0) "Name" "TitleCategory" ex_title_codes
      (mkState [ex_passengers] [])
    = (Ret (VRef (length [ex_passengers])),
       mkState
         ([ex_passengers]
            ++ [tbl_setitem ex_passengers "TitleCategory"
                  (mkSeries Object
                     ((λ t, OStr (code_or_raw ex_title_codes t)) <$> tokens))])
         ([] ++ [LogInfo "Running create_title_cat()"]))
    ∧ length tokens = length (index ex_passengers)
    ∧ ∀ i text, (i < length (index ex_passengers))%nat →
        cell ex_passengers "Name" i = Some (OStr text) →
        ∃ token, tokens !! i = Some token
          ∧ title_token_spec text token
          ∧ cell (tbl_setitem ex_passengers "TitleCategory"
                    (mkSeries Object
                       ((λ t, OStr (code_or_raw ex_title_codes t)) <$> tokens)))
              "TitleCategory" i
            = Some (OStr (code_or_raw ex_title_codes token)).
Proof.
  apply (create_title_cat_extracts_and_maps (mkState [ex_passengers] []) 0
           ex_passengers).
  - reflexivity.
  - discriminate.
  - vm_compute. reflexivity.
Defined.

(** C6 as stated fails: the first passenger of [ex_names_gap] has a name
    with a title, the second one has no name, and [create_title_cat]
    returns no table, so the first passenger gets no title either. *)
Lemma missing_name_returns_no_table : ¬ every_text_row_gets_its_title.
Proof.
  intros Hclaim.
  destruct (Hclaim (mkState [ex_names_gap] []) 0%nat ex_names_gap
              "Name" "TitleCategory" ex_title_codes 0%nat
              "Braund, Mr. Owen Harris")
    as (l' & σ' & df' & token & Hrun & _); [reflexivity|simpl; lia|reflexivity|].
  vm_compute in Hrun. discriminate Hrun.
Qed.

(** The scenario of the specification: "Braund, Mr. Owen Harris" with the
    code table [{"Mr": "gen_male"}] yields the category "gen_male". *)
Example title_of_braund :
  code_or_raw {[ "Mr" := "gen_male" ]} (title_of "Braund, Mr. Owen Harris")
  = "gen_male".
Proof. vm_compute. reflexivity. Qed.

Example title_of_no_pattern : title_of "Nobody" = "".
Proof. reflexivity. Qed.

(** On a table without rows that has more than one column no table is
    returned. *)
Example create_title_cat_without_rows :
  create_title_cat (VRef 0) "Name" "TitleCategory" ex_title_codes
    (mkState [ex_no_rows] [])
  = (Ret VNone,
     mkState [ex_no_rows; ex_no_rows]
       [LogInfo "Running create_title_cat()";
        LogException "Error in create_title_cat()" ValueError]).
Proof. vm_compute. reflexivity. Qed.

Example py_int_truncates :
  py_int (OFloat (PrimFloat.div (float_of_Z (-7)) (float_of_Z 2))) = Ret (-3).
Proof. vm_compute. reflexivity. Qed.

Example int_of_string_blank_sign_underscore : int_of_string " -1_2 " = Some (-12).
Proof. reflexivity. Qed.

(** * Further properties of the code *)

(** ** [drop_columns] and [set_df_index] on a frame in the heap *)

Lemma drop_columns_run σ l df names :
  heap σ !! l = Some df →
  drop_columns (VRef l) names σ =
  match tbl_drop df names with
  | Ret df' =>
      (Ret (VRef (length (heap σ))),
       mkState (heap σ ++ [df']) (log σ ++ [LogInfo "Running drop_columns()"]))
  | Raise e =>
      (Ret VNone,
       mkState (heap σ)
         (log σ ++ [LogInfo "Running drop_columns()";
                    LogException "Error in drop_columns()" e]))
  end.
Proof.
  intros Hl. unfold drop_columns. run_M. rewrite Hl. simpl.
  destruct (tbl_drop df names); simpl; [done|]. by rewrite <- app_assoc.
Qed.

Lemma set_df_index_run σ l df col :
  heap σ !! l = Some df →
  set_df_index (VRef l) col σ =
  match tbl_set_index df col with
  | Ret df' =>
      (Ret (VRef (length (heap σ))),
       mkState (heap σ ++ [df']) (log σ ++ [LogInfo "Running set_df_index()"]))
  | Raise e =>
      (Raise (UnboundLocalError "df_out"),
       mkState (heap σ)
         (log σ ++ [LogInfo "Running set_df_index()";
                    LogException "Error in set_df_index()" e]))
  end.
Proof.
  intros Hl. unfold set_df_index. run_M. rewrite Hl. simpl.
  destruct (tbl_set_index df col); simpl; [done|]. by rewrite <- app_assoc.
Qed.

Lemma lookup_col_None cols name :
  lookup_col cols name = None ↔ name ∉ cols.*1.
Proof.
  induction cols as [|[n s] cols IH]; simpl.
  - split; [intros _; apply not_elem_of_nil|done].
  - rewrite not_elem_of_cons. destruct (decide (n = name)) as [->|Hne].
    + split; [done|]. by intros [? _].
    + rewrite IH. split; [by intros ?; split|by intros [_ ?]].
Qed.

Lemma lookup_col_is_Some cols name :
  is_Some (lookup_col cols name) ↔ name ∈ cols.*1.
Proof.
  destruct (lookup_col cols name) as [s|] eqn:Hs.
  - split; [intros _|by eauto].
    destruct (decide (name ∈ cols.*1)) as [|Hn]; [done|].
    apply lookup_col_None in Hn. congruence.
  - split; [by intros [? [=]]|]. intros Hin.
    apply lookup_col_None in Hs. done.
Qed.

Lemma lookup_col_filter (P : string → Prop) (Q : string * Series → Prop)
    `{!∀ c, Decision (Q c)} cols name :
  (∀ c, Q c ↔ P c.1) → P name →
  lookup_col (filter Q cols) name = lookup_col cols name.
Proof.
  intros HQ HP. induction cols as [|[n s] cols IH]; [done|].
  destruct (decide (Q (n, s))) as [Hn|Hn].
  - rewrite filter_cons_True; [|done]. simpl. by rewrite IH.
  - rewrite filter_cons_False; [|done]. simpl.
    rewrite decide_False; [done|]. intros ->. by apply Hn, HQ.
Qed.

Lemma filter_names (P : string → Prop) (Q : string * Series → Prop)
    `{!∀ n, Decision (P n)} `{!∀ c, Decision (Q c)}
    (cols : list (string * Series)) :
  (∀ c, Q c ↔ P c.1) →
  (filter Q cols).*1 = filter P cols.*1.
Proof.
  intros HQ. induction cols as [|[n s] cols IH]; [done|].
  rewrite fmap_cons. simpl. destruct (decide (P n)) as [Hn|Hn].
  - rewrite !filter_cons_True; [|done|by apply HQ]. by rewrite fmap_cons, IH.
  - rewrite !filter_cons_False; [done|done|]. by intros ?%HQ.
Qed.

Lemma tbl_drop_present df names :
  (∀ n, n ∈ names → n ∈ column_names df) →
  tbl_drop df names
  = Ret (mkDataFrame (index_name df) (index df)
           (filter (λ c, c.1 ∉ names) (columns df))).
Proof.
  intros Hall. unfold tbl_drop.
  assert (filter (λ l, l ∉ column_names df) names = []) as ->; [|done].
  destruct (filter (λ l, l ∉ column_names df) names) as [|k ks] eqn:Hf; [done|].
  assert (k ∈ filter (λ l, l ∉ column_names df) names) as Hin.
  { rewrite Hf. apply list_elem_of_here. }
  apply list_elem_of_filter in Hin as [Hk1 Hk2]. exfalso. by apply Hk1, Hall.
Qed.

Lemma tbl_drop_absent df names n :
  n ∈ names → n ∉ column_names df →
  ∃ k, k ∈ names ∧ (k ∉ column_names df)
       ∧ tbl_drop df names = Raise (KeyError k).
Proof.
  intros Hn Hnot. unfold tbl_drop.
  destruct (filter (λ l, l ∉ column_names df) names) as [|k ks] eqn:Hf.
  - exfalso. assert (n ∈ filter (λ l, l ∉ column_names df) names) as Hin.
    { by apply list_elem_of_filter. }
    rewrite Hf in Hin. by apply elem_of_nil in Hin.
  - exists k. assert (k ∈ filter (λ l, l ∉ column_names df) names) as Hin.
    { rewrite Hf. apply list_elem_of_here. }
    apply list_elem_of_filter in Hin as [Hk1 Hk2]. done.
Qed.

(** X1: when every listed name is a column of the table, [drop_columns]
    returns a new table whose columns are the input's columns without
    the listed ones, in the same order; index, index name and the data of
    the columns that stay are those of the input, and the input object is
    kept as it was. *)
Theorem drop_columns_removes_listed σ l df names :
  heap σ !! l = Some df →
  (∀ n, n ∈ names → n ∈ column_names df) →
  ∃ df',
    drop_columns (VRef l) names σ
    = (Ret (VRef (length (heap σ))),
       mkState (heap σ ++ [df']) (log σ ++ [LogInfo "Running drop_columns()"]))
    ∧ column_names df' = filter (λ c, c ∉ names) (column_names df)
    ∧ index df' = index df
    ∧ index_name df' = index_name df
    ∧ ∀ c, c ∉ names → lookup_col (columns df') c = lookup_col (columns df) c.
Proof.
  intros Hl Hall. eexists. rewrite (drop_columns_run _ _ _ _ Hl).
  rewrite (tbl_drop_present _ _ Hall). split; [done|]. simpl.
  split; [|split; [done|split; [done|]]].
  - unfold column_names. simpl. by apply (filter_names (λ n, n ∉ names)).
  - intros c Hc. by apply (lookup_col_filter (λ n, n ∉ names)).
Qed.

Lemma drop_columns_removes_listed_witness :
  ∃ df',
    drop_columns (VRef 0) ["Name"; "Parch"] (mkState [ex_passengers] [])
    = (Ret (VRef (length [ex_passengers])),
       mkState ([ex_passengers] ++ [df'])
         ([] ++ [LogInfo "Running drop_columns()"]))
    ∧ column_names df'
      = filter (λ c, c ∉ ["Name"; "Parch"]) (column_names ex_passengers)
    ∧ index df' = index ex_passengers
    ∧ index_name df' = index_name ex_passengers
    ∧ ∀ c, c ∉ ["Name"; "Parch"] →
           lookup_col (columns df') c = lookup_col (columns ex_passengers) c.
Proof.
  apply (drop_columns_removes_listed (mkState [ex_passengers] []) 0 ex_passengers).
  - reflexivity.
  - intros n Hn. apply (bool_decide_unpack _).
    repeat (apply elem_of_cons in Hn as [->|Hn]; [vm_compute; exact I|]).
    by apply elem_of_nil in Hn.
Defined.

(** X2: when some listed name is not a column, [drop_columns] drops
    nothing: it returns [None], logs the KeyError of a listed name that
    is missing, and creates no table. *)
Theorem drop_columns_missing_label σ l df names n :
  heap σ !! l = Some df → n ∈ names → n ∉ column_names df →
  ∃ k, k ∈ names ∧ (k ∉ column_names df)
    ∧ drop_columns (VRef l) names σ
      = (Ret VNone,
         mkState (heap σ)
           (log σ ++ [LogInfo "Running drop_columns()";
                      LogException "Error in drop_columns()" (KeyError k)])).
Proof.
  intros Hl Hn Hnot.
  destruct (tbl_drop_absent df names n Hn Hnot) as (k & Hk & Hknot & Hdrop).
  exists k. split; [done|]. split; [done|].
  by rewrite (drop_columns_run _ _ _ _ Hl), Hdrop.
Qed.

Lemma drop_columns_missing_label_witness :
  ∃ k, k ∈ ["Name"; "Ticket"] ∧ (k ∉ column_names ex_passengers)
    ∧ drop_columns (VRef 0) ["Name"; "Ticket"] (mkState [ex_passengers] [])
      = (Ret VNone,
         mkState [ex_passengers]
           ([] ++ [LogInfo "Running drop_columns()";
                   LogException "Error in drop_columns()" (KeyError k)])).
Proof.
  apply (drop_columns_missing_label (mkState [ex_passengers] []) 0 ex_passengers
           ["Name"; "Ticket"] "Ticket").
  - reflexivity.
  - in_list.
  - apply (bool_decide_unpack _). vm_compute. exact I.
Defined.

(** X3: when the named column exists, [set_df_index] returns a new table
    whose index holds that column's values and bears its name; the column
    is no longer a column, every other column is kept with its data, and
    the input object is kept as it was. *)
Theorem set_df_index_moves_column σ l df col s :
  heap σ !! l = Some df →
  lookup_col (columns df) col = Some s →
  ∃ df',
    set_df_index (VRef l) col σ
    = (Ret (VRef (length (heap σ))),
       mkState (heap σ ++ [df']) (log σ ++ [LogInfo "Running set_df_index()"]))
    ∧ index_name df' = Some col
    ∧ index df' = s_values s
    ∧ (col ∉ column_names df')
    ∧ column_names df' = filter (λ c, c ≠ col) (column_names df)
    ∧ ∀ c, c ≠ col → lookup_col (columns df') c = lookup_col (columns df) c.
Proof.
  intros Hl Hs. eexists. rewrite (set_df_index_run _ _ _ _ Hl).
  unfold tbl_set_index. rewrite Hs. split; [done|]. simpl.
  split; [done|]. split; [done|].
  assert (column_names
            (mkDataFrame (Some col) (s_values s)
               (filter (λ c, c.1 ≠ col) (columns df)))
          = filter (λ c, c ≠ col) (column_names df)) as Hnames.
  { unfold column_names. simpl. by apply (filter_names (λ n, n ≠ col)). }
  split; [|split; [done|]].
  - rewrite Hnames. intros [Hne _]%list_elem_of_filter. done.
  - intros c Hc. by apply (lookup_col_filter (λ n, n ≠ col)).
Qed.

Lemma set_df_index_moves_column_witness :
  ∃ df',
    set_df_index (VRef 0) "PassengerId" (mkState [ex_passengers] [])
    = (Ret (VRef (length [ex_passengers])),
       mkState ([ex_passengers] ++ [df'])
         ([] ++ [LogInfo "Running set_df_index()"]))
    ∧ index_name df' = Some "PassengerId"
    ∧ index df' = s_values (mkSeries Int64 [OInt 1; OInt 2; OInt 3])
    ∧ ("PassengerId" ∉ column_names df')
    ∧ column_names df'
      = filter (λ c, c ≠ "PassengerId") (column_names ex_passengers)
    ∧ ∀ c, c ≠ "PassengerId" →
           lookup_col (columns df') c = lookup_col (columns ex_passengers) c.
Proof.
  apply (set_df_index_moves_column (mkState [ex_passengers] []) 0 ex_passengers);
    reflexivity.
Defined.

(** ** What a transform does to the objects that exist *)

(** Given [None], the four catching transforms log an AttributeError and
    return [None]. *)
Lemma drop_columns_None names σ :
  drop_columns VNone names σ
  = (Ret VNone,
     mkState (heap σ)
       (log σ ++ [LogInfo "Running drop_columns()";
                  LogException "Error in drop_columns()" AttributeError])).
Proof. unfold drop_columns. run_M. by rewrite <- app_assoc. Qed.

Lemma create_title_cat_None src dst codes σ :
  create_title_cat VNone src dst codes σ
  = (Ret VNone,
     mkState (heap σ)
       (log σ ++ [LogInfo "Running create_title_cat()";
                  LogException "Error in create_title_cat()" AttributeError])).
Proof. unfold create_title_cat. run_M. by rewrite <- app_assoc. Qed.

Lemma impute_age_None src title codes σ :
  impute_age VNone src title codes σ
  = (Ret VNone,
     mkState (heap σ)
       (log σ ++ [LogInfo "Running impute_age()";
                  LogException "Error in impute_age()" AttributeError])).
Proof. unfold impute_age. run_M. by rewrite <- app_assoc. Qed.

Lemma create_family_size_None cols dst σ :
  create_family_size VNone cols dst σ
  = (Ret VNone,
     mkState (heap σ)
       (log σ ++ [LogInfo "Running create_family_size()";
                  LogException "Error in create_family_size()" AttributeError])).
Proof. unfold create_family_size. run_M. by rewrite <- app_assoc. Qed.

(** A computation keeps the objects when every object of the heap it
    starts from holds the same table in the heap it ends with. *)
Lemma set_df_index_keeps df col σ l t :
  heap σ !! l = Some t → heap (set_df_index df col σ).2 !! l = Some t.
Proof.
  intros Hl. destruct df as [l0|].
  - destruct (heap σ !! l0) as [t0|] eqn:Hl0.
    + rewrite (set_df_index_run _ _ _ _ Hl0).
      destruct (tbl_set_index t0 col); simpl; [by apply lookup_app_l_Some|done].
    + unfold set_df_index. run_M. by rewrite Hl0.
  - unfold set_df_index. run_M. done.
Qed.

Lemma drop_columns_keeps df names σ l t :
  heap σ !! l = Some t → heap (drop_columns df names σ).2 !! l = Some t.
Proof.
  intros Hl. destruct df as [l0|].
  - destruct (heap σ !! l0) as [t0|] eqn:Hl0.
    + rewrite (drop_columns_run _ _ _ _ Hl0).
      destruct (tbl_drop t0 names); simpl; [by apply lookup_app_l_Some|done].
    + unfold drop_columns. run_M. by rewrite Hl0.
  - by rewrite drop_columns_None.
Qed.

Lemma create_title_cat_keeps df src dst codes σ l t :
  heap σ !! l = Some t → heap (create_title_cat df src dst codes σ).2 !! l = Some t.
Proof.
  intros Hl. destruct df as [l0|].
  - destruct (heap σ !! l0) as [t0|] eqn:Hl0.
    + rewrite (create_title_cat_run _ _ _ _ _ _ Hl0).
      destruct (title_table _ _ _ _); simpl; by apply lookup_app_l_Some.
    + unfold create_title_cat. run_M. by rewrite Hl0.
  - by rewrite create_title_cat_None.
Qed.

Lemma impute_age_keeps df src title codes σ l t :
  heap σ !! l = Some t → heap (impute_age df src title codes σ).2 !! l = Some t.
Proof.
  intros Hl. destruct df as [l0|].
  - destruct (heap σ !! l0) as [t0|] eqn:Hl0.
    + rewrite (impute_age_run _ _ _ _ _ _ Hl0).
      destruct (age_table _ _ _ _); simpl; by apply lookup_app_l_Some.
    + unfold impute_age. run_M. by rewrite Hl0.
  - by rewrite impute_age_None.
Qed.

Lemma create_family_size_keeps df cols dst σ l t :
  heap σ !! l = Some t → heap (create_family_size df cols dst σ).2 !! l = Some t.
Proof.
  intros Hl. destruct df as [l0|].
  - destruct (heap σ !! l0) as [t0|] eqn:Hl0.
    + rewrite (create_family_size_run _ _ _ _ _ Hl0).
      destruct (size_table _ _ _); simpl; by apply lookup_app_l_Some.
    + unfold create_family_size. run_M. by rewrite Hl0.
  - by rewrite create_family_size_None.
Qed.

Lemma call_kw_keeps f X kw σ l t :
  heap σ !! l = Some t → heap (call_kw f X kw σ).2 !! l = Some t.
Proof.
  intros Hl.
  destruct f, kw; simpl; try done;
    auto using set_df_index_keeps, drop_columns_keeps, create_title_cat_keeps,
      impute_age_keeps, create_family_size_keeps.
Qed.

Lemma Pipeline_fit_keeps steps X σ l t :
  heap σ !! l = Some t → heap (Pipeline_fit steps X σ).2 !! l = Some t.
Proof.
  revert X σ. induction steps as [|step steps IH]; intros X σ Hl; [done|].
  cbn [Pipeline_fit]. unfold mbind, M_bind, FunctionTransformer_fit_transform.
  pose proof (call_kw_keeps (func step.2) X (kw_args step.2) σ l t Hl) as Hstep.
  destruct (call_kw (func step.2) X (kw_args step.2) σ) as [[Xt|e] σ1];
    simpl in Hstep; [by apply IH|done].
Qed.

(** X4: applying a pipeline never changes a DataFrame object that existed
    before: whatever the steps, their options and the input, and whether
    the run ends with a table, with [None] or with an exception, every
    object of the heap holds the same table afterwards. *)
Theorem Pipeline_fit_transform_keeps_objects (pipeline : Pipeline) X σ l t :
  heap σ !! l = Some t →
  heap (Pipeline_fit_transform pipeline X σ).2 !! l = Some t.
Proof.
  intros Hl. unfold Pipeline_fit_transform.
  destruct (last pipeline) as [final|]; [|done].
  unfold mbind, M_bind.
  pose proof (Pipeline_fit_keeps (removelast pipeline) X σ l t Hl) as Hfit.
  destruct (Pipeline_fit (removelast pipeline) X σ) as [[Xt|e] σ1];
    simpl in Hfit; [|done].
  by apply call_kw_keeps.
Qed.

Lemma Pipeline_fit_transform_keeps_objects_witness :
  heap (Pipeline_fit_transform
          [("Set dataframe index",
            mkFunctionTransformer fn_set_df_index (kw_set_df_index "PassengerId"));
           ("Drop columns",
            mkFunctionTransformer fn_drop_columns (kw_drop_columns ["Name"]))]
          (VRef 0) (mkState [ex_passengers] [])).2 !! 0%nat
  = Some ex_passengers.
Proof. apply Pipeline_fit_transform_keeps_objects. reflexivity. Defined.

(** ** The constructed pipeline *)

Lemma fold_steps_four (f1 f2 f3 f4 : pyval → M pyval) X σ :
  fold_steps [f1; f2; f3; f4] X σ
  = match f1 X σ with
    | (Ret X1, σ1) =>
        match f2 X1 σ1 with
        | (Ret X2, σ2) =>
            match f3 X2 σ2 with
            | (Ret X3, σ3) => f4 X3 σ3
            | (Raise e, σ3) => (Raise e, σ3)
            end
        | (Raise e, σ2) => (Raise e, σ2)
        end
    | (Raise e, σ1) => (Raise e, σ1)
    end.
Proof.
  unfold fold_steps. simpl. unfold mbind, M_bind, mret, M_ret.
  destruct (f1 X σ) as [[X1|e1] σ1]; [|done].
  destruct (f2 X1 σ1) as [[X2|e2] σ2]; [|done].
  destruct (f3 X2 σ2) as [[X3|e3] σ3]; done.
Qed.

(** X5: [create_pipeline] reads the four option bundles and nothing
    else: an entry under any other key of the parameters does not change
    the pipeline it returns (or the KeyError it raises). *)
Theorem create_pipeline_ignores_other_keys (params : gmap string kwargs) k v :
  k ∉ bundle_keys →
  create_pipeline (<[k := v]> params) = create_pipeline params.
Proof.
  intros Hk. unfold bundle_keys in Hk.
  repeat (apply not_elem_of_cons in Hk as [? Hk]).
  unfold create_pipeline, dict_getitem.
  by rewrite !lookup_insert_ne.
Qed.

Lemma create_pipeline_ignores_other_keys_witness :
  create_pipeline (<["uid" := kw_set_df_index "PassengerId"]> ex_pipeline_parameters)
  = create_pipeline ex_pipeline_parameters.
Proof.
  apply create_pipeline_ignores_other_keys.
  apply (bool_decide_unpack _). vm_compute. exact I.
Defined.

(** X6: [create_pipeline] does not check what a bundle holds. When the
    bundle bound to the first step does not carry the keyword of
    [set_df_index], construction still succeeds, and every later
    fit-and-apply raises TypeError from the call of the step, before any
    transform has run: nothing is logged and no object is created. *)
Theorem ill_shaped_bundle_fails_at_apply (params : gmap string kwargs) k1 k2 k3 k4 :
  params !! "set_df_index_kw_args" = Some k1 →
  params !! "create_title_cat_kw_args" = Some k2 →
  params !! "impute_age_kw_args" = Some k3 →
  params !! "drop_columns_kw_args" = Some k4 →
  (∀ c, k1 ≠ kw_set_df_index c) →
  ∃ pipeline, create_pipeline params = Ret pipeline
    ∧ ∀ X σ, Pipeline_fit_transform pipeline X σ = (Raise TypeError, σ).
Proof.
  intros H1 H2 H3 H4 Hshape.
  destruct (create_pipeline_fit_transform params _ _ _ _ H1 H2 H3 H4)
    as (pipeline & Hp & Hrun).
  exists pipeline. split; [done|]. intros X σ.
  rewrite Hrun, fold_steps_four.
  destruct k1; simpl; try done. by destruct (Hshape df_index_col).
Qed.

Lemma ill_shaped_bundle_fails_at_apply_witness :
  ∃ pipeline,
    create_pipeline
      (<["set_df_index_kw_args" := kw_drop_columns ["PassengerId"]]>
         ex_pipeline_parameters)
    = Ret pipeline
    ∧ ∀ X σ, Pipeline_fit_transform pipeline X σ = (Raise TypeError, σ).
Proof.
  apply (ill_shaped_bundle_fails_at_apply
           (<["set_df_index_kw_args" := kw_drop_columns ["PassengerId"]]>
              ex_pipeline_parameters)
           (kw_drop_columns ["PassengerId"])
           (kw_create_title_cat "Name" "TitleCategory" ex_title_codes)
           (kw_impute_age "Age" "TitleCategory" ex_age_codes)
           (kw_drop_columns ["Name"]));
    try (vm_compute; reflexivity).
  discriminate.
Defined.

(** X7: when the input table lacks the index column, fit-and-apply of the
    constructed pipeline raises the UnboundLocalError of [set_df_index]
    and stops there: no later step runs (the log holds the two entries of
    [set_df_index] only) and no object is created. *)
Theorem pipeline_stops_at_set_df_index (params : gmap string kwargs)
    index_col k2 k3 k4 σ l df :
  params !! "set_df_index_kw_args" = Some (kw_set_df_index index_col) →
  params !! "create_title_cat_kw_args" = Some k2 →
  params !! "impute_age_kw_args" = Some k3 →
  params !! "drop_columns_kw_args" = Some k4 →
  heap σ !! l = Some df → index_col ∉ column_names df →
  ∃ pipeline, create_pipeline params = Ret pipeline
    ∧ Pipeline_fit_transform pipeline (VRef l) σ
      = (Raise (UnboundLocalError "df_out"),
         mkState (heap σ)
           (log σ ++ [LogInfo "Running set_df_index()";
                      LogException "Error in set_df_index()"
                        (KeyError index_col)])).
Proof.
  intros H1 H2 H3 H4 Hl Hcol.
  destruct (create_pipeline_fit_transform params _ _ _ _ H1 H2 H3 H4)
    as (pipeline & Hp & Hrun).
  exists pipeline. split; [done|].
  rewrite Hrun, fold_steps_four. cbn [call_kw].
  rewrite (set_df_index_run _ _ _ _ Hl). unfold tbl_set_index.
  apply lookup_col_None in Hcol. by rewrite Hcol.
Qed.

Lemma pipeline_stops_at_set_df_index_witness :
  ∃ pipeline, create_pipeline ex_pipeline_parameters = Ret pipeline
    ∧ Pipeline_fit_transform pipeline (VRef 0) (mkState [ex_titled] [])
      = (Raise (UnboundLocalError "df_out"),
         mkState [ex_titled]
           ([] ++ [LogInfo "Running set_df_index()";
                   LogException "Error in set_df_index()"
                     (KeyError "PassengerId")])).
Proof.
  apply (pipeline_stops_at_set_df_index ex_pipeline_parameters "PassengerId"
           (kw_create_title_cat "Name" "TitleCategory" ex_title_codes)
           (kw_impute_age "Age" "TitleCategory" ex_age_codes)
           (kw_drop_columns ["Name"]) (mkState [ex_titled] []) 0 ex_titled);
    try (vm_compute; reflexivity).
  apply (bool_decide_unpack _). vm_compute. exact I.
Defined.

Lemma extract_title_without_text row src :
  title_row_ok src row = false → ∃ e, extract_title row src = Raise e.
Proof.
  unfold title_row_ok, extract_title.
  destruct (row_getitem row src) as [[| | | |]|e]; simpl; try done; eauto.
Qed.

(** When some row has no text under the source column, no table is
    built. *)
Lemma title_table_row_without_text df src dst codes i row :
  iterrows df !! i = Some row →
  title_row_ok src row = false →
  ∃ e, title_table df src dst codes = Raise e.
Proof.
  intros Hrow Hbad. destruct (decide (columns df = [])) as [Hc|Hc].
  { exists ValueError. by apply title_table_no_columns. }
  pose proof Hrow as [Hlt _]%iterrows_lookup.
  rewrite title_table_standard; [|by eapply index_nonempty|done].
  destruct (extract_title_without_text row src Hbad) as [e0 He0].
  destruct (mapM_outcome_raise (λ row, extract_title row src)
              (iterrows df) i row e0 Hrow He0) as [e ->].
  by exists e.
Qed.

Lemma create_title_cat_fails σ l df src dst codes e :
  heap σ !! l = Some df →
  title_table df src dst codes = Raise e →
  create_title_cat (VRef l) src dst codes σ
  = (Ret VNone,
     mkState (heap σ ++ [df])
       (log σ ++ [LogInfo "Running create_title_cat()";
                  LogException "Error in create_title_cat()" e])).
Proof.
  intros Hl He. rewrite (create_title_cat_run _ _ _ _ _ _ Hl), He.
  by rewrite <- app_assoc.
Qed.

(** X8: when some row has no text under the source column (the column is
    absent, or the cell is not a string), [create_title_cat] returns
    [None] for the whole table and logs the failure; the only object it
    creates is the copy it gives up, and the input is kept. *)
Theorem create_title_cat_row_without_text
    σ l df src dst (codes : gmap string string) i row :
  heap σ !! l = Some df →
  iterrows df !! i = Some row →
  title_row_ok src row = false →
  ∃ e, create_title_cat (VRef l) src dst codes σ
       = (Ret VNone,
          mkState (heap σ ++ [df])
            (log σ ++ [LogInfo "Running create_title_cat()";
                       LogException "Error in create_title_cat()" e])).
Proof.
  intros Hl Hrow Hbad.
  destruct (title_table_row_without_text df src dst codes i row Hrow Hbad)
    as [e He].
  exists e. by apply create_title_cat_fails.
Qed.

Lemma create_title_cat_row_without_text_witness :
  ∃ e, create_title_cat (VRef 0) "Age" "TitleCategory" ex_title_codes
         (mkState [ex_passengers] [])
       = (Ret VNone,
          mkState ([ex_passengers] ++ [ex_passengers])
            ([] ++ [LogInfo "Running create_title_cat()";
                    LogException "Error in create_title_cat()" e])).
Proof.
  apply (create_title_cat_row_without_text (mkState [ex_passengers] []) 0
           ex_passengers "Age" "TitleCategory" ex_title_codes 0
           (row_at ex_passengers 0));
    vm_compute; reflexivity.
Defined.

(** X9: a failure of the title step does not stop the constructed
    pipeline. When [set_df_index] succeeds and some row of its result has
    no text under the title source column, [create_title_cat] returns
    [None], [impute_age] and [drop_columns] are still called, each logs an
    AttributeError, and fit-and-apply returns [None] instead of raising. *)
Theorem pipeline_returns_None_after_title_failure (params : gmap string kwargs)
    index_col src dst title_codes age_src age_title age_codes names
    σ l df df1 i row :
  params !! "set_df_index_kw_args" = Some (kw_set_df_index index_col) →
  params !! "create_title_cat_kw_args"
    = Some (kw_create_title_cat src dst title_codes) →
  params !! "impute_age_kw_args"
    = Some (kw_impute_age age_src age_title age_codes) →
  params !! "drop_columns_kw_args" = Some (kw_drop_columns names) →
  heap σ !! l = Some df →
  tbl_set_index df index_col = Ret df1 →
  iterrows df1 !! i = Some row →
  title_row_ok src row = false →
  ∃ pipeline e, create_pipeline params = Ret pipeline
    ∧ Pipeline_fit_transform pipeline (VRef l) σ
      = (Ret VNone,
         mkState (heap σ ++ [df1; df1])
           (log σ ++ [LogInfo "Running set_df_index()";
                      LogInfo "Running create_title_cat()";
                      LogException "Error in create_title_cat()" e;
                      LogInfo "Running impute_age()";
                      LogException "Error in impute_age()" AttributeError;
                      LogInfo "Running drop_columns()";
                      LogException "Error in drop_columns()" AttributeError])).
Proof.
  intros H1 H2 H3 H4 Hl Hidx Hrow Hbad.
  destruct (create_pipeline_fit_transform params _ _ _ _ H1 H2 H3 H4)
    as (pipeline & Hp & Hrun).
  set (σ1 := mkState (heap σ ++ [df1]) (log σ ++ [LogInfo "Running set_df_index()"])).
  destruct (title_table_row_without_text df1 src dst title_codes i row Hrow Hbad)
    as [e He].
  pose proof (create_title_cat_fails σ1 (length (heap σ)) df1 src dst title_codes e
                (heap_lookup_fresh _ _) He) as Hfail.
  exists pipeline, e. split; [done|].
  rewrite Hrun, fold_steps_four. cbn [call_kw].
  rewrite (set_df_index_run _ _ _ _ Hl), Hidx. fold σ1. rewrite Hfail.
  rewrite impute_age_None, drop_columns_None. simpl.
  by rewrite <- !app_assoc.
Qed.

Lemma pipeline_returns_None_after_title_failure_witness :
  ∃ pipeline e,
    create_pipeline
      (<["create_title_cat_kw_args" :=
           kw_create_title_cat "Age" "TitleCategory" ex_title_codes]>
         ex_pipeline_parameters)
    = Ret pipeline
    ∧ Pipeline_fit_transform pipeline (VRef 0) (mkState [ex_passengers] [])
      = (Ret VNone,
         mkState
           ([ex_passengers]
              ++ [mkDataFrame (Some "PassengerId") [OInt 1; OInt 2; OInt 3]
                    (filter (λ c, c.1 ≠ "PassengerId") (columns ex_passengers));
                  mkDataFrame (Some "PassengerId") [OInt 1; OInt 2; OInt 3]
                    (filter (λ c, c.1 ≠ "PassengerId") (columns ex_passengers))])
           ([] ++ [LogInfo "Running set_df_index()";
                   LogInfo "Running create_title_cat()";
                   LogException "Error in create_title_cat()" e;
                   LogInfo "Running impute_age()";
                   LogException "Error in impute_age()" AttributeError;
                   LogInfo "Running drop_columns()";
                   LogException "Error in drop_columns()" AttributeError])).
Proof.
  apply (pipeline_returns_None_after_title_failure
           (<["create_title_cat_kw_args" :=
                kw_create_title_cat "Age" "TitleCategory" ex_title_codes]>
              ex_pipeline_parameters)
           "PassengerId" "Age" "TitleCategory" ex_title_codes
           "Age" "TitleCategory" ex_age_codes ["Name"]
           (mkState [ex_passengers] []) 0 ex_passengers
           (mkDataFrame (Some "PassengerId") [OInt 1; OInt 2; OInt 3]
              (filter (λ c, c.1 ≠ "PassengerId") (columns ex_passengers)))
           0
           (row_at
              (mkDataFrame (Some "PassengerId") [OInt 1; OInt 2; OInt 3]
                 (filter (λ c, c.1 ≠ "PassengerId") (columns ex_passengers))) 0));
    vm_compute; reflexivity.
Defined.

Lemma tbl_set_index_Ret df col df' :
  tbl_set_index df col = Ret df' →
  ∃ s, lookup_col (columns df) col = Some s
       ∧ index_name df' = Some col ∧ index df' = s_values s.
Proof.
  unfold tbl_set_index. destruct (lookup_col (columns df) col) as [s|]; [|done].
  intros [= <-]. by exists s.
Qed.

Lemma tbl_drop_Ret df names df' :
  tbl_drop df names = Ret df' →
  index_name df' = index_name df ∧ index df' = index df
  ∧ ∀ n, n ∈ names → n ∉ column_names df'.
Proof.
  unfold tbl_drop. destruct (filter _ names); [|done]. intros [= <-].
  split; [done|]. split; [done|]. intros n Hn. unfold column_names. simpl.
  rewrite (filter_names (λ c, c ∉ names) (λ c, c.1 ∉ names)); [|done].
  intros [Hnot _]%list_elem_of_filter. done.
Qed.

(** X10: when fit-and-apply of the constructed pipeline returns a table,
    the input table has the configured index column, the returned table
    is indexed by that column's values under that column's name (the
    steps after [set_df_index] keep index and index name), none of the
    columns listed for dropping is a column of it, and the log has gained
    the four start messages in step order and no error entry. *)
Theorem pipeline_result_is_indexed (params : gmap string kwargs)
    index_col src dst title_codes age_src age_title age_codes names
    pipeline σ l df l' σ' :
  params !! "set_df_index_kw_args" = Some (kw_set_df_index index_col) →
  params !! "create_title_cat_kw_args"
    = Some (kw_create_title_cat src dst title_codes) →
  params !! "impute_age_kw_args"
    = Some (kw_impute_age age_src age_title age_codes) →
  params !! "drop_columns_kw_args" = Some (kw_drop_columns names) →
  create_pipeline params = Ret pipeline →
  heap σ !! l = Some df →
  Pipeline_fit_transform pipeline (VRef l) σ = (Ret (VRef l'), σ') →
  ∃ s df',
    lookup_col (columns df) index_col = Some s
    ∧ heap σ' !! l' = Some df'
    ∧ index_name df' = Some index_col
    ∧ index df' = s_values s
    ∧ (∀ n, n ∈ names → n ∉ column_names df')
    ∧ log σ' = log σ ++ [LogInfo "Running set_df_index()";
                         LogInfo "Running create_title_cat()";
                         LogInfo "Running impute_age()";
                         LogInfo "Running drop_columns()"].
Proof.
  intros H1 H2 H3 H4 Hp Hl.
  destruct (create_pipeline_fit_transform params _ _ _ _ H1 H2 H3 H4)
    as (pipeline' & Hp' & Hrun).
  rewrite Hp in Hp'. injection Hp' as <-.
  rewrite Hrun, fold_steps_four. cbn [call_kw].
  rewrite (set_df_index_run _ _ _ _ Hl).
  destruct (tbl_set_index df index_col) as [df1|] eqn:Hidx; [|done].
  apply tbl_set_index_Ret in Hidx as (s & Hs & Hname1 & Hindex1).
  rewrite (create_title_cat_run _ _ df1); [|apply heap_lookup_fresh].
  destruct (title_table df1 src dst title_codes) as [df2|e2] eqn:Htitles.
  2:{ rewrite impute_age_None, drop_columns_None. done. }
  apply title_table_Ret in Htitles as [titles ->].
  set (df2 := tbl_setitem df1 dst titles).
  rewrite (impute_age_run _ _ df2); [|apply heap_lookup_fresh].
  destruct (age_table df2 age_src age_title age_codes) as [df3|e3] eqn:Hages.
  2:{ rewrite drop_columns_None. done. }
  apply age_table_Ret in Hages as [ages ->].
  set (df3 := tbl_setitem df2 age_src ages).
  rewrite (drop_columns_run _ _ df3); [|apply heap_lookup_fresh].
  destruct (tbl_drop df3 names) as [df4|e4] eqn:Hdrop; [|done].
  intros [= <- <-].
  apply tbl_drop_Ret in Hdrop as (Hname4 & Hindex4 & Hgone).
  exists s, df4. split; [done|]. split; [apply heap_lookup_fresh|].
  split; [by rewrite Hname4|]. split; [by rewrite Hindex4|].
  split; [done|]. simpl. by rewrite <- !app_assoc.
Qed.

Lemma pipeline_result_is_indexed_witness :
  ∃ s df',
    lookup_col (columns ex_passengers) "PassengerId" = Some s
    ∧ heap (Pipeline_fit_transform ex_pipeline (VRef 0)
              (mkState [ex_passengers] [])).2 !! 4%nat = Some df'
    ∧ index_name df' = Some "PassengerId"
    ∧ index df' = s_values s
    ∧ (∀ n, n ∈ ["Name"] → n ∉ column_names df')
    ∧ log (Pipeline_fit_transform ex_pipeline (VRef 0)
             (mkState [ex_passengers] [])).2
      = [] ++ [LogInfo "Running set_df_index()";
               LogInfo "Running create_title_cat()";
               LogInfo "Running impute_age()";
               LogInfo "Running drop_columns()"].
Proof.
  apply (pipeline_result_is_indexed ex_pipeline_parameters
           "PassengerId" "Name" "TitleCategory" ex_title_codes
           "Age" "TitleCategory" ex_age_codes ["Name"] ex_pipeline
           (mkState [ex_passengers] []) 0 ex_passengers 4
           (Pipeline_fit_transform ex_pipeline (VRef 0)
              (mkState [ex_passengers] [])).2);
    vm_compute; reflexivity.
Defined.

(** ** [ingest_split] *)

Lemma convert_column_present parse l df c σ :
  heap σ !! l = Some df → c ∈ column_names df →
  convert_column parse (VRef l) c σ = (Ret (), σ).
Proof.
  intros Hl Hc. apply lookup_col_is_Some in Hc as [s Hs].
  unfold convert_column. run_M. rewrite Hl. simpl. by rewrite Hs.
Qed.

Lemma convert_column_absent parse l df c σ :
  heap σ !! l = Some df → c ∉ column_names df →
  convert_column parse (VRef l) c σ = (Raise (KeyError c), σ).
Proof.
  intros Hl Hc. apply lookup_col_None in Hc.
  unfold convert_column. run_M. rewrite Hl. simpl. by rewrite Hc.
Qed.

Lemma for_each_convert_present parse l df cols σ :
  heap σ !! l = Some df → (∀ c, c ∈ cols → c ∈ column_names df) →
  for_each cols (convert_column parse (VRef l)) σ = (Ret (), σ).
Proof.
  intros Hl. induction cols as [|c cols IH]; intros Hall; [done|].
  cbn [for_each]. unfold mbind, M_bind.
  rewrite (convert_column_present parse l df c σ Hl);
    [|apply Hall, list_elem_of_here].
  apply IH. intros c' Hc'. by apply Hall, list_elem_of_further.
Qed.

Lemma for_each_convert_absent parse l df cols c σ :
  heap σ !! l = Some df → c ∈ cols → c ∉ column_names df →
  ∃ k, k ∈ cols ∧ (k ∉ column_names df)
       ∧ for_each cols (convert_column parse (VRef l)) σ = (Raise (KeyError k), σ).
Proof.
  intros Hl. induction cols as [|c0 cols IH]; intros Hc Hnot.
  { by apply elem_of_nil in Hc. }
  cbn [for_each]. unfold mbind, M_bind.
  destruct (decide (c0 ∈ column_names df)) as [Hin|Hout].
  - rewrite (convert_column_present parse l df c0 σ Hl Hin).
    apply elem_of_cons in Hc as [->|Hc]; [done|].
    destruct (IH Hc Hnot) as (k & Hk & Hknot & Hrun).
    exists k. split; [by apply list_elem_of_further|]. done.
  - rewrite (convert_column_absent parse l df c0 σ Hl Hout).
    exists c0. split; [apply list_elem_of_here|]. done.
Qed.

Lemma convert_ints_to_floats_run parse lt lh train holdout σ :
  heap σ !! lt = Some train → heap σ !! lh = Some holdout →
  convert_ints_to_floats parse (VRef lt) (VRef lh) σ
  = for_each (column_names holdout) (convert_column parse (VRef lt)) σ.
Proof.
  intros Ht Hh. unfold convert_ints_to_floats.
  unfold mbind at 1 2 3. unfold M_bind, deref. rewrite Ht.
  rewrite (for_each_convert_present parse lt train); [|done|done].
  by rewrite Hh.
Qed.

Lemma length_heap_1 (h : list DataFrame) a : length (h ++ [a]) = S (length h).
Proof. rewrite length_app. simpl. lia. Qed.

(** What [ingest_split] does up to the conversion block, when the two
    files can be read. *)
Lemma ingest_split_after_load read_csv parse split p1 p2 target
    (params : gmap string pyobj) ts tes rs train holdout σ :
  params !! "train_size" = Some ts →
  params !! "test_size" = Some tes →
  params !! "random_state" = Some rs →
  read_csv p1 = Ret train → read_csv p2 = Ret holdout →
  ingest_split read_csv parse split p1 p2 target params σ
  = (convert_ints_to_floats parse (VRef (length (heap σ)))
       (VRef (S (length (heap σ))));;
     X ← DataFrame_drop (VRef (length (heap σ))) [target];
     y ← DataFrame_getitem_frame (VRef (length (heap σ))) target;
     '(X_train, X_test, y_train, y_test) ← split X y ts tes rs;
     mret (X_train, X_test, y_train, y_test, VRef (S (length (heap σ)))))
      (mkState (heap σ ++ [train; holdout])
         (log σ ++ [LogInfo "Running ingest_split()";
                    LogParam "train_size" ts; LogParam "test_size" tes;
                    LogParam "random_state" rs])).
Proof.
  intros Hts Htes Hrs Htrain Hholdout.
  unfold ingest_split, pd_read_csv, dict_getitem.
  rewrite Hts, Htes, Hrs, Htrain, Hholdout.
  unfold logger_info, mlflow_log_param, lift, new_DataFrame.
  unfold mbind at 1 2 3 4 5 6 7 8 9 10 11 12. unfold M_bind. simpl.
  rewrite length_heap_1. by rewrite <- !app_assoc.
Qed.

Lemma heap_lookup_loaded_train (h : list DataFrame) train holdout :
  (h ++ [train; holdout]) !! length h = Some train.
Proof. rewrite lookup_app_r; [|done]. by rewrite Nat.sub_diag. Qed.

Lemma heap_lookup_loaded_holdout (h : list DataFrame) train holdout :
  (h ++ [train; holdout]) !! S (length h) = Some holdout.
Proof.
  rewrite lookup_app_r; [|lia].
  by replace (S (length h) - length h)%nat with 1%nat by lia.
Qed.

Lemma bind_run {A B : Type} (m : M A) (f : A → M B) σ :
  (m ≫= f) σ
  = match m σ with
    | (Ret a, σ') => f a σ'
    | (Raise e, σ') => (Raise e, σ')
    end.
Proof. reflexivity. Qed.

Lemma DataFrame_drop_run l df names σ :
  heap σ !! l = Some df →
  DataFrame_drop (VRef l) names σ
  = match tbl_drop df names with
    | Ret df' =>
        (Ret (VRef (length (heap σ))), mkState (heap σ ++ [df']) (log σ))
    | Raise e => (Raise e, σ)
    end.
Proof.
  intros Hl. unfold DataFrame_drop. run_M. rewrite Hl. simpl.
  by destruct (tbl_drop df names).
Qed.

Lemma DataFrame_getitem_frame_run l df name σ :
  heap σ !! l = Some df →
  DataFrame_getitem_frame (VRef l) name σ
  = match lookup_col (columns df) name with
    | Some s =>
        (Ret (VRef (length (heap σ))),
         mkState (heap σ ++ [mkDataFrame (index_name df) (index df) [(name, s)]])
           (log σ))
    | None => (Raise (KeyError name), σ)
    end.
Proof.
  intros Hl. unfold DataFrame_getitem_frame. run_M. rewrite Hl. simpl.
  by destruct (lookup_col (columns df) name).
Qed.

(** X11: when the three split parameters are present, both files can be
    read, every holdout column is also a train column and the target is a
    train column, [ingest_split] logs the three parameters, loads the two
    tables and calls the split on two new tables: the train table without
    the target column, and the target column alone. Train and holdout
    tables are in the heap as they were read, and the fifth result is the
    loaded holdout object itself. *)
Theorem ingest_split_calls_split read_csv parse split p1 p2 target
    (params : gmap string pyobj) ts tes rs train holdout ycol σ :
  params !! "train_size" = Some ts →
  params !! "test_size" = Some tes →
  params !! "random_state" = Some rs →
  read_csv p1 = Ret train → read_csv p2 = Ret holdout →
  (∀ c, c ∈ column_names holdout → c ∈ column_names train) →
  lookup_col (columns train) target = Some ycol →
  ingest_split read_csv parse split p1 p2 target params σ
  = ('(X_train, X_test, y_train, y_test) ←
       split (VRef (S (S (length (heap σ))))) (VRef (S (S (S (length (heap σ))))))
         ts tes rs;
     mret (X_train, X_test, y_train, y_test, VRef (S (length (heap σ)))))
      (mkState
         (heap σ
            ++ [train; holdout;
                mkDataFrame (index_name train) (index train)
                  (filter (λ c, c.1 ∉ [target]) (columns train));
                mkDataFrame (index_name train) (index train) [(target, ycol)]])
         (log σ ++ [LogInfo "Running ingest_split()";
                    LogParam "train_size" ts; LogParam "test_size" tes;
                    LogParam "random_state" rs])).
Proof.
  intros Hts Htes Hrs Htrain Hholdout Hsub Hy.
  rewrite (ingest_split_after_load _ _ _ _ _ _ _ ts tes rs train holdout);
    try done.
  rewrite bind_run.
  rewrite (convert_ints_to_floats_run parse _ _ train holdout);
    [|apply heap_lookup_loaded_train|apply heap_lookup_loaded_holdout].
  rewrite (for_each_convert_present parse _ train);
    [|apply heap_lookup_loaded_train|done].
  rewrite bind_run.
  rewrite (DataFrame_drop_run _ train); [|apply heap_lookup_loaded_train].
  rewrite tbl_drop_present.
  2:{ intros n ->%list_elem_of_singleton. apply lookup_col_is_Some. by eexists. }
  rewrite bind_run.
  rewrite (DataFrame_getitem_frame_run _ train).
  2:{ cbn [heap]. rewrite lookup_app_l; [apply heap_lookup_loaded_train|].
      rewrite length_app. simpl. lia. }
  rewrite Hy. cbn [heap log].
  rewrite !length_app. simpl.
  replace (length (heap σ) + 2)%nat with (S (S (length (heap σ)))) by lia.
  replace (S (S (length (heap σ))) + 1)%nat
    with (S (S (S (length (heap σ))))) by lia.
  by rewrite <- !app_assoc.
Qed.

Lemma ingest_split_calls_split_witness :
  ingest_split ex_read_csv (λ _, None) ex_split "train.csv" "holdout.csv"
    "Survived" ex_split_parameters (mkState [] [])
  = ('(X_train, X_test, y_train, y_test) ←
       ex_split (VRef 2) (VRef 3)
         (OFloat (PrimFloat.div (float_of_Z 4) (float_of_Z 5)))
         (OFloat (PrimFloat.div (float_of_Z 1) (float_of_Z 5)))
         (OInt 42);
     mret (X_train, X_test, y_train, y_test, VRef 1))
      (mkState
         ([] ++ [ex_train; ex_holdout;
                 mkDataFrame (index_name ex_train) (index ex_train)
                   (filter (λ c, c.1 ∉ ["Survived"]) (columns ex_train));
                 mkDataFrame (index_name ex_train) (index ex_train)
                   [("Survived", mkSeries Int64 [OInt 0; OInt 1])]])
         ([] ++ [LogInfo "Running ingest_split()";
                 LogParam "train_size"
                   (OFloat (PrimFloat.div (float_of_Z 4) (float_of_Z 5)));
                 LogParam "test_size"
                   (OFloat (PrimFloat.div (float_of_Z 1) (float_of_Z 5)));
                 LogParam "random_state" (OInt 42)])).
Proof.
  apply (ingest_split_calls_split ex_read_csv (λ _, None) ex_split
           "train.csv" "holdout.csv" "Survived" ex_split_parameters
           _ _ _ ex_train ex_holdout _ (mkState [] []));
    try (vm_compute; reflexivity).
  intros c Hc. apply (bool_decide_unpack _).
  repeat (apply elem_of_cons in Hc as [->|Hc]; [vm_compute; exact I|]).
  by apply elem_of_nil in Hc.
Defined.

(** X12: the loop over the holdout columns subscripts the train table.
    When the holdout file has a column that the train file lacks,
    [ingest_split] raises the KeyError of such a column after loading
    both tables; the split is never called and no result is returned. *)
Theorem ingest_split_holdout_column_missing_in_train
    read_csv parse split p1 p2 target (params : gmap string pyobj)
    ts tes rs train holdout c σ :
  params !! "train_size" = Some ts →
  params !! "test_size" = Some tes →
  params !! "random_state" = Some rs →
  read_csv p1 = Ret train → read_csv p2 = Ret holdout →
  c ∈ column_names holdout → c ∉ column_names train →
  ∃ k, k ∈ column_names holdout ∧ (k ∉ column_names train)
    ∧ ingest_split read_csv parse split p1 p2 target params σ
      = (Raise (KeyError k),
         mkState (heap σ ++ [train; holdout])
           (log σ ++ [LogInfo "Running ingest_split()";
                      LogParam "train_size" ts; LogParam "test_size" tes;
                      LogParam "random_state" rs])).
Proof.
  intros Hts Htes Hrs Htrain Hholdout Hc Hnot.
  set (σL := mkState (heap σ ++ [train; holdout])
               (log σ ++ [LogInfo "Running ingest_split()";
                          LogParam "train_size" ts; LogParam "test_size" tes;
                          LogParam "random_state" rs])).
  destruct (for_each_convert_absent parse (length (heap σ)) train
              (column_names holdout) c σL) as (k & Hk & Hknot & Hrun);
    [apply heap_lookup_loaded_train|done|done|].
  exists k. split; [done|]. split; [done|].
  rewrite (ingest_split_after_load _ _ _ _ _ _ _ ts tes rs train holdout);
    try done.
  rewrite bind_run.
  rewrite (convert_ints_to_floats_run parse _ _ train holdout);
    [|apply heap_lookup_loaded_train|apply heap_lookup_loaded_holdout].
  fold σL. by rewrite Hrun.
Qed.

Lemma ingest_split_holdout_column_missing_in_train_witness :
  ∃ k, k ∈ column_names ex_train ∧ (k ∉ column_names ex_holdout)
    ∧ ingest_split ex_read_csv (λ _, None) ex_split "holdout.csv" "train.csv"
        "Pclass" ex_split_parameters (mkState [] [])
      = (Raise (KeyError k),
         mkState ([] ++ [ex_holdout; ex_train])
           ([] ++ [LogInfo "Running ingest_split()";
                   LogParam "train_size"
                     (OFloat (PrimFloat.div (float_of_Z 4) (float_of_Z 5)));
                   LogParam "test_size"
                     (OFloat (PrimFloat.div (float_of_Z 1) (float_of_Z 5)));
                   LogParam "random_state" (OInt 42)])).
Proof.
  apply (ingest_split_holdout_column_missing_in_train ex_read_csv (λ _, None)
           ex_split "holdout.csv" "train.csv" "Pclass" ex_split_parameters
           _ _ _ ex_holdout ex_train "Survived" (mkState [] []));
    try (vm_compute; reflexivity).
  - unfold ex_train, column_names. simpl. in_list.
  - apply (bool_decide_unpack _). vm_compute. exact I.
Defined.

(** X13: when the target is not a column of the train table (and every
    holdout column is a train column), [ingest_split] raises the KeyError
    of the target after loading both tables; the split is never called. *)
Theorem ingest_split_missing_target
    read_csv parse split p1 p2 target (params : gmap string pyobj)
    ts tes rs train holdout σ :
  params !! "train_size" = Some ts →
  params !! "test_size" = Some tes →
  params !! "random_state" = Some rs →
  read_csv p1 = Ret train → read_csv p2 = Ret holdout →
  (∀ c, c ∈ column_names holdout → c ∈ column_names train) →
  target ∉ column_names train →
  ingest_split read_csv parse split p1 p2 target params σ
  = (Raise (KeyError target),
     mkState (heap σ ++ [train; holdout])
       (log σ ++ [LogInfo "Running ingest_split()";
                  LogParam "train_size" ts; LogParam "test_size" tes;
                  LogParam "random_state" rs])).
Proof.
  intros Hts Htes Hrs Htrain Hholdout Hsub Hnot.
  rewrite (ingest_split_after_load _ _ _ _ _ _ _ ts tes rs train holdout);
    try done.
  rewrite bind_run.
  rewrite (convert_ints_to_floats_run parse _ _ train holdout);
    [|apply heap_lookup_loaded_train|apply heap_lookup_loaded_holdout].
  rewrite (for_each_convert_present parse _ train);
    [|apply heap_lookup_loaded_train|done].
  rewrite bind_run.
  rewrite (DataFrame_drop_run _ train); [|apply heap_lookup_loaded_train].
  destruct (tbl_drop_absent train [target] target) as (k & Hk & _ & ->);
    [apply list_elem_of_here|done|].
  by apply list_elem_of_singleton in Hk as ->.
Qed.

Lemma ingest_split_missing_target_witness :
  ingest_split ex_read_csv (λ _, None) ex_split "train.csv" "holdout.csv"
    "Fare" ex_split_parameters (mkState [] [])
  = (Raise (KeyError "Fare"),
     mkState ([] ++ [ex_train; ex_holdout])
       ([] ++ [LogInfo "Running ingest_split()";
               LogParam "train_size"
                 (OFloat (PrimFloat.div (float_of_Z 4) (float_of_Z 5)));
               LogParam "test_size"
                 (OFloat (PrimFloat.div (float_of_Z 1) (float_of_Z 5)));
               LogParam "random_state" (OInt 42)])).
Proof.
  apply (ingest_split_missing_target ex_read_csv (λ _, None) ex_split
           "train.csv" "holdout.csv" "Fare" ex_split_parameters
           _ _ _ ex_train ex_holdout (mkState [] []));
    try (vm_compute; reflexivity).
  - intros c Hc. apply (bool_decide_unpack _).
    repeat (apply elem_of_cons in Hc as [->|Hc]; [vm_compute; exact I|]).
    by apply elem_of_nil in Hc.
  - apply (bool_decide_unpack _). vm_compute. exact I.
Defined.

(** X14: the split parameters are unpacked first. When one of
    "train_size", "test_size", "random_state" is missing, [ingest_split]
    raises KeyError for a missing one before it logs a parameter or
    reads a file: whatever the files hold, no object is created and the
    log gains the start message only. *)
Theorem ingest_split_missing_parameter
    read_csv parse split p1 p2 target (params : gmap string pyobj) k σ :
  k ∈ split_parameter_keys → params !! k = None →
  ∃ k', k' ∈ split_parameter_keys ∧ params !! k' = None
    ∧ ingest_split read_csv parse split p1 p2 target params σ
      = (Raise (KeyError k'),
         mkState (heap σ) (log σ ++ [LogInfo "Running ingest_split()"])).
Proof.
  intros Hk Hnone. unfold split_parameter_keys in *.
  unfold ingest_split, dict_getitem.
  destruct (params !! "train_size") as [ts|] eqn:Hts;
    [|exists "train_size"; split; [in_list|done]].
  destruct (params !! "test_size") as [tes|] eqn:Htes;
    [|exists "test_size"; split; [in_list|done]].
  destruct (params !! "random_state") as [rs|] eqn:Hrs;
    [|exists "random_state"; split; [in_list|done]].
  exfalso. repeat (apply elem_of_cons in Hk as [->|Hk]; [congruence|]).
  by apply elem_of_nil in Hk.
Qed.

Lemma ingest_split_missing_parameter_witness :
  ∃ k', k' ∈ split_parameter_keys
    ∧ delete "test_size" ex_split_parameters !! k' = None
    ∧ ingest_split ex_read_csv (λ _, None) ex_split "train.csv" "holdout.csv"
        "Survived" (delete "test_size" ex_split_parameters) (mkState [] [])
      = (Raise (KeyError k'),
         mkState [] ([] ++ [LogInfo "Running ingest_split()"])).
Proof.
  apply (ingest_split_missing_parameter ex_read_csv (λ _, None) ex_split
           "train.csv" "holdout.csv" "Survived"
           (delete "test_size" ex_split_parameters) "test_size" (mkState [] [])).
  - unfold split_parameter_keys. in_list.
  - vm_compute. reflexivity.
Defined.

(** ** The transforms that assign a column *)

Lemma cols_set_names cols name s :
  (cols_set cols name s).*1
  = if decide (name ∈ cols.*1) then cols.*1 else cols.*1 ++ [name].
Proof.
  induction cols as [|[n s0] cols IH].
  - cbn [cols_set fmap list_fmap]. destruct (decide (name ∈ [])) as [Hin|]; [|done].
    by apply elem_of_nil in Hin.
  - cbn [cols_set]. destruct (decide (n = name)) as [->|Hn].
    + rewrite !fmap_cons. cbn [fst].
      destruct (decide (name ∈ name :: cols.*1)) as [|Hout]; [done|].
      exfalso. apply Hout, list_elem_of_here.
    + rewrite !fmap_cons, IH. cbn [fst].
      destruct (decide (name ∈ cols.*1)) as [Hin|Hout];
        destruct (decide (name ∈ n :: cols.*1)) as [Hin'|Hout']; try done.
      * exfalso. by apply Hout', list_elem_of_further.
      * exfalso. apply elem_of_cons in Hin' as [->|?]; done.
Qed.

(** X15: [create_title_cat], [impute_age] and [create_family_size] change
    one column only. When such a call returns a table, that table has the
    index and index name of the input, every column other than the
    assigned one holds the input's data, and the column order is the
    input's, with the assigned column added last when it is new. *)
Theorem assigning_transform_changes_one_column f kw dst σ l df l' σ' :
  assigned_column kw = Some dst →
  heap σ !! l = Some df →
  call_kw f (VRef l) kw σ = (Ret (VRef l'), σ') →
  ∃ df',
    heap σ' !! l' = Some df'
    ∧ index df' = index df
    ∧ index_name df' = index_name df
    ∧ is_Some (lookup_col (columns df') dst)
    ∧ (∀ c, c ≠ dst → lookup_col (columns df') c = lookup_col (columns df) c)
    ∧ column_names df'
      = if decide (dst ∈ column_names df) then column_names df
        else column_names df ++ [dst].
Proof.
  intros Hdst Hl.
  assert (∀ s, let df' := tbl_setitem df dst s in
               (heap σ ++ [df']) !! length (heap σ) = Some df'
               ∧ index df' = index df
               ∧ index_name df' = index_name df
               ∧ is_Some (lookup_col (columns df') dst)
               ∧ (∀ c, c ≠ dst →
                    lookup_col (columns df') c = lookup_col (columns df) c)
               ∧ column_names df'
                 = if decide (dst ∈ column_names df) then column_names df
                   else column_names df ++ [dst]) as Hset.
  { intros s df'. split; [apply heap_lookup_fresh|]. split; [done|].
    split; [done|]. unfold df', tbl_setitem, column_names. simpl.
    split; [rewrite lookup_col_cols_set_eq; by eexists|].
    split; [intros c Hc; by apply lookup_col_cols_set_ne|].
    apply cols_set_names. }
  destruct f, kw; simpl in Hdst |- *; try done; injection Hdst as ->.
  - rewrite (create_title_cat_run _ _ _ _ _ _ Hl).
    destruct (title_table _ _ _ _) as [df'|] eqn:Htable; [|done].
    apply title_table_Ret in Htable as [s ->]. intros [= <- <-].
    eexists. apply Hset.
  - rewrite (impute_age_run _ _ _ _ _ _ Hl).
    destruct (age_table _ _ _ _) as [df'|] eqn:Htable; [|done].
    apply age_table_Ret in Htable as [s ->]. intros [= <- <-].
    eexists. apply Hset.
  - rewrite (create_family_size_run _ _ _ _ _ Hl).
    destruct (size_table _ _ _) as [df'|] eqn:Htable; [|done].
    apply size_table_Ret in Htable as [s ->]. intros [= <- <-].
    eexists. apply Hset.
Qed.

Lemma assigning_transform_changes_one_column_witness :
  ∃ df',
    heap (create_title_cat (VRef 0) "Name" "TitleCategory" ex_title_codes
            (mkState [ex_passengers] [])).2 !! 1%nat = Some df'
    ∧ index df' = index ex_passengers
    ∧ index_name df' = index_name ex_passengers
    ∧ is_Some (lookup_col (columns df') "TitleCategory")
    ∧ (∀ c, c ≠ "TitleCategory" →
         lookup_col (columns df') c = lookup_col (columns ex_passengers) c)
    ∧ column_names df'
      = if decide ("TitleCategory" ∈ column_names ex_passengers)
        then column_names ex_passengers
        else column_names ex_passengers ++ ["TitleCategory"].
Proof.
  apply (assigning_transform_changes_one_column fn_create_title_cat
           (kw_create_title_cat "Name" "TitleCategory" ex_title_codes)
           "TitleCategory" (mkState [ex_passengers] []) 0 ex_passengers 1
           (create_title_cat (VRef 0) "Name" "TitleCategory" ex_title_codes
              (mkState [ex_passengers] [])).2);
    vm_compute; reflexivity.
Defined.

(** X16: the token [extract_title] takes from a text consists of ASCII
    letters only: it never holds a space, a period or any other character
    of the text, whatever the text. *)
Theorem title_of_letters text :
  Forall (λ c, Re.is_ascii_letter c = true)
    (list_ascii_of_string (title_of text)).
Proof.
  destruct (title_of_spec text) as [(pre & t & post & -> & (_ & _ & Hall) & _)|[-> _]].
  - by rewrite list_ascii_of_string_of_list_ascii.
  - constructor.
Qed.

(** X17: the column that [set_df_index] turned into the index cannot be
    dropped afterwards: [drop_columns] with that column among the listed
    names, applied to the result of [set_df_index], returns [None]. *)
Theorem drop_index_column_after_set_df_index σ l df col names :
  heap σ !! l = Some df →
  col ∈ column_names df →
  col ∈ names →
  ∃ e σ', (X ← set_df_index (VRef l) col; drop_columns X names) σ
          = (Ret VNone, σ')
          ∧ log σ' = log σ ++ [LogInfo "Running set_df_index()";
                               LogInfo "Running drop_columns()";
                               LogException "Error in drop_columns()" e].
Proof.
  intros Hl Hcol Hnames. apply lookup_col_is_Some in Hcol as [s Hs].
  rewrite bind_run, (set_df_index_run _ _ _ _ Hl).
  unfold tbl_set_index. rewrite Hs.
  set (df1 := mkDataFrame (Some col) (s_values s)
                (filter (λ c, c.1 ≠ col) (columns df))).
  assert (col ∉ column_names df1) as Hgone.
  { unfold column_names, df1. simpl.
    rewrite (filter_names (λ n, n ≠ col) (λ c, c.1 ≠ col)); [|done].
    intros [Hne _]%list_elem_of_filter. done. }
  destruct (tbl_drop_absent df1 names col Hnames Hgone) as (k & _ & _ & Hdrop).
  rewrite (drop_columns_run _ _ df1); [|apply heap_lookup_fresh].
  rewrite Hdrop. eexists _, _. split; [done|]. simpl.
  by rewrite <- app_assoc.
Qed.

Lemma drop_index_column_after_set_df_index_witness :
  ∃ e σ', (X ← set_df_index (VRef 0) "PassengerId";
           drop_columns X ["PassengerId"; "Name"]) (mkState [ex_passengers] [])
          = (Ret VNone, σ')
          ∧ log σ' = [] ++ [LogInfo "Running set_df_index()";
                            LogInfo "Running drop_columns()";
                            LogException "Error in drop_columns()" e].
Proof.
  apply (drop_index_column_after_set_df_index (mkState [ex_passengers] []) 0
           ex_passengers "PassengerId" ["PassengerId"; "Name"]).
  - reflexivity.
  - unfold ex_passengers, column_names. simpl. in_list.
  - in_list.
Defined.

(** ** Missing columns under [apply] *)

(** X18: on a table that has at least one row and lacks the source
    column, [impute_age] returns [None] and logs an exception; the input
    is kept and the only new object is the copy that was given up. The
    exception is the KeyError of the source column, raised for the first
    row, when the table has a column; on a table without columns [apply]
    drops that KeyError and returns a table, and the exception is the
    ValueError of the assignment. *)
Theorem impute_age_missing_source_column
    σ l df src title (codes : gmap string pyobj) :
  heap σ !! l = Some df →
  index df ≠ [] →
  src ∉ column_names df →
  impute_age (VRef l) src title codes σ
  = (Ret VNone,
     mkState (heap σ ++ [df])
       (log σ ++ [LogInfo "Running impute_age()";
                  LogException "Error in impute_age()"
                    (match columns df with
                     | [] => ValueError
                     | _ :: _ => KeyError src
                     end)])).
Proof.
  intros Hl Hrows Hsrc. rewrite (impute_age_run _ _ _ _ _ _ Hl).
  destruct (columns df) as [|c0 cs] eqn:Hcols.
  { unfold age_table, apply_rows, apply_empty_result, column_names.
    rewrite Hcols. destruct (index df) as [|x xs]; [done|].
    simpl. unfold assign_value. simpl. rewrite Hcols. simpl.
    by rewrite <- app_assoc. }
  rewrite age_table_standard; [|done|by rewrite Hcols].
  destruct (index df) as [|x xs] eqn:Hi; [done|].
  destruct (iterrows_first df x xs Hi) as [rows ->].
  rewrite (mapM_outcome_raise_first _ _ _ (KeyError src)).
  - simpl. by rewrite <- app_assoc.
  - unfold infer_age. by rewrite row_getitem_absent.
Qed.

Lemma impute_age_missing_source_column_witness :
  impute_age (VRef 0) "Fare" "TitleCategory" ex_age_codes (mkState [ex_titled] [])
  = (Ret VNone,
     mkState ([ex_titled] ++ [ex_titled])
       ([] ++ [LogInfo "Running impute_age()";
               LogException "Error in impute_age()" (KeyError "Fare")])).
Proof.
  apply (impute_age_missing_source_column (mkState [ex_titled] []) 0 ex_titled).
  - reflexivity.
  - discriminate.
  - apply (bool_decide_unpack _). vm_compute. exact I.
Defined.

(** A table without columns, and with rows. *)
Example impute_age_without_columns :
  impute_age (VRef 0) "Age" "TitleCategory" ex_age_codes
    (mkState [ex_no_columns] [])
  = (Ret VNone,
     mkState [ex_no_columns; ex_no_columns]
       [LogInfo "Running impute_age()";
        LogException "Error in impute_age()" ValueError]).
Proof. vm_compute. reflexivity. Qed.

Lemma row_getitem_list_absent row cols c :
  c ∈ cols → row_getitem row c = Raise (KeyError c) →
  ∃ k, k ∈ cols ∧ row_getitem_list row cols = Raise (KeyError k).
Proof.
  unfold row_getitem_list. intros Hc Hraise.
  assert (∃ k, k ∈ cols
            ∧ mapM_outcome (λ c, v ← row_getitem row c; Ret (c, v)) cols
              = Raise (KeyError k)) as (k & Hk & ->); [|by exists k].
  induction cols as [|c0 cols IH]; [by apply elem_of_nil in Hc|].
  simpl. destruct (row_getitem row c0) as [v|e] eqn:H0; simpl.
  - apply elem_of_cons in Hc as [->|Hc]; [congruence|].
    destruct (IH Hc) as (k & Hk & ->). simpl.
    exists k. split; [by apply list_elem_of_further|done].
  - apply row_getitem_raises in H0 as ->.
    exists c0. split; [apply list_elem_of_here|done].
Qed.

(** X19: on a table that has at least one row, when some listed source
    column is not a column of the table, [create_family_size] returns
    [None] and logs an exception; the input is kept. The exception is the
    KeyError of a listed column when the table has a column, and the
    ValueError of the assignment when it has none. *)
Theorem create_family_size_missing_source_column σ l df cols dst c :
  heap σ !! l = Some df →
  index df ≠ [] →
  c ∈ cols → c ∉ column_names df →
  ∃ k, k ∈ cols
    ∧ create_family_size (VRef l) cols dst σ
      = (Ret VNone,
         mkState (heap σ ++ [df])
           (log σ ++ [LogInfo "Running create_family_size()";
                      LogException "Error in create_family_size()"
                        (match columns df with
                         | [] => ValueError
                         | _ :: _ => KeyError k
                         end)])).
Proof.
  intros Hl Hrows Hc Hnot. rewrite (create_family_size_run _ _ _ _ _ Hl).
  destruct (columns df) as [|c0 cs] eqn:Hcols.
  { exists c. split; [done|].
    unfold size_table, apply_rows, apply_empty_result, column_names.
    rewrite Hcols. destruct (index df) as [|x xs]; [done|].
    cbn [fmap list_fmap].
    destruct (row_getitem_list_absent (mkRow Float64 []) cols c Hc) as (k & _ & Hk);
      [done|].
    unfold family_size_of_row. rewrite Hk. simpl.
    unfold assign_value. simpl. rewrite Hcols. simpl.
    by rewrite <- app_assoc. }
  rewrite size_table_standard; [|done|by rewrite Hcols].
  destruct (index df) as [|x xs] eqn:Hi; [done|].
  destruct (iterrows_first df x xs Hi) as [rows ->].
  destruct (row_getitem_list_absent (row_at df 0) cols c Hc) as (k & Hk & Hlist).
  { by apply row_getitem_absent. }
  exists k. split; [done|].
  rewrite (mapM_outcome_raise_first _ _ _ (KeyError k)).
  - simpl. by rewrite <- app_assoc.
  - unfold family_size_of_row. by rewrite Hlist.
Qed.

Lemma create_family_size_missing_source_column_witness :
  ∃ k, k ∈ ["SibSp"; "Children"]
    ∧ create_family_size (VRef 0) ["SibSp"; "Children"] "FamilySize"
        (mkState [ex_passengers] [])
      = (Ret VNone,
         mkState ([ex_passengers] ++ [ex_passengers])
           ([] ++ [LogInfo "Running create_family_size()";
                   LogException "Error in create_family_size()" (KeyError k)])).
Proof.
  apply (create_family_size_missing_source_column (mkState [ex_passengers] []) 0
           ex_passengers ["SibSp"; "Children"] "FamilySize" "Children").
  - reflexivity.
  - discriminate.
  - in_list.
  - apply (bool_decide_unpack _). vm_compute. exact I.
Defined.

Example create_family_size_without_columns :
  create_family_size (VRef 0) ["SibSp"] "FamilySize" (mkState [ex_no_columns] [])
  = (Ret VNone,
     mkState [ex_no_columns; ex_no_columns]
       [LogInfo "Running create_family_size()";
        LogException "Error in create_family_size()" ValueError]).
Proof. vm_compute. reflexivity. Qed.

(** ** Running [impute_age] on its own output *)

Lemma infer_age_result_int row src title (codes : gmap string pyobj) a :
  map_Forall (λ _ v, is_py_int v = true) codes →
  infer_age row src title codes = Ret a → ∃ z, a = OInt z.
Proof.
  intros Hcodes. unfold infer_age.
  destruct (row_getitem row src) as [x|e]; [|done]. cbn [mbind outcome_bind].
  destruct (pd_isnull x).
  - destruct (foldM _ None (map_to_list codes)) as [[a'|]|e] eqn:Hloop; try done.
    cbn [mbind outcome_bind]. intros [= <-].
    apply infer_age_loop_result in Hloop as [|[k Hin]]; [done|].
    apply elem_of_map_to_list in Hin. specialize (Hcodes k a' Hin).
    destruct a'; try done. by eexists.
  - cbn [mbind outcome_bind]. destruct (py_int x) as [z|e]; [|done].
    cbn [mbind outcome_bind]. intros [= <-]. by eexists.
Qed.

Lemma infer_age_of_int row src title (codes : gmap string pyobj) z :
  row_getitem row src = Ret (OInt z) →
  infer_age row src title codes = Ret (OInt z).
Proof. intros Hx. unfold infer_age. rewrite Hx. done. Qed.

(** X20: [impute_age] applied to its own output with the same options
    returns a table equal to that output, on a table that has at least
    one row and whose category column is an object column other than the
    source column, when every fill value of the mapping is a Python int:
    after the first run every age is an integer, the rows of the output
    hold Python objects, and the second run leaves integers as they
    are. *)
Theorem impute_age_twice σ l df src title (codes : gmap string pyobj) st l1 σ1 :
  map_Forall (λ _ v, is_py_int v = true) codes →
  index df ≠ [] →
  title ≠ src →
  lookup_col (columns df) title = Some st → s_dtype st = Object →
  heap σ !! l = Some df →
  impute_age (VRef l) src title codes σ = (Ret (VRef l1), σ1) →
  ∃ df1, heap σ1 !! l1 = Some df1
    ∧ ∃ l2 σ2,
        impute_age (VRef l1) src title codes σ1 = (Ret (VRef l2), σ2)
        ∧ heap σ2 !! l2 = Some df1.
Proof.
  intros Hcodes Hrows Hts Hst Hobj Hl.
  assert (columns df ≠ []) as Hcols by (by destruct (columns df)).
  rewrite (impute_age_run _ _ _ _ _ _ Hl).
  rewrite age_table_standard; [|done..].
  destruct (mapM_outcome _ (iterrows df)) as [ages|e] eqn:Hages; [|done].
  cbn [mbind outcome_bind]. intros [= <- <-].
  set (df1 := tbl_setitem df src (Series_of ages)).
  exists df1. split; [apply heap_lookup_fresh|].
  destruct (list_all_of_form OInt (λ _, True) ages) as (zs & Hzs & _).
  { intros a [i Hi]%list_elem_of_lookup_1.
    assert (i < length (iterrows df))%nat as Hlt.
    { rewrite <- (mapM_outcome_length _ _ _ Hages). by eapply lookup_lt_Some. }
    destruct (lookup_lt_is_Some_2 _ _ Hlt) as [row Hrow].
    destruct (mapM_outcome_lookup _ _ _ _ _ Hages Hrow) as (a' & Ha' & Hinfer).
    rewrite Hi in Ha'. injection Ha' as <-.
    destruct (infer_age_result_int _ _ _ _ _ Hcodes Hinfer) as [z ->].
    by exists z. }
  assert (frame_dtype df1 = Object) as Hdt.
  { apply (frame_dtype_Object df1 title st); [|done].
    unfold df1, tbl_setitem. simpl. by rewrite lookup_col_cols_set_ne. }
  assert (mapM_outcome (λ row, infer_age row src title codes) (iterrows df1)
          = Ret ages) as Hages1.
  { apply mapM_outcome_of_lookup.
    - by rewrite (mapM_outcome_length _ _ _ Hages), !iterrows_length.
    - intros i row1 a [Hlt ->]%iterrows_lookup Ha.
      assert (∃ z, a = OInt z) as [z ->].
      { rewrite Hzs, list_lookup_fmap in Ha.
        destruct (zs !! i) as [z|]; [|done]. injection Ha as <-. by exists z. }
      apply infer_age_of_int.
      rewrite (row_getitem_cell df1 src i (OInt z)); [by rewrite Hdt|].
      unfold df1. rewrite cell_setitem_eq. subst ages.
      by rewrite Series_of_ints. }
  eexists _, _. split.
  - rewrite (impute_age_run _ _ df1); [|apply heap_lookup_fresh].
    rewrite age_table_standard; [|done|apply cols_set_nonempty].
    by rewrite Hages1.
  - simpl. rewrite heap_lookup_fresh. f_equal.
    unfold df1, tbl_setitem. simpl. by rewrite cols_set_idemp.
Qed.

Lemma impute_age_twice_witness :
  ∃ df1,
    heap (impute_age (VRef 0) "Age" "TitleCategory" ex_age_codes
            (mkState [ex_titled_ok] [])).2 !! 1%nat = Some df1
    ∧ ∃ l2 σ2,
        impute_age (VRef 1) "Age" "TitleCategory" ex_age_codes
          (impute_age (VRef 0) "Age" "TitleCategory" ex_age_codes
             (mkState [ex_titled_ok] [])).2
        = (Ret (VRef l2), σ2)
        ∧ heap σ2 !! l2 = Some df1.
Proof.
  apply (impute_age_twice (mkState [ex_titled_ok] []) 0 ex_titled_ok
           "Age" "TitleCategory" ex_age_codes
           (mkSeries Object [OStr "gen_male"; OStr "young_female"; OStr "gen_male"])).
  - apply (bool_decide_unpack _). vm_compute. exact I.
  - discriminate.
  - discriminate.
  - reflexivity.
  - reflexivity.
  - reflexivity.
  - vm_compute. reflexivity.
Defined.

(** With a fill value that is not an integer the second run does change
    the table: 29.5 is stored by the first run and truncated to 29 by the
    second. *)
Example impute_age_twice_truncates_float_fill :
  let codes : gmap string pyobj :=
    {[ "gen_male" := OFloat (PrimFloat.div (float_of_Z 59) (float_of_Z 2)) ]} in
  let df := mkDataFrame None [OInt 0]
              [("Age", mkSeries Float64 [OFloat PrimFloat.nan]);
               ("TitleCategory", mkSeries Object [OStr "gen_male"])] in
  let r1 := impute_age (VRef 0) "Age" "TitleCategory" codes (mkState [df] []) in
  let r2 := impute_age (VRef 1) "Age" "TitleCategory" codes r1.2 in
  (λ t, lookup_col (columns t) "Age") <$> heap r1.2 !! 1%nat
  = Some (Some (mkSeries Float64
                  [OFloat (PrimFloat.div (float_of_Z 59) (float_of_Z 2))]))
  ∧ (λ t, lookup_col (columns t) "Age") <$> heap r2.2 !! 2%nat
    = Some (Some (mkSeries Int64 [OInt 29])).
Proof. vm_compute. split; reflexivity. Qed.

(** ** Missing counts in [create_family_size] *)

Lemma Z_sum_known_counts (counts : list (option Z)) :
  Z_sum (default 0 <$> counts) = Z_sum (known_counts counts).
Proof.
  unfold known_counts. induction counts as [|[z|] counts IH]; csimpl; [done|..].
  - by rewrite IH.
  - by rewrite IH.
Qed.

(** The row of a line of an object table selects the stored counts; with
    the missing ones taken as zero they are a list of integers. *)
Lemma row_getitem_list_counts df cols i counts :
  frame_dtype df = Object →
  count_cells df cols i = Some counts →
  ∃ cells,
    row_getitem_list (row_at df i) cols = Ret (mkRow Object cells)
    ∧ null_to_zero <$> cells.*2 = OInt <$> (default 0 <$> counts).
Proof.
  intros Hdt. unfold row_getitem_list. cbn [row_dtype row_at]. rewrite Hdt.
  assert (∀ counts, count_cells df cols i = Some counts →
           ∃ cells,
             mapM_outcome (λ c, v ← row_getitem (row_at df i) c; Ret (c, v)) cols
             = Ret cells
             ∧ null_to_zero <$> cells.*2 = OInt <$> (default 0 <$> counts))
    as Hcells.
  { clear counts. induction cols as [|c cols IH]; intros counts; simpl.
    - intros [= <-]. by exists [].
    - destruct (cell df c i) as [v|] eqn:Hc; [|done].
      rewrite (row_getitem_cell df c i v Hc), Hdt, as_row_cell_Object.
      intros H.
      assert (∃ oz rest, count_cells df cols i = Some rest
                ∧ counts = oz :: rest
                ∧ null_to_zero v = OInt (default 0 oz))
        as (oz & rest & Hrest & -> & Hoz).
      { destruct v as [z|f|s| |z]; simpl in H; try done.
        - destruct (count_cells df cols i) as [rest|]; [|done].
          injection H as <-. by exists (Some z), rest.
        - destruct (PrimFloat.is_nan f) eqn:Hnan; [|done].
          destruct (count_cells df cols i) as [rest|]; [|done].
          injection H as <-. exists None, rest. repeat split; try done.
          unfold null_to_zero. simpl. by rewrite Hnan.
        - destruct (count_cells df cols i) as [rest|]; [|done].
          injection H as <-. by exists None, rest. }
      destruct (IH rest Hrest) as (cells & -> & Hvals). simpl.
      eexists. split; [done|]. rewrite !fmap_cons. cbn [snd].
      rewrite Hoz. f_equal. exact Hvals. }
  intros Hcounts. destruct (Hcells counts Hcounts) as (cells & -> & Hvals).
  by exists cells.
Qed.

Lemma family_size_of_count_line df cols i counts :
  frame_dtype df = Object →
  count_cells df cols i = Some counts →
  family_size_of_row (row_at df i) cols
  = Ret (OInt (Z_sum (known_counts counts) + 1)).
Proof.
  intros Hdt Hcounts.
  destruct (row_getitem_list_counts df cols i counts Hdt Hcounts)
    as (cells & Hsel & Hvals).
  unfold family_size_of_row. rewrite Hsel. cbn [mbind outcome_bind].
  unfold Series_sum. cbn [row_dtype row_cells]. rewrite Hvals.
  rewrite <- Z_sum_known_counts.
  destruct (default 0 <$> counts) as [|z zs]; [done|].
  rewrite fmap_cons, foldM_py_add_ints. done.
Qed.

(** X21: [create_family_size] does not fail on a missing count and does
    not propagate it. On a table with an object-typed column (its rows
    hold Python objects) that has every listed source column, with a
    Python int or a missing value in every row, the destination column
    holds the sum of the counts that are there, plus one; a row in which
    all the listed values are missing gets 1. *)
Theorem create_family_size_skips_missing σ l df cols dst :
  heap σ !! l = Some df →
  Object ∈ column_dtypes df →
  (∀ c, c ∈ cols → c ∈ column_names df) →
  forallb (λ i, bool_decide (is_Some (count_cells df cols i))) (lines df) = true →
  ∃ sizes,
    create_family_size (VRef l) cols dst σ
    = (Ret (VRef (length (heap σ))),
       mkState (heap σ ++ [tbl_setitem df dst sizes])
         (log σ ++ [LogInfo "Running create_family_size()"]))
    ∧ length (s_values sizes) = length (index df)
    ∧ ∀ i counts, (i < length (index df))%nat →
        count_cells df cols i = Some counts →
        cell (tbl_setitem df dst sizes) dst i
        = Some (OInt (Z_sum (known_counts counts) + 1))
        ∧ (known_counts counts = [] →
           cell (tbl_setitem df dst sizes) dst i = Some (OInt 1)).
Proof.
  intros Hl Hobj Hsub Hok. rewrite (create_family_size_run _ _ _ _ _ Hl).
  pose proof (frame_dtype_object df Hobj) as Hdt.
  assert (columns df ≠ []) as Hcols.
  { intros Hc. unfold frame_dtype in Hdt. by rewrite Hc in Hdt. }
  assert (∀ i, (i < length (index df))%nat →
            ∃ counts, count_cells df cols i = Some counts) as Hcounts.
  { intros i Hi. pose proof (forallb_lines _ df i Hok Hi) as Hline.
    by apply bool_decide_eq_true_1 in Hline as [counts ->]; eauto. }
  destruct (decide (index df = [])) as [Hindex|Hrows].
  { unfold size_table, apply_rows, apply_empty_result. rewrite Hindex.
    destruct (family_size_of_nan_row (column_names df) cols Hsub) as [r ->].
    simpl. exists (mkSeries Float64 []). split; [done|]. split; [done|].
    intros i zs Hi. simpl in Hi. lia. }
  rewrite size_table_standard; [|done..].
  destruct (mapM_outcome_total (λ row, family_size_of_row row cols)
              (iterrows df)) as [vals Hvals].
  { intros i row [Hlt ->]%iterrows_lookup. destruct (Hcounts i Hlt) as [counts Hc].
    rewrite (family_size_of_count_line df cols i counts Hdt Hc). eauto. }
  rewrite Hvals. cbn [mbind outcome_bind].
  exists (Series_of vals). split; [done|].
  pose proof (mapM_outcome_length _ _ _ Hvals) as Hlen.
  rewrite iterrows_length in Hlen.
  split; [by rewrite Series_of_length|].
  assert (∀ i counts, (i < length (index df))%nat →
            count_cells df cols i = Some counts →
            vals !! i = Some (OInt (Z_sum (known_counts counts) + 1))) as Hval.
  { intros i counts Hi Hc.
    assert (iterrows df !! i = Some (row_at df i)) as Hrow.
    { by apply iterrows_lookup. }
    destruct (mapM_outcome_lookup _ _ _ _ _ Hvals Hrow) as (a & Hai & Ha).
    rewrite (family_size_of_count_line df cols i counts Hdt Hc) in Ha.
    by injection Ha as <-. }
  destruct (list_all_of_form OInt (λ _, True) vals) as (ws & Hws & _).
  { intros v [i Hi]%list_elem_of_lookup_1.
    assert (i < length (index df))%nat as Hlt.
    { rewrite <- Hlen. by eapply lookup_lt_Some. }
    destruct (Hcounts i Hlt) as [counts Hc].
    rewrite (Hval i counts Hlt Hc) in Hi. injection Hi as <-.
    eexists. split; done. }
  intros i counts Hi Hc.
  assert (cell (tbl_setitem df dst (Series_of vals)) dst i
          = Some (OInt (Z_sum (known_counts counts) + 1))) as Hcell.
  { rewrite cell_setitem_eq. rewrite Hws at 1. rewrite Series_of_ints, <- Hws.
    by apply Hval. }
  split; [done|]. intros Hnone. rewrite Hcell, Hnone. done.
Qed.

Lemma create_family_size_skips_missing_witness :
  ∃ sizes,
    create_family_size (VRef 0) ["SibSp"; "Parch"] "FamilySize"
      (mkState [ex_counts] [])
    = (Ret (VRef (length [ex_counts])),
       mkState ([ex_counts] ++ [tbl_setitem ex_counts "FamilySize" sizes])
         ([] ++ [LogInfo "Running create_family_size()"]))
    ∧ length (s_values sizes) = length (index ex_counts)
    ∧ ∀ i counts, (i < length (index ex_counts))%nat →
        count_cells ex_counts ["SibSp"; "Parch"] i = Some counts →
        cell (tbl_setitem ex_counts "FamilySize" sizes) "FamilySize" i
        = Some (OInt (Z_sum (known_counts counts) + 1))
        ∧ (known_counts counts = [] →
           cell (tbl_setitem ex_counts "FamilySize" sizes) "FamilySize" i
           = Some (OInt 1)).
Proof.
  apply (create_family_size_skips_missing (mkState [ex_counts] []) 0 ex_counts).
  - reflexivity.
  - simpl. apply list_elem_of_here.
  - intros c Hc. apply (bool_decide_unpack _).
    repeat (apply elem_of_cons in Hc as [->|Hc]; [vm_compute; exact I|]).
    by apply elem_of_nil in Hc.
  - vm_compute. reflexivity.
Defined.

Example create_family_size_on_missing_counts :
  (λ t, s_values <$> lookup_col (columns t) "FamilySize")
    <$> heap (create_family_size (VRef 0) ["SibSp"; "Parch"] "FamilySize"
                (mkState [ex_counts] [])).2 !! 1%nat
  = Some (Some [OInt 4; OInt 3; OInt 1]).
Proof. vm_compute. reflexivity. Qed.

(** ** [create_title_cat] followed by [impute_age] *)

Lemma extract_title_Ret row src y :
  extract_title row src = Ret y → ∃ t, y = OStr t.
Proof.
  unfold extract_title. destruct (row_getitem row src) as [x|]; [|done].
  cbn [mbind outcome_bind]. destruct (re_search title_pattern x) as [[m|]|]; simpl;
    intros [= <-]; by eexists.
Qed.

Lemma extract_titles_of_texts df src :
  forallb (title_row_ok src) (iterrows df) = true →
  ∃ tokens,
    mapM_outcome (λ row, extract_title row src) (iterrows df)
    = Ret (OStr <$> tokens)
    ∧ ∀ i row text, iterrows df !! i = Some row →
        row_getitem row src = Ret (OStr text) →
        tokens !! i = Some (title_of text).
Proof.
  intros Hok. rewrite forallb_forall in Hok.
  destruct (mapM_outcome_total (λ row, extract_title row src) (iterrows df))
    as [vals Hvals].
  { intros i row Hrow.
    assert (title_row_ok src row = true) as Hr.
    { apply Hok. apply list_elem_of_In. by eapply list_elem_of_lookup_2. }
    unfold title_row_ok in Hr.
    destruct (row_getitem row src) as [[| |text| |]|] eqn:Hx; try done.
    exists (OStr (title_of text)). by apply extract_title_text. }
  destruct (list_all_of_form OStr (λ _, True) vals) as (tokens & -> & _).
  { intros v [i Hi]%list_elem_of_lookup_1.
    assert (i < length (iterrows df))%nat as Hlt.
    { rewrite <- (mapM_outcome_length _ _ _ Hvals). by eapply lookup_lt_Some. }
    destruct (lookup_lt_is_Some_2 _ _ Hlt) as [row Hrow].
    destruct (mapM_outcome_lookup _ _ _ _ _ Hvals Hrow) as (v' & Hv' & Hext).
    rewrite Hi in Hv'. injection Hv' as <-.
    destruct (extract_title_Ret _ _ _ Hext) as [t ->]. by exists t. }
  exists tokens. split; [done|]. intros i row text Hrow Hx.
  destruct (mapM_outcome_lookup _ _ _ _ _ Hvals Hrow) as (v & Hv & Hext).
  rewrite (extract_title_text row src text Hx) in Hext. injection Hext as <-.
  rewrite list_lookup_fmap in Hv. destruct (tokens !! i); [|done].
  by injection Hv as ->.
Qed.

(** X22: a title that neither table knows makes the two steps fail
    together. When every row has a text, [create_title_cat] passes the
    unknown token through as the category; if such a row has no age and
    the token is no key of the age table, [impute_age] on the result
    returns [None]. The input table is kept. *)
Theorem unknown_title_without_age_returns_None
    σ l df src dst (title_codes : gmap string string)
    age_src (age_codes : gmap string pyobj) i row text x :
  heap σ !! l = Some df →
  forallb (title_row_ok src) (iterrows df) = true →
  age_src ≠ dst →
  iterrows df !! i = Some row →
  row_getitem row src = Ret (OStr text) →
  row_getitem row age_src = Ret x → pd_isnull x = true →
  age_codes !! code_or_raw title_codes (title_of text) = None →
  ∃ e σ',
    (X ← create_title_cat (VRef l) src dst title_codes;
     impute_age X age_src dst age_codes) σ
    = (Ret VNone, σ')
    ∧ heap σ' !! l = Some df
    ∧ log σ' = log σ ++ [LogInfo "Running create_title_cat()";
                         LogInfo "Running impute_age()";
                         LogException "Error in impute_age()" e].
Proof.
  intros Hl Hok Hne Hrow Hx Hage Hnull Hunknown.
  destruct (extract_titles_of_texts df src Hok) as (tokens & Hvals & Hval).
  pose proof Hrow as [Hlt ->]%iterrows_lookup.
  assert (index df ≠ []) as Hrows by (by eapply index_nonempty).
  assert (columns df ≠ []) as Hcols by (by eapply row_getitem_columns).
  assert (tokens ≠ []) as Htokens.
  { intros ->. apply mapM_outcome_length in Hvals.
    rewrite iterrows_length in Hvals. simpl in Hvals. by destruct (index df). }
  rewrite bind_run, (create_title_cat_run _ _ _ _ _ _ Hl).
  rewrite title_table_standard; [|done..]. rewrite Hvals.
  cbn [mbind outcome_bind]. rewrite Series_of_strs; [|done].
  set (titles := Series_replace (mkSeries Object (OStr <$> tokens)) title_codes).
  set (df1 := tbl_setitem df dst titles).
  assert (frame_dtype df1 = Object) as Hdt.
  { apply (frame_dtype_Object df1 dst titles); [|done].
    unfold df1, tbl_setitem. simpl. apply lookup_col_cols_set_eq. }
  assert (iterrows df1 !! i = Some (row_at df1 i)) as Hrow1.
  { by apply iterrows_lookup. }
  assert (infer_age (row_at df1 i) age_src dst age_codes
          = Raise (UnboundLocalError "age")) as Hraise.
  { rewrite row_getitem_stored in Hage.
    destruct (cells_getitem (stored_row df i) age_src) as [v|] eqn:Hv; [|done].
    injection Hage as <-. rewrite as_row_cell_isnull in Hnull.
    apply (infer_age_unmapped _ _ _ _ v
             (OStr (code_or_raw title_codes (title_of text)))); [|done| |].
    - rewrite row_getitem_stored. unfold df1.
      rewrite stored_row_setitem_ne; [|done]. rewrite Hv. fold df1.
      by rewrite Hdt, as_row_cell_Object.
    - rewrite (row_getitem_cell df1 dst i
                 (OStr (code_or_raw title_codes (title_of text))));
        [by rewrite Hdt|].
      unfold df1. rewrite cell_setitem_eq. unfold titles. simpl.
      rewrite <- list_fmap_compose, list_lookup_fmap.
      rewrite (Hval i _ text (proj2 (iterrows_lookup df i _) (conj Hlt eq_refl)) Hx).
      cbn [fmap option_fmap option_map compose]. by rewrite replace_value_str.
    - simpl. apply bool_decide_eq_false_2. rewrite Hunknown. by intros [? [=]]. }
  destruct (mapM_outcome_raise (λ row, infer_age row age_src dst age_codes)
              (iterrows df1) i _ _ Hrow1 Hraise) as [e He].
  rewrite (impute_age_run _ _ df1); [|apply heap_lookup_fresh].
  rewrite age_table_standard; [|done|apply cols_set_nonempty].
  rewrite He. exists e. eexists. split; [done|]. simpl. split.
  - rewrite <- app_assoc. by apply lookup_app_l_Some.
  - by rewrite <- !app_assoc.
Qed.

Lemma unknown_title_without_age_returns_None_witness :
  ∃ e σ',
    (X ← create_title_cat (VRef 0) "Name" "TitleCategory" ex_title_codes;
     impute_age X "Age" "TitleCategory" ex_age_codes) (mkState [ex_doctor] [])
    = (Ret VNone, σ')
    ∧ heap σ' !! 0%nat = Some ex_doctor
    ∧ log σ' = [] ++ [LogInfo "Running create_title_cat()";
                      LogInfo "Running impute_age()";
                      LogException "Error in impute_age()" e].
Proof.
  apply (unknown_title_without_age_returns_None (mkState [ex_doctor] []) 0
           ex_doctor "Name" "TitleCategory" ex_title_codes "Age" ex_age_codes
           1 (row_at ex_doctor 1) "Minahan, Dr. William Edward"
           (OFloat PrimFloat.nan));
    try (vm_compute; reflexivity).
  discriminate.
Defined.
